(** * BikeNYCDeepSTN: temporal feature windowing of GeoTorchAI

    A shallow embedding of
    [geotorchai/datasets/grid/nyc_bike_deepstn.py] and the properties of its
    windowing and alignment core.

    Conventions of the embedding.
    - Python integers are [Z]; array dimensions and positions are [nat].
    - Array elements are rationals ([Q]).  Floating point rounding is not
      modelled; division by zero, which numpy answers with [nan]/[inf] and a
      warning (never an exception), is [Qdiv]'s [0] here, so statements about
      element values of the normalised series assume [min < max], and those
      about the normalised points of interest a non-zero channel maximum.
    - Integer arrays are [int64]: a Python integer that meets one in an
      arithmetic operation is converted to [int64] first, which raises
      [OverflowError] outside of [-2^63 .. 2^63 - 1] (numpy 2).
    - A four dimensional [ndarray] is a list of frames together with its three
      trailing dimensions, which numpy keeps even when the leading dimension
      is [0].
    - Exceptions are the [Raise] results of a small error monad.
    - Reading the two [.npy] files and the download are outside the model:
      [__init__] starts from the two loaded arrays. *)

From Stdlib Require Import ZArith QArith Qfield Qabs Lia.
From stdpp Require Import base tactics option list list_numbers.
From Stdlib Require String.
Import String.StringSyntax.
Delimit Scope string_scope with string.

Local Open Scope Z_scope.

(** ** Exceptions and the error monad *)

Inductive exn : Type :=
  | InvalidParametersException
  | IndexError
  | ValueError
  | AttributeError
  | OverflowError.

Inductive result (A : Type) : Type :=
  | Ok (a : A)
  | Raise (e : exn).

Arguments Ok {A} a.
Arguments Raise {A} e.

Definition bind {A B : Type} (m : result A) (k : A -> result B) : result B :=
  match m with
  | Ok a => k a
  | Raise e => Raise e
  end.

Notation "'let*' x ':=' m 'in' k" := (bind m (fun x => k))
  (at level 10, x name, m at level 100, k at level 200).
Notation "'let*' ' p ':=' m 'in' k" := (bind m (fun x => match x with p => k end))
  (at level 10, p pattern, m at level 100, k at level 200).

(** [for x in xs: s = body x s], stopping at the first exception. *)
Fixpoint for_each {I S : Type} (xs : list I) (body : I -> S -> result S) (s : S)
  : result S :=
  match xs with
  | [] => Ok s
  | x :: xs' => let* s' := body x s in for_each xs' body s'
  end.

(** Reading an attribute of [self] that may not have been assigned. *)
Definition getattr {A : Type} (o : option A) : result A :=
  match o with
  | Some a => Ok a
  | None => Raise AttributeError
  end.

(** ** Python sequence indexing *)

(** [PySlice_AdjustIndices] for step 1: a negative bound counts from the end,
    then both bounds are clamped to [0 .. n]. *)
Definition slice_bound (n : nat) (i : Z) : nat :=
  if i <? 0 then Z.to_nat (Z.max 0 (i + Z.of_nat n))
  else Z.to_nat (Z.min i (Z.of_nat n)).

(** [l[i:j]] *)
Definition py_slice {A : Type} (i j : Z) (l : list A) : list A :=
  let s := slice_bound (length l) i in
  let e := slice_bound (length l) j in
  take (e - s) (drop s l).

(** [l[i:]] *)
Definition py_slice_from {A : Type} (i : Z) (l : list A) : list A :=
  drop (slice_bound (length l) i) l.

(** An integer index into an axis of size [n]: [-n <= i < n], negative ones
    counting from the end; anything else is an [IndexError]. *)
Definition norm_index (n : nat) (i : Z) : result nat :=
  if (0 <=? i) && (i <? Z.of_nat n) then Ok (Z.to_nat i)
  else if (- Z.of_nat n <=? i) && (i <? 0) then Ok (Z.to_nat (i + Z.of_nat n))
  else Raise IndexError.

(** ** The part of numpy the dataset uses *)

Module np.

(** A [(height, width)] grid, a [(channels, height, width)] frame. *)
Abbreviation plane := (list (list Q)).
Abbreviation frame := (list (list (list Q))).

(** The element types of a loaded array that the model tells apart: an
    integer type, [int64], and a floating point type, [float64]. *)
Inductive dtype : Type :=
  | int64
  | float64.

Record ndarray3 : Type := NdArray3 {
  dtype3 : dtype;
  height3 : nat;
  width3 : nat;
  planes : list plane
}.

Record ndarray4 : Type := NdArray4 {
  channels : nat;
  height : nat;
  width : nat;
  frames : list frame
}.

Record ndarray5 : Type := NdArray5 {
  depth5 : nat;
  channels5 : nat;
  height5 : nat;
  width5 : nat;
  items : list (list frame)
}.

Definition shape (a : ndarray4) : nat * nat * nat * nat :=
  (length (frames a), channels a, height a, width a).

Definition shape5 (a : ndarray5) : nat * nat * nat * nat * nat :=
  (length (items a), depth5 a, channels5 a, height5 a, width5 a).

(** Every frame has the declared trailing dimensions. *)
Definition plane_ok (h w : nat) (p : plane) : Prop :=
  length p = h /\ Forall (fun r => length r = w) p.

(** The elements in row-major order. *)
Definition plane_elements (p : plane) : list Q := concat p.
Definition frame_elements (f : frame) : list Q := concat (map plane_elements f).
Definition elements (a : ndarray4) : list Q := concat (map frame_elements (frames a)).

Definition plane_sum (p : plane) : Q := foldr Qplus 0%Q (plane_elements p).
Definition frame_sum (f : frame) : Q := foldr Qplus 0%Q (frame_elements f).

(** Element-wise application of a scalar function (broadcasting). *)
Definition map_plane (f : Q -> Q) (p : plane) : plane := map (map f) p.
Definition map_frame (f : Q -> Q) (fr : frame) : frame := map (map_plane f) fr.
Definition map_elements (f : Q -> Q) (a : ndarray4) : ndarray4 :=
  NdArray4 (channels a) (height a) (width a) (map (map_frame f) (frames a)).

Definition full_plane (h w : nat) (v : Q) : plane := replicate h (replicate w v).

(** [np.zeros([n, c, h, w])] *)
Definition zeros (n c h w : nat) : ndarray4 :=
  NdArray4 c h w (replicate n (replicate c (full_plane h w 0%Q))).

(** [np.arange(n, dtype=int)] *)
Definition arange (n : nat) : list Z := seqZ 0 (Z.of_nat n).

(** A Python integer as the operand of an operation with an [int64] array:
    it has to fit into [int64]. *)
Definition as_int64 (x : Z) : result Z :=
  if (- 2 ^ 63 <=? x) && (x <? 2 ^ 63) then Ok x else Raise OverflowError.

(** Integer [%] and [//] of numpy on two [int64] values: floor division, the
    remainder takes the sign of the divisor; a zero divisor gives [0] (with a
    warning). *)
Definition remainder (a b : Z) : Z := if b =? 0 then 0 else a mod b.
Definition floor_divide (a b : Z) : Z := if b =? 0 then 0 else a / b.

(** [a % b] and [a // b] for an [int64] array [a] and a Python integer [b]. *)
Definition array_remainder (a : list Z) (b : Z) : result (list Z) :=
  let* b' := as_int64 b in Ok (map (fun t => remainder t b') a).
Definition array_floor_divide (a : list Z) (b : Z) : result (list Z) :=
  let* b' := as_int64 b in Ok (map (fun t => floor_divide t b') a).

(** Storing a quotient, a [float64], into an array of the given element type:
    an [int64] array keeps the integer part. *)
Definition Qtruncate (x : Q) : Z := Z.quot (Qnum x) (Z.pos (Qden x)).
Definition astype (dt : dtype) (x : Q) : Q :=
  match dt with
  | float64 => x
  | int64 => inject_Z (Qtruncate x)
  end.

(** [np.max] and [np.min] of a flattened array; a zero-size array has no
    maximum. *)
Definition qmax (a b : Q) : Q := if Qle_bool a b then b else a.
Definition qmin (a b : Q) : Q := if Qle_bool a b then a else b.

Definition max_of (xs : list Q) : result Q :=
  match xs with
  | [] => Raise ValueError
  | x :: xs' => Ok (foldl qmax x xs')
  end.

Definition min_of (xs : list Q) : result Q :=
  match xs with
  | [] => Raise ValueError
  | x :: xs' => Ok (foldl qmin x xs')
  end.

Definition max (a : ndarray4) : result Q := max_of (elements a).
Definition min (a : ndarray4) : result Q := min_of (elements a).

(** [a[i:j]] and [a[i:]] along the leading axis. *)
Definition slice (a : ndarray4) (i j : Z) : ndarray4 :=
  NdArray4 (channels a) (height a) (width a) (py_slice i j (frames a)).

Definition slice_from (a : ndarray4) (i : Z) : ndarray4 :=
  NdArray4 (channels a) (height a) (width a) (py_slice_from i (frames a)).

(** [a[i, c, :, :] = v] *)
Definition assign_plane (a : ndarray4) (i c : Z) (v : Q) : result ndarray4 :=
  let* i' := norm_index (length (frames a)) i in
  let* c' := norm_index (channels a) c in
  Ok (NdArray4 (channels a) (height a) (width a)
        (alter (fun fr => <[c' := full_plane (height a) (width a) v]> fr) i' (frames a))).

(** [np.concatenate((a, b), axis=1)]: every dimension but the channel one
    has to agree. *)
Definition concatenate (a b : ndarray4) : result ndarray4 :=
  if decide (length (frames a) = length (frames b)
             /\ height a = height b /\ width a = width b)
  then Ok (NdArray4 (channels a + channels b) (height a) (width a)
             (zip_with app (frames a) (frames b)))
  else Raise ValueError.

(** [np.stack(xs)]: at least one array, all of one shape. *)
Definition stack (xs : list ndarray4) : result ndarray5 :=
  match xs with
  | [] => Raise ValueError
  | x :: _ =>
      if decide (Forall (fun y => shape y = shape x) xs)
      then Ok (NdArray5 (length (frames x)) (channels x) (height x) (width x)
                 (map frames xs))
      else Raise ValueError
  end.

(** [p.reshape(1, c, h, w)] of a [(c, h', w')] array, row-major. *)
Definition reshape (p : ndarray3) (h w : nat) : result frame :=
  let c := length (planes p) in
  if decide ((c * height3 p * width3 p)%nat = (c * h * w)%nat)
  then
    let flat := concat (map plane_elements (planes p)) in
    Ok (map (fun k => map (fun y => take w (drop ((k * h + y) * w) flat)) (seq 0 h))
            (seq 0 c))
  else Raise ValueError.

(** [np.repeat(f, n, axis=0)] of a single frame. *)
Definition repeat (f : frame) (c h w n : nat) : ndarray4 :=
  NdArray4 c h w (replicate n f).

End np.

Import np.

(** [range(a, b)] and [range(n)] *)
Definition range (a b : Z) : list Z := seqZ a (b - a).

(** [xs[i]] for an index produced by [range(len(xs))]. *)
Definition getitem {A : Type} (xs : list A) (i : nat) : result A :=
  match xs !! i with
  | Some x => Ok x
  | None => Raise IndexError
  end.

(** ** Tensors, samples and the dataset object *)

(** [Y_data] is four dimensional in the periodical representation and five
    dimensional in the sequential one. *)
Inductive tensor : Type :=
  | Tensor4 (a : ndarray4)
  | Tensor5 (a : ndarray5).

(** [len(t)] *)
Definition len (t : tensor) : Z :=
  match t with
  | Tensor4 a => Z.of_nat (length (frames a))
  | Tensor5 a => Z.of_nat (length (items a))
  end.

(** The elements of a tensor in row-major order. *)
Definition tensor_elements (t : tensor) : list Q :=
  match t with
  | Tensor4 a => elements a
  | Tensor5 a => concat (map (fun fs => concat (map frame_elements fs)) (items a))
  end.

(** [t[index]]: one entry along the leading axis. *)
Inductive item : Type :=
  | Frame (f : frame)
  | Frames (fs : list frame).

Definition tensor_getitem (t : tensor) (index : Z) : result item :=
  match t with
  | Tensor4 a =>
      let* i := norm_index (length (frames a)) index in
      let* f := getitem (frames a) i in Ok (Frame f)
  | Tensor5 a =>
      let* i := norm_index (length (items a)) index in
      let* fs := getitem (items a) i in Ok (Frames fs)
  end.

(** The dictionaries [__getitem__] returns. *)
Inductive sample : Type :=
  | periodical_sample (x_closeness x_period x_trend t_data p_data y_data : item)
  | xy_sample (x_data y_data : item).

(** The attributes [_create_feature_vector] assigns. *)
Record feature_vector : Type := FeatureVector {
  fv_X_closeness : ndarray4;
  fv_X_period : ndarray4;
  fv_X_trend : ndarray4;
  fv_T_data : ndarray4;
  fv_P_data : ndarray4;
  fv_Y_data : ndarray4
}.

(** The attributes of a constructed [BikeNYCDeepSTN]; [X_data], [lead_time_data]
    and [lead_time] exist only after the mode switch that assigns them. *)
Record BikeNYCDeepSTN : Type := Dataset {
  full_data : ndarray4;
  min_max_diff : Q;
  X_closeness : ndarray4;
  X_period : ndarray4;
  X_trend : ndarray4;
  T_data : ndarray4;
  P_data : ndarray4;
  Y_data : tensor;
  X_data : option ndarray5;
  lead_time_data : option ndarray4;
  lead_time : option Z;
  use_lead_time : bool;
  sequential : bool;
  periodical : bool
}.

(** ** [_create_feature_vector] *)

(** Lines 160-162 and 165-167: a zero array of [size] channels in which frame
    [i] gets channel [index[i]] set to one. *)
Definition one_hot_matrix (len_total : nat) (index : list Z) (size h w : nat)
  : result ndarray4 :=
  for_each (seq 0 len_total)
    (fun i m => let* c := getitem index i in assign_plane m (Z.of_nat i) c 1%Q)
    (zeros len_total size h w).

(** Line 159: [time % T_period]. *)
Definition time_hour (len_total : nat) (T_period : Z) : result (list Z) :=
  array_remainder (arange len_total) T_period.

(** Line 164: [(time // T_period) % 7]. *)
Definition time_day (len_total : nat) (T_period : Z) : result (list Z) :=
  let* days := array_floor_divide (arange len_total) T_period in
  array_remainder days 7.

(** Lines 158-167: the hour and the day one-hot matrices. *)
Definition temporal_matrices (len_total : nat) (T_period : Z) (h w : nat)
  : result (ndarray4 * ndarray4) :=
  let* hours := time_hour len_total T_period in
  let* matrix_hour := one_hot_matrix len_total hours 24 h w in
  let* days := time_day len_total T_period in
  let* matrix_day := one_hot_matrix len_total days 7 h w in
  Ok (matrix_hour, matrix_day).

(** Lines 171-178. *)
Definition number_of_skip_hours
  (len_closeness len_period len_trend T_closeness T_period T_trend : Z) : result Z :=
  if 0 <? len_trend then Ok (T_trend * len_trend)
  else if 0 <? len_period then Ok (T_period * len_period)
  else if 0 <? len_closeness then Ok (T_closeness * len_closeness)
  else Raise InvalidParametersException.

(** Lines 183-185, 187-189 and 191-193, which differ only in the scale: the
    first lagged slice, then one concatenation per further lag. *)
Definition lagged_window (all_data : ndarray4) (skip len_total T len_scale : Z)
  : result ndarray4 :=
  for_each (range 0 (len_scale - 1))
    (fun i X =>
       concatenate X (slice all_data (skip - T * (2 + i)) (len_total - T * (2 + i))))
    (slice all_data (skip - T) (len_total - T)).

(** [if len_scale > 0: self.X_scale = ...]; the attribute stays unassigned
    otherwise. *)
Definition scale_attribute (all_data : ndarray4) (skip len_total T len_scale : Z)
  : result (option ndarray4) :=
  if 0 <? len_scale
  then let* X := lagged_window all_data skip len_total T len_scale in Ok (Some X)
  else Ok None.

(** Lines 202-203: every channel of [poi] divided by its own maximum and
    stored back into [poi], which keeps its element type. *)
Definition normalize_poi (dt : dtype) (poi : list plane) : result (list plane) :=
  for_each (seq 0 (length poi))
    (fun i ps =>
       let* p := getitem ps i in
       let* m := max_of (plane_elements p) in
       Ok (<[i := map_plane (fun x => astype dt (x / m)%Q) p]> ps))
    poi.

Definition _create_feature_vector (all_data : ndarray4) (poi : ndarray3)
  (len_closeness len_period len_trend T_closeness T_period T_trend : Z)
  : result feature_vector :=
  let '(n, feature, map_height, map_width) := shape all_data in
  let len_total := Z.of_nat n in
  let* '(matrix_hour, matrix_day) :=
    temporal_matrices n T_period map_height map_width in
  let* matrix_T := concatenate matrix_hour matrix_day in
  let* skip :=
    number_of_skip_hours len_closeness len_period len_trend T_closeness T_period T_trend in
  let Y := slice all_data skip len_total in
  let* X_closeness := scale_attribute all_data skip len_total T_closeness len_closeness in
  let* X_period := scale_attribute all_data skip len_total T_period len_period in
  let* X_trend := scale_attribute all_data skip len_total T_trend len_trend in
  let matrix_T := slice_from matrix_T skip in
  let* Xc := getattr X_closeness in
  let len_data := length (frames Xc) in
  let* poi' := normalize_poi (dtype3 poi) (planes poi) in
  let* p :=
    reshape (NdArray3 (dtype3 poi) (height3 poi) (width3 poi) poi')
      map_height map_width in
  let P := repeat p (length (planes poi)) map_height map_width len_data in
  let* Xp := getattr X_period in
  let* Xt := getattr X_trend in
  Ok (FeatureVector Xc Xp Xt matrix_T P Y).

(** ** The class *)

Definition normalization (max_data min_data : Q) (x : Q) : Q :=
  ((2 * x - (max_data + min_data)) / (max_data - min_data))%Q.

Definition __init__ (flow_data : ndarray4) (poi_data : ndarray3)
  (len_closeness len_period len_trend T_closeness T_period T_trend : Z)
  (normalize : bool) : result BikeNYCDeepSTN :=
  let full := flow_data in
  let* max_data := np.max full in
  let* min_data := np.min full in
  let diff := (max_data - min_data)%Q in
  let full :=
    if normalize then map_elements (normalization max_data min_data) full else full in
  let* fv :=
    _create_feature_vector full poi_data
      len_closeness len_period len_trend T_closeness T_period T_trend in
  Ok {| full_data := full;
        min_max_diff := diff;
        X_closeness := fv_X_closeness fv;
        X_period := fv_X_period fv;
        X_trend := fv_X_trend fv;
        T_data := fv_T_data fv;
        P_data := fv_P_data fv;
        Y_data := Tensor4 (fv_Y_data fv);
        X_data := None;
        lead_time_data := None;
        lead_time := None;
        use_lead_time := false;
        sequential := false;
        periodical := true |}.

(** The constructor with the defaults of its signature. *)
Definition default_init (flow_data : ndarray4) (poi_data : ndarray3)
  : result BikeNYCDeepSTN :=
  __init__ flow_data poi_data 3 4 4 1 24 (24 * 7) true.

Definition get_min_max_difference (self : BikeNYCDeepSTN) : Q :=
  min_max_diff self.

Definition set_sequential_representation (self : BikeNYCDeepSTN)
  (history_length prediction_length : Z) : result BikeNYCDeepSTN :=
  let total_length := Z.of_nat (length (frames (full_data self))) in
  let ends := range (history_length + prediction_length) total_length in
  let history_data :=
    map (fun end_idx =>
           slice (full_data self)
             (end_idx - prediction_length - history_length)
             (end_idx - prediction_length)) ends in
  let predict_data :=
    map (fun end_idx => slice (full_data self) (end_idx - prediction_length) end_idx)
        ends in
  let* history_data := stack history_data in
  let* predict_data := stack predict_data in
  Ok {| full_data := full_data self;
        min_max_diff := min_max_diff self;
        X_closeness := X_closeness self;
        X_period := X_period self;
        X_trend := X_trend self;
        T_data := T_data self;
        P_data := P_data self;
        Y_data := Tensor5 predict_data;
        X_data := Some history_data;
        lead_time_data := lead_time_data self;
        lead_time := lead_time self;
        use_lead_time := false;
        sequential := true;
        periodical := false |}.

Definition merge_closeness_period_trend (self : BikeNYCDeepSTN) (lead : Z)
  : BikeNYCDeepSTN :=
  {| full_data := full_data self;
     min_max_diff := min_max_diff self;
     X_closeness := X_closeness self;
     X_period := X_period self;
     X_trend := X_trend self;
     T_data := T_data self;
     P_data := P_data self;
     Y_data := Y_data self;
     X_data := X_data self;
     lead_time_data := Some (full_data self);
     lead_time := Some lead;
     use_lead_time := true;
     sequential := false;
     periodical := false |}.

(** The default [lead_time = 2*24]. *)
Definition default_lead_time : Z := 2 * 24.

Definition __len__ (self : BikeNYCDeepSTN) : result Z :=
  if use_lead_time self then
    let* d := getattr (lead_time_data self) in
    let* l := getattr (lead_time self) in
    Ok (Z.of_nat (length (frames d)) - l)
  else Ok (len (Y_data self)).

Definition __getitem__ (self : BikeNYCDeepSTN) (index : Z) : result sample :=
  if periodical self then
    let* xc := tensor_getitem (Tensor4 (X_closeness self)) index in
    let* xp := tensor_getitem (Tensor4 (X_period self)) index in
    let* xt := tensor_getitem (Tensor4 (X_trend self)) index in
    let* t := tensor_getitem (Tensor4 (T_data self)) index in
    let* p := tensor_getitem (Tensor4 (P_data self)) index in
    let* y := tensor_getitem (Y_data self) index in
    Ok (periodical_sample xc xp xt t p y)
  else if use_lead_time self then
    let* d := getattr (lead_time_data self) in
    let* l := getattr (lead_time self) in
    let* x := tensor_getitem (Tensor4 d) index in
    let* y := tensor_getitem (Tensor4 d) (index + l) in
    Ok (xy_sample x y)
  else
    let* X := getattr (X_data self) in
    let* x := tensor_getitem (Tensor5 X) index in
    let* y := tensor_getitem (Y_data self) index in
    Ok (xy_sample x y).

(** The inverse of [normalization], from the stored difference and the sum
    of the extrema. *)
Definition denormalization (diff sum : Q) (y : Q) : Q :=
  ((y * diff + sum) / 2)%Q.

(** ** Auxiliary notions used in the statements *)

(** The sum of a list of rationals. *)
Definition qsum (xs : list Q) : Q := foldr Qplus 0%Q xs.

(** A frame of [size] channels: channel [c] all ones, the others all zeros. *)
Definition one_hot_frame (size h w c : nat) : frame :=
  <[c := full_plane h w 1%Q]> (replicate size (full_plane h w 0%Q)).

(** The hour and the day index of every time step, for a period that fits
    into [int64]. *)
Definition hour_indices (len_total : nat) (T_period : Z) : list Z :=
  map (fun t => remainder t T_period) (arange len_total).
Definition day_indices (len_total : nat) (T_period : Z) : list Z :=
  map (fun t => remainder (floor_divide t T_period) 7) (arange len_total).

(** The periods for which every hour index of a series of [len_total] steps
    is an index into the 24 hour channels. *)
Definition mask_period (len_total : nat) (T_period : Z) : Prop :=
  -25 <= T_period <= 24
  \/ (24 < T_period < 2 ^ 63 /\ (len_total <= 24)%nat)
  \/ (- 2 ^ 63 <= T_period < -25 /\ (len_total <= 1)%nat).

(** The state of the loop of [one_hot_matrix] before iteration [i]. *)
Definition one_hot_upto (n : nat) (index : list Z) (size h w : nat)
  (i : nat) (m : ndarray4) : Prop :=
  channels m = size /\ height m = h /\ width m = w /\ length (frames m) = n
  /\ (forall j, (j < i)%nat ->
        exists cj c, index !! j = Some cj /\ norm_index size cj = Ok c
                     /\ frames m !! j = Some (one_hot_frame size h w c))
  /\ (forall j, (i <= j < n)%nat ->
        frames m !! j = Some (replicate size (full_plane h w 0%Q))).

(** The [k]-th lagged slice of a scale, [raw[skip - T*k : len_total - T*k]]. *)
Definition lag_slice (all_data : ndarray4) (skip len_total T k : Z) : list frame :=
  py_slice (skip - T * k) (len_total - T * k) (frames all_data).

(** Sample [j] of a window of [L] lags: entry [j] of the lagged slices
    [1 .. L], concatenated along the channel axis in this order. *)
Definition window_frame (all_data : ndarray4) (skip len_total T L : Z) (j : nat)
  : frame :=
  concat (map (fun k => default [] (lag_slice all_data skip len_total T k !! j))
              (seqZ 1 L)).

(** The state of the loop of [lagged_window] after [i] concatenations. *)
Definition window_upto (all_data : ndarray4) (skip len_total T : Z) (m : nat)
  (i : nat) (X : ndarray4) : Prop :=
  channels X = (S i * channels all_data)%nat
  /\ height X = height all_data /\ width X = width all_data
  /\ length (frames X) = m
  /\ forall j, (j < m)%nat ->
       frames X !! j
       = Some (window_frame all_data skip len_total T (Z.of_nat (S i)) j).

(** What the constructor needs of the point-of-interest grid: every channel
    has a maximum, and the grid can be reshaped to the grid of the series. *)
Definition poi_fits (poi : ndarray3) (all_data : ndarray4) : Prop :=
  Forall (fun p => plane_elements p <> []) (planes poi)
  /\ (length (planes poi) * height3 poi * width3 poi
      = length (planes poi) * height all_data * width all_data)%nat.

(** The state of the loop of [normalize_poi] before iteration [i]. *)
Definition poi_upto (poi : list plane) (i : nat) (ps : list plane) : Prop :=
  length ps = length poi
  /\ forall j, (i <= j)%nat -> ps !! j = poi !! j.

(** The lag spans [T_s * len_s] of the enabled scales, and their maximum:
    the skip offset as the data model of the specification words it. *)
Definition enabled_spans
  (len_closeness len_period len_trend T_closeness T_period T_trend : Z) : list Z :=
  (if 0 <? len_closeness then [T_closeness * len_closeness] else [])
  ++ (if 0 <? len_period then [T_period * len_period] else [])
  ++ (if 0 <? len_trend then [T_trend * len_trend] else []).

Definition max_lag_span
  (len_closeness len_period len_trend T_closeness T_period T_trend : Z) : option Z :=
  match enabled_spans len_closeness len_period len_trend
          T_closeness T_period T_trend with
  | [] => None
  | s :: ss => Some (foldl Z.max s ss)
  end.

(** ** Concrete inputs *)

(** The synthetic series [raw[t] = t]: [n] frames of one channel and one cell. *)
Definition ramp (n : nat) : ndarray4 :=
  NdArray4 1 1 1 (map (fun t => [[[inject_Z t]]]) (arange n)).

(** A point-of-interest grid of one channel and one cell. *)
Definition unit_poi : ndarray3 := NdArray3 float64 1 1 [[[1%Q]]].

(** The dataset of ten frames [raw[t] = t] with two closeness lags of one
    step, one period lag of two steps and one trend lag of three steps. *)
Definition ramp_dataset : BikeNYCDeepSTN :=
  ltac:(let r := eval vm_compute in (__init__ (ramp 10) unit_poi 2 1 1 1 2 3 true) in
        match r with
        | Ok ?ds => exact ds
        end).

(** ** Auxiliary notions of the further properties *)

(** A channel of the point-of-interest grid divided by its maximum and stored
    with the element type of the grid. *)
Definition normalized_plane (dt : dtype) (p : plane) : plane :=
  match max_of (plane_elements p) with
  | Ok m => map_plane (fun x => astype dt (x / m)%Q) p
  | Raise _ => p
  end.

(** The state of the loop of [normalize_poi] before iteration [i], channel by
    channel. *)
Definition poi_done_upto (dt : dtype) (poi : list plane) (i : nat)
  (ps : list plane) : Prop :=
  length ps = length poi
  /\ forall j, ps !! j = if decide (j < i)%nat
                         then normalized_plane dt <$> poi !! j
                         else poi !! j.

(** Every channel has a maximum, and it is not zero. *)
Definition nonzero_maxima (poi : list plane) : Prop :=
  Forall (fun p => exists m, max_of (plane_elements p) = Ok m /\ ~ (m == 0)%Q) poi.

(** The objects a freshly constructed dataset [ds0] can become by calls of
    its two mode switches, in any number and order. *)
Inductive reachable_from (ds0 : BikeNYCDeepSTN) : BikeNYCDeepSTN -> Prop :=
  | reach_constructed : reachable_from ds0 ds0
  | reach_merge (ds : BikeNYCDeepSTN) (lead : Z) :
      reachable_from ds0 ds ->
      reachable_from ds0 (merge_closeness_period_trend ds lead)
  | reach_sequential (ds ds' : BikeNYCDeepSTN) (history_length prediction_length : Z) :
      reachable_from ds0 ds ->
      set_sequential_representation ds history_length prediction_length = Ok ds' ->
      reachable_from ds0 ds'.

(** Exactly one of the three mode flags is set. *)
Definition one_mode (ds : BikeNYCDeepSTN) : Prop :=
  (periodical ds = true /\ sequential ds = false /\ use_lead_time ds = false)
  \/ (periodical ds = false /\ sequential ds = true /\ use_lead_time ds = false)
  \/ (periodical ds = false /\ sequential ds = false /\ use_lead_time ds = true).

(** ** The directory search *)

(** A file system below a directory, as [os.listdir] and [os.path.isdir] see
    it: a finite tree whose directories list their entries by name.  (Links
    that close a cycle are outside the model.) *)
#[local] Set Warnings "-register-all".
Inductive fs_node : Type :=
  | fs_file
  | fs_dir (entries : list (String.string * fs_node)).

Abbreviation listing := (list (String.string * fs_node)).

(** [name in folders] *)
Definition name_in (name : String.string) (folders : list String.string) : bool :=
  existsb (String.eqb name) folders.

(** [os.listdir(data_dir)] *)
Definition listdir (entries : listing) : list String.string := map fst entries.

(** The test of line 144. *)
Definition holds_data (entries : listing) : bool :=
  name_in "flow_data.npy"%string (listdir entries)
  && name_in "poi_data.npy"%string (listdir entries).

(** Lines 147-149: the sub-directories of [data_dir], in the order of the
    listing, each under the path [data_dir + "/" + folder]. *)
Fixpoint subdirectories (data_dir : String.string) (entries : listing)
  : list (String.string * listing) :=
  match entries with
  | [] => []
  | (folder, fs_dir sub) :: rest =>
      (String.append data_dir (String.append "/"%string folder), sub)
      :: subdirectories data_dir rest
  | (_, fs_file) :: rest => subdirectories data_dir rest
  end.

(** The number of directories of a tree, which bounds the iterations of the
    loop. *)
Fixpoint fs_dirs (node : fs_node) : nat :=
  match node with
  | fs_file => 0%nat
  | fs_dir entries =>
      S ((fix go (es : listing) : nat :=
            match es with
            | [] => 0%nat
            | (_, n) :: es' => (fs_dirs n + go es')%nat
            end) entries)
  end.

Definition queue_dirs (queue : list (String.string * listing)) : nat :=
  list_sum (map (fun q => fs_dirs (fs_dir (snd q))) queue).

(** The loop of lines 141-149; [None] when the iterations run out. *)
Fixpoint get_path_loop (fuel : nat) (queue : list (String.string * listing))
  : option (option String.string) :=
  match fuel with
  | O => None
  | S fuel' =>
      match queue with
      | [] => Some None
      | (data_dir, entries) :: queue' =>
          if holds_data entries then Some (Some data_dir)
          else get_path_loop fuel' (queue' ++ subdirectories data_dir entries)
      end
  end.

(** [_get_path(root_dir)], for a root directory with the listing [root]. *)
Definition _get_path (root_dir : String.string) (root : listing)
  : option String.string :=
  match get_path_loop (S (fs_dirs (fs_dir root))) [(root_dir, root)] with
  | Some r => r
  | None => None
  end.

(** The directory [path], with listing [entries], lies [depth] levels below
    the directory [top]. *)
Inductive dir_at (top : String.string) (top_entries : listing)
  : nat -> String.string -> listing -> Prop :=
  | dir_top : dir_at top top_entries 0%nat top top_entries
  | dir_child (depth : nat) (path folder : String.string) (entries sub : listing) :
      dir_at top top_entries depth path entries ->
      In (folder, fs_dir sub) entries ->
      dir_at top top_entries (S depth)
        (String.append path (String.append "/"%string folder)) sub.

(** A small tree: the data files lie in [root/b] and, one level deeper, in
    [root/a/deep]. *)
Definition sample_tree : listing :=
  [("a", fs_dir [("deep", fs_dir [("flow_data.npy", fs_file);
                                   ("poi_data.npy", fs_file)]);
                 ("flow_data.npy", fs_file)]);
   ("readme", fs_file);
   ("b", fs_dir [("poi_data.npy", fs_file); ("flow_data.npy", fs_file)])]%string.

(** The queue of the search as two levels: the directories still to visit at
    depth [d], then the sub-directories found so far at depth [d + 1]; every
    directory that holds the data files lies in or below one of them. *)
Definition bfs_state (root_dir : String.string) (root : listing) (d : nat)
  (cur next : list (String.string * listing)) : Prop :=
  (forall q, In q cur -> dir_at root_dir root d (fst q) (snd q))
  /\ (forall q, In q next -> dir_at root_dir root (S d) (fst q) (snd q))
  /\ forall k p sub,
       dir_at root_dir root k p sub -> holds_data sub = true ->
       (exists q j, In q cur /\ dir_at (fst q) (snd q) j p sub /\ k = (d + j)%nat)
       \/ (exists q j, In q next /\ dir_at (fst q) (snd q) j p sub
                       /\ k = (S d + j)%nat).

(** ** The errors the training script reports *)

(** [a[:, i:j]]: the slice of every frame along the channel axis. *)
Definition slice_channels (a : ndarray4) (i j : Z) : ndarray4 :=
  NdArray4 (slice_bound (channels a) j - slice_bound (channels a) i)
    (height a) (width a) (map (py_slice i j) (frames a)).

(** Broadcasting of two axes: equal sizes, or one of them 1, which is
    stretched; anything else is a [ValueError]. *)
Definition broadcast_dim (a b : nat) : result nat :=
  if decide (a = b) then Ok a
  else if decide (a = 1%nat) then Ok b
  else if decide (b = 1%nat) then Ok a
  else Raise ValueError.

Definition stretch {A : Type} (n : nat) (l : list A) : list A :=
  if decide (length l = n) then l
  else match l with
       | [x] => replicate n x
       | _ => l
       end.

Definition broadcast_with {A B C : Type} (n : nat) (f : A -> B -> C)
  (la : list A) (lb : list B) : list C :=
  zip_with f (stretch n la) (stretch n lb).

(** [a - b] for two four dimensional arrays. *)
Definition subtract (a b : ndarray4) : result ndarray4 :=
  let* n := broadcast_dim (length (frames a)) (length (frames b)) in
  let* c := broadcast_dim (channels a) (channels b) in
  let* h := broadcast_dim (height a) (height b) in
  let* w := broadcast_dim (width a) (width b) in
  Ok (NdArray4 c h w
        (broadcast_with n
           (broadcast_with c (broadcast_with h (broadcast_with w Qminus)))
           (frames a) (frames b))).

(** [np.mean] of an array that is not empty. *)
Definition mean (xs : list Q) : Q :=
  (qsum xs / inject_Z (Z.of_nat (length xs)))%Q.

(** The [mae] that [compute_errors] returns, lines 155, 156 and 160; its
    [mse] and [rmse] are not part of the model. *)
Definition mean_absolute_error (preds y_true : ndarray4) : result Q :=
  let pred_mean := slice_channels preds 0 2 in
  let* diff := subtract y_true pred_mean in
  Ok (mean (elements (map_elements Qabs diff))).

(** The error printed as real, [mae * min_max_diff/2]. *)
Definition real_error (err min_max_diff : Q) : Q :=
  (err * min_max_diff / 2)%Q.

(** * Properties *)

(** ** The error monad and the loop *)

Lemma bind_Ok_inv {A B : Type} (m : result A) (k : A -> result B) (b : B) :
  bind m k = Ok b -> exists a, m = Ok a /\ k a = Ok b.
Proof. destruct m as [a|e]; simpl; [eauto | discriminate]. Qed.

Lemma getattr_Ok_inv {A : Type} (o : option A) (a : A) :
  getattr o = Ok a -> o = Some a.
Proof. destruct o; simpl; congruence. Qed.

Section ForEach.
Context {I St : Type}.
Implicit Types (xs : list I) (body : I -> St -> result St) (Inv : nat -> St -> Prop).

(** Total correctness: the body succeeds and re-establishes the invariant
    at every position, so the loop does. *)
Lemma for_each_total xs body Inv s :
  Inv 0%nat s ->
  (forall i x s, xs !! i = Some x -> Inv i s ->
                 exists s', body x s = Ok s' /\ Inv (S i) s') ->
  exists s', for_each xs body s = Ok s' /\ Inv (length xs) s'.
Proof.
  revert Inv s. induction xs as [|x xs IH]; intros Inv s H0 Hstep; simpl.
  - eauto.
  - destruct (Hstep 0%nat x s eq_refl H0) as (s1 & -> & H1). simpl.
    apply (IH (fun i => Inv (S i))); [exact H1|].
    intros i y t Hy Ht. apply (Hstep (S i)); assumption.
Qed.

(** Partial correctness: whatever the loop returns satisfies the invariant. *)
Lemma for_each_partial xs body Inv s s' :
  Inv 0%nat s ->
  (forall i x s s', xs !! i = Some x -> Inv i s -> body x s = Ok s' -> Inv (S i) s') ->
  for_each xs body s = Ok s' -> Inv (length xs) s'.
Proof.
  revert Inv s. induction xs as [|x xs IH]; intros Inv s H0 Hstep; simpl.
  - intros [= <-]. exact H0.
  - intros H. apply bind_Ok_inv in H as (s1 & Hb & H).
    apply (IH (fun i => Inv (S i)) s1); [|  |exact H].
    + apply (Hstep 0%nat x s s1); auto.
    + intros i y t t' Hy Ht. apply (Hstep (S i)); assumption.
Qed.

(** The loop stops with the exception of the first failing iteration. *)
Lemma for_each_raise xs body Inv s j x e :
  Inv 0%nat s ->
  xs !! j = Some x ->
  (forall i y s, (i < j)%nat -> xs !! i = Some y -> Inv i s ->
                 exists s', body y s = Ok s' /\ Inv (S i) s') ->
  (forall s, Inv j s -> body x s = Raise e) ->
  for_each xs body s = Raise e.
Proof.
  revert Inv s j. induction xs as [|y xs IH]; intros Inv s j H0 Hj Hstep Hfail.
  - discriminate.
  - destruct j as [|j]; simpl in *.
    + injection Hj as ->. rewrite (Hfail s H0). reflexivity.
    + destruct (Hstep 0%nat y s) as (s1 & -> & H1); [lia|reflexivity|exact H0|].
      simpl. apply (IH (fun i => Inv (S i)) s1 j); auto.
      intros i z t Hi Hz Ht. apply (Hstep (S i)); auto. lia.
Qed.

(** A loop whose body raises nothing but [e] raises nothing but [e]. *)
Lemma for_each_only_raises xs body e s :
  (forall x s, (exists s', body x s = Ok s') \/ body x s = Raise e) ->
  (exists s', for_each xs body s = Ok s') \/ for_each xs body s = Raise e.
Proof.
  intros Hb. revert s. induction xs as [|x xs IH]; intros s; simpl.
  - eauto.
  - destruct (Hb x s) as [(s1 & ->)| ->]; simpl; auto.
Qed.
End ForEach.

(** ** Slices *)

Lemma slice_bound_le (n : nat) (i : Z) : (slice_bound n i <= n)%nat.
Proof. unfold slice_bound. destruct (Z.ltb_spec i 0); lia. Qed.

Lemma slice_bound_in_range (n : nat) (i : Z) :
  0 <= i <= Z.of_nat n -> slice_bound n i = Z.to_nat i.
Proof. intros H. unfold slice_bound. destruct (Z.ltb_spec i 0); lia. Qed.

Lemma length_py_slice {A : Type} (i j : Z) (l : list A) :
  length (py_slice i j l)
  = (slice_bound (length l) j - slice_bound (length l) i)%nat.
Proof.
  unfold py_slice. rewrite length_take, length_drop.
  pose proof (slice_bound_le (length l) j). lia.
Qed.

Lemma lookup_py_slice {A : Type} (i j : Z) (l : list A) (k : nat) :
  (k < length (py_slice i j l))%nat ->
  py_slice i j l !! k = l !! (slice_bound (length l) i + k)%nat.
Proof.
  intros Hk. rewrite length_py_slice in Hk. unfold py_slice.
  rewrite lookup_take_lt by lia. apply lookup_drop.
Qed.

Lemma length_py_slice_from {A : Type} (i : Z) (l : list A) :
  length (py_slice_from i l) = (length l - slice_bound (length l) i)%nat.
Proof. unfold py_slice_from. apply length_drop. Qed.

(** In range, [l[i:j]] has [j - i] entries and entry [k] is [l[i + k]]. *)
Lemma py_slice_in_range {A : Type} (i j : Z) (l : list A) :
  0 <= i -> i <= j -> j <= Z.of_nat (length l) ->
  length (py_slice i j l) = Z.to_nat (j - i)
  /\ forall k, 0 <= k < j - i -> py_slice i j l !! Z.to_nat k = l !! Z.to_nat (i + k).
Proof.
  intros Hi Hij Hj.
  assert (Hlen : length (py_slice i j l) = Z.to_nat (j - i)).
  { rewrite length_py_slice, !slice_bound_in_range by lia. lia. }
  split; [exact Hlen|]. intros k Hk.
  rewrite lookup_py_slice by lia. rewrite slice_bound_in_range by lia.
  f_equal. lia.
Qed.

(** The lagged slice [l[skip - d : n - d]] of a series of [n] entries, for a
    lag [d] within the skip offset: it has [n - skip] entries when the offset
    is within the series, and none when the offset is at least twice as long
    as the series.  (In between, a negative end index counts from the end and
    the slice is not empty.) *)
Lemma length_lagged_slice {A : Type} (l : list A) (skip d : Z) :
  0 <= d <= skip ->
  skip <= Z.of_nat (length l) \/ 2 * Z.of_nat (length l) <= skip ->
  length (py_slice (skip - d) (Z.of_nat (length l) - d) l)
  = Z.to_nat (Z.of_nat (length l) - skip).
Proof.
  intros Hd Hs. rewrite length_py_slice. unfold slice_bound.
  destruct (Z.ltb_spec (skip - d) 0), (Z.ltb_spec (Z.of_nat (length l) - d) 0); lia.
Qed.

(** ** Integer indices *)

Lemma norm_index_Ok_inv (n : nat) (i : Z) (c : nat) :
  norm_index n i = Ok c ->
  (c < n)%nat /\ - Z.of_nat n <= i < Z.of_nat n
  /\ Z.of_nat c = (if 0 <=? i then i else i + Z.of_nat n).
Proof.
  unfold norm_index.
  destruct (Z.leb_spec 0 i), (Z.ltb_spec i (Z.of_nat n)),
    (Z.leb_spec (- Z.of_nat n) i), (Z.ltb_spec i 0);
    simpl; intros [= <-]; lia.
Qed.

Lemma norm_index_in_range (n : nat) (i : Z) :
  0 <= i < Z.of_nat n -> norm_index n i = Ok (Z.to_nat i).
Proof.
  intros H. unfold norm_index.
  destruct (Z.leb_spec 0 i), (Z.ltb_spec i (Z.of_nat n)); simpl; auto; lia.
Qed.

Lemma norm_index_valid (n : nat) (i : Z) :
  - Z.of_nat n <= i < Z.of_nat n -> exists c, norm_index n i = Ok c.
Proof.
  intros H. unfold norm_index.
  destruct (Z.leb_spec 0 i), (Z.ltb_spec i (Z.of_nat n)),
    (Z.leb_spec (- Z.of_nat n) i), (Z.ltb_spec i 0); simpl; eauto; lia.
Qed.

Lemma norm_index_out_of_bounds (n : nat) (i : Z) :
  Z.of_nat n <= i \/ i < - Z.of_nat n -> norm_index n i = Raise IndexError.
Proof.
  intros H. unfold norm_index.
  destruct (Z.leb_spec 0 i), (Z.ltb_spec i (Z.of_nat n)),
    (Z.leb_spec (- Z.of_nat n) i), (Z.ltb_spec i 0); simpl; auto; lia.
Qed.

Lemma norm_index_cases (n : nat) (i : Z) :
  (exists c, norm_index n i = Ok c) \/ norm_index n i = Raise IndexError.
Proof.
  unfold norm_index.
  destruct ((0 <=? i) && (i <? Z.of_nat n)); [eauto|].
  destruct ((- Z.of_nat n <=? i) && (i <? 0)); eauto.
Qed.

Lemma getitem_Ok_inv {A : Type} (xs : list A) (i : nat) (x : A) :
  getitem xs i = Ok x -> xs !! i = Some x.
Proof. unfold getitem. destruct (xs !! i); congruence. Qed.

Lemma getitem_cases {A : Type} (xs : list A) (i : nat) :
  (exists x, getitem xs i = Ok x) \/ getitem xs i = Raise IndexError.
Proof. unfold getitem. destruct (xs !! i); eauto. Qed.

(** ** The one-hot matrices *)

Lemma one_hot_upto_zeros (n : nat) (index : list Z) (size h w : nat) :
  one_hot_upto n index size h w 0 (zeros n size h w).
Proof.
  unfold one_hot_upto, zeros; simpl. rewrite length_replicate.
  repeat split; auto; [lia|].
  intros j Hj. apply lookup_replicate_2. lia.
Qed.

Lemma assign_plane_Ok_inv (a : ndarray4) (i c : Z) (v : Q) (a' : ndarray4) :
  assign_plane a i c v = Ok a' ->
  exists i' c', norm_index (length (frames a)) i = Ok i'
    /\ norm_index (channels a) c = Ok c'
    /\ a' = NdArray4 (channels a) (height a) (width a)
              (alter (fun fr => <[c' := full_plane (height a) (width a) v]> fr)
                     i' (frames a)).
Proof.
  unfold assign_plane. intros H.
  apply bind_Ok_inv in H as (i' & Hi & H).
  apply bind_Ok_inv in H as (c' & Hc & H).
  injection H as <-. eauto.
Qed.

(** One iteration of the loop. *)
Lemma one_hot_step (n : nat) (index : list Z) (size h w i : nat) (m m' : ndarray4) :
  (i < n)%nat ->
  one_hot_upto n index size h w i m ->
  (let* c := getitem index i in assign_plane m (Z.of_nat i) c 1%Q) = Ok m' ->
  one_hot_upto n index size h w (S i) m'.
Proof.
  intros Hi (Hc & Hh & Hw & Hn & Hdone & Htodo) H.
  apply bind_Ok_inv in H as (c & Hget & H). apply getitem_Ok_inv in Hget.
  apply assign_plane_Ok_inv in H as (i' & c' & Hi' & Hc' & ->).
  apply norm_index_Ok_inv in Hi' as (_ & _ & Hi').
  destruct (Z.leb_spec 0 (Z.of_nat i)); [|lia].
  assert (i' = i) as -> by lia.
  unfold one_hot_upto; simpl. rewrite length_alter.
  repeat split; auto.
  - intros j Hj. destruct (decide (j = i)) as [->|Hne].
    + exists c, c'. rewrite Hc in Hc'. repeat split; auto.
      rewrite list_lookup_alter_eq, (Htodo i) by lia. simpl.
      unfold one_hot_frame. rewrite Hh, Hw. reflexivity.
    + rewrite list_lookup_alter_ne by auto. apply Hdone. lia.
  - intros j Hj. rewrite list_lookup_alter_ne by lia. apply Htodo. lia.
Qed.

Lemma one_hot_matrix_Ok_inv (n : nat) (index : list Z) (size h w : nat) (m : ndarray4) :
  one_hot_matrix n index size h w = Ok m ->
  one_hot_upto n index size h w n m.
Proof.
  unfold one_hot_matrix. intros H.
  apply (for_each_partial _ _ (one_hot_upto n index size h w)) in H.
  - rewrite length_seq in H. exact H.
  - apply one_hot_upto_zeros.
  - intros i x s s' Hx Hs Hb. apply lookup_seq in Hx as [-> Hx]. simpl in Hb.
    eapply one_hot_step; eauto.
Qed.

(** The matrix is built whenever every index is within its axis. *)
Lemma one_hot_matrix_total (n : nat) (index : list Z) (size h w : nat) :
  (forall i, (i < n)%nat ->
     exists c, index !! i = Some c /\ - Z.of_nat size <= c < Z.of_nat size) ->
  exists m, one_hot_matrix n index size h w = Ok m.
Proof.
  intros Hidx. unfold one_hot_matrix.
  destruct (for_each_total (seq 0 n)
              (fun i m => let* c := getitem index i in assign_plane m (Z.of_nat i) c 1%Q)
              (one_hot_upto n index size h w) (zeros n size h w))
    as (m & Hm & _); [apply one_hot_upto_zeros| |eauto].
  intros i x s Hx Hs. apply lookup_seq in Hx as [-> Hx]. simpl.
  destruct (Hidx i Hx) as (c & Hc & Hrange).
  assert (Hb : exists s', (let* c := getitem index i in
                           assign_plane s (Z.of_nat i) c 1%Q) = Ok s').
  { unfold getitem. rewrite Hc. simpl. unfold assign_plane.
    destruct Hs as (Hch & _ & _ & Hlen & _).
    rewrite Hlen, Hch, norm_index_in_range by lia. simpl.
    destruct (norm_index_valid size c Hrange) as (c' & ->). simpl. eauto. }
  destruct Hb as (s' & Hb). exists s'. split; [exact Hb|].
  eapply one_hot_step; eauto.
Qed.

(** The only exception the loop can raise. *)
Lemma one_hot_matrix_cases (n : nat) (index : list Z) (size h w : nat) :
  (exists m, one_hot_matrix n index size h w = Ok m)
  \/ one_hot_matrix n index size h w = Raise IndexError.
Proof.
  unfold one_hot_matrix. apply for_each_only_raises. intros i s.
  destruct (getitem_cases index i) as [(c & ->)| ->]; simpl; auto.
  unfold assign_plane.
  destruct (norm_index_cases (length (frames s)) (Z.of_nat i)) as [(i' & ->)| ->];
    simpl; auto.
  destruct (norm_index_cases (channels s) c) as [(c' & ->)| ->]; simpl; eauto.
Qed.

(** ** Sums of one-hot frames *)

Lemma qsum_app (xs ys : list Q) : (qsum (xs ++ ys) == qsum xs + qsum ys)%Q.
Proof.
  induction xs as [|x xs IH]; simpl.
  - ring.
  - rewrite IH. ring.
Qed.

Lemma qsum_concat (xss : list (list Q)) :
  (qsum (concat xss) == qsum (map qsum xss))%Q.
Proof.
  induction xss as [|xs xss IH]; simpl.
  - reflexivity.
  - rewrite qsum_app, IH. reflexivity.
Qed.

Lemma qsum_replicate (k : nat) (v : Q) :
  (qsum (replicate k v) == inject_Z (Z.of_nat k) * v)%Q.
Proof.
  induction k as [|k IH].
  - simpl. ring.
  - change (qsum (replicate (S k) v)) with (v + qsum (replicate k v))%Q.
    rewrite IH, Nat2Z.inj_succ. unfold Z.succ. rewrite inject_Z_plus. ring.
Qed.

Lemma plane_sum_full (h w : nat) (v : Q) :
  (plane_sum (full_plane h w v) == inject_Z (Z.of_nat (h * w)) * v)%Q.
Proof.
  unfold plane_sum, plane_elements, full_plane. fold (qsum (concat (replicate h (replicate w v)))).
  rewrite qsum_concat.
  change (map qsum (replicate h (replicate w v))) with (qsum <$> replicate h (replicate w v)).
  rewrite fmap_replicate, qsum_replicate, qsum_replicate.
  rewrite Nat2Z.inj_mul, inject_Z_mult. ring.
Qed.

Lemma qsum_insert_zeros (xs : list Q) (c : nat) (a : Q) :
  (c < length xs)%nat -> Forall (fun x => x == 0)%Q xs ->
  (qsum (<[c := a]> xs) == a)%Q.
Proof.
  revert c. induction xs as [|x xs IH]; intros c Hc Hz; simpl in *; [lia|].
  inversion Hz as [|? ? Hx Hxs]; subst.
  destruct c as [|c]; simpl.
  - assert (Hrest : (qsum xs == 0)%Q).
    { clear -Hxs. induction Hxs as [|y ys Hy _ IHys]; simpl; [reflexivity|].
      rewrite Hy, IHys. ring. }
    fold (qsum xs). rewrite Hrest. ring.
  - fold (qsum (<[c := a]> xs)). rewrite IH by (auto; lia). rewrite Hx. ring.
Qed.

Lemma frame_sum_planes (f : frame) :
  (frame_sum f == qsum (map plane_sum f))%Q.
Proof.
  unfold frame_sum, frame_elements. fold (qsum (concat (map plane_elements f))).
  rewrite qsum_concat, map_map. reflexivity.
Qed.

(** A one-hot frame sums to the number of cells of a plane. *)
Lemma frame_sum_one_hot (size h w c : nat) :
  (c < size)%nat ->
  (frame_sum (one_hot_frame size h w c) == inject_Z (Z.of_nat (h * w)))%Q.
Proof.
  intros Hc. rewrite frame_sum_planes. unfold one_hot_frame.
  change (map plane_sum ?l) with (plane_sum <$> l).
  rewrite list_fmap_insert, fmap_replicate.
  rewrite qsum_insert_zeros.
  - rewrite plane_sum_full. ring.
  - rewrite length_replicate. exact Hc.
  - apply Forall_replicate. rewrite plane_sum_full. ring.
Qed.

Lemma length_one_hot_frame (size h w c : nat) :
  length (one_hot_frame size h w c) = size.
Proof. unfold one_hot_frame. rewrite length_insert. apply length_replicate. Qed.

Lemma lookup_one_hot_frame (size h w c k : nat) :
  (c < size)%nat -> (k < size)%nat ->
  one_hot_frame size h w c !! k
  = Some (full_plane h w (if decide (k = c) then 1%Q else 0%Q)).
Proof.
  intros Hc Hk. unfold one_hot_frame. destruct (decide (k = c)) as [->|Hne].
  - apply list_lookup_insert_eq. rewrite length_replicate. exact Hc.
  - rewrite list_lookup_insert_ne by auto. apply lookup_replicate_2. exact Hk.
Qed.

(** ** Hour and day indices *)

Lemma lookup_hour_indices (n : nat) (T_period : Z) (i : nat) :
  (i < n)%nat ->
  hour_indices n T_period !! i = Some (remainder (Z.of_nat i) T_period).
Proof.
  intros Hi. unfold hour_indices, arange.
  change (map ?f ?l) with (f <$> l).
  rewrite list_lookup_fmap, lookup_seqZ_lt by lia. reflexivity.
Qed.

Lemma lookup_day_indices (n : nat) (T_period : Z) (i : nat) :
  (i < n)%nat ->
  day_indices n T_period !! i
  = Some (remainder (floor_divide (Z.of_nat i) T_period) 7).
Proof.
  intros Hi. unfold day_indices, arange.
  change (map ?f ?l) with (f <$> l).
  rewrite list_lookup_fmap, lookup_seqZ_lt by lia. reflexivity.
Qed.

Lemma remainder_range (a b : Z) : 0 < b -> 0 <= remainder a b < b.
Proof.
  intros Hb. unfold remainder. destruct (Z.eqb_spec b 0); [lia|].
  apply Z.mod_pos_bound. exact Hb.
Qed.

Lemma hour_index_range (i T_period : Z) :
  0 <= T_period <= 24 -> 0 <= remainder i T_period < 24.
Proof.
  intros HT. destruct (Z.eq_dec T_period 0) as [->|Hne].
  - unfold remainder. simpl. lia.
  - pose proof (remainder_range i T_period). lia.
Qed.

Lemma day_index_range (x : Z) : 0 <= remainder x 7 < 7.
Proof. apply remainder_range. lia. Qed.

(** A negative remainder counts from the end: for a period from -25 to -1
    the hour index stays within [-24 .. 0]. *)
Lemma hour_index_valid (i T_period : Z) :
  -25 <= T_period <= 24 -> -24 <= remainder i T_period < 24.
Proof.
  intros HT. unfold remainder. destruct (Z.eqb_spec T_period 0); [lia|].
  destruct (Z.lt_ge_cases T_period 0) as [Hneg|Hpos].
  - pose proof (Z.mod_neg_bound i T_period Hneg). lia.
  - pose proof (Z.mod_pos_bound i T_period ltac:(lia)). lia.
Qed.

Lemma hour_matrix_total (n : nat) (T_period : Z) (h w : nat) :
  -25 <= T_period <= 24 ->
  exists m, one_hot_matrix n (hour_indices n T_period) 24 h w = Ok m.
Proof.
  intros HT. apply one_hot_matrix_total. intros i Hi.
  exists (remainder (Z.of_nat i) T_period). split; [apply lookup_hour_indices; exact Hi|].
  pose proof (hour_index_valid (Z.of_nat i) T_period HT). lia.
Qed.

Lemma day_matrix_total (n : nat) (T_period : Z) (h w : nat) :
  exists m, one_hot_matrix n (day_indices n T_period) 7 h w = Ok m.
Proof.
  apply one_hot_matrix_total. intros i Hi.
  exists (remainder (floor_divide (Z.of_nat i) T_period) 7).
  split; [apply lookup_day_indices; exact Hi|].
  pose proof (day_index_range (floor_divide (Z.of_nat i) T_period)). lia.
Qed.

(** ** The period as an [int64] *)

Lemma as_int64_Ok (x : Z) : - 2 ^ 63 <= x < 2 ^ 63 -> as_int64 x = Ok x.
Proof.
  intros Hx. unfold as_int64.
  destruct (Z.leb_spec (- 2 ^ 63) x); [|lia].
  destruct (Z.ltb_spec x (2 ^ 63)); [reflexivity|lia].
Qed.

Lemma as_int64_raises (x : Z) :
  x < - 2 ^ 63 \/ 2 ^ 63 <= x -> as_int64 x = Raise OverflowError.
Proof.
  intros Hx. unfold as_int64.
  destruct (Z.leb_spec (- 2 ^ 63) x); [|reflexivity].
  destruct (Z.ltb_spec x (2 ^ 63)); [lia|reflexivity].
Qed.

Lemma as_int64_cases (x : Z) :
  (- 2 ^ 63 <= x < 2 ^ 63 /\ as_int64 x = Ok x)
  \/ ((x < - 2 ^ 63 \/ 2 ^ 63 <= x) /\ as_int64 x = Raise OverflowError).
Proof.
  destruct (Z.le_gt_cases (- 2 ^ 63) x); [|right; split; [|apply as_int64_raises]; lia].
  destruct (Z.lt_ge_cases x (2 ^ 63)); [|right; split; [|apply as_int64_raises]; lia].
  left. split; [lia|apply as_int64_Ok; lia].
Qed.

Lemma time_hour_Ok (n : nat) (T_period : Z) :
  - 2 ^ 63 <= T_period < 2 ^ 63 -> time_hour n T_period = Ok (hour_indices n T_period).
Proof.
  intros HT. unfold time_hour, array_remainder. rewrite as_int64_Ok by exact HT.
  reflexivity.
Qed.

Lemma time_day_Ok (n : nat) (T_period : Z) :
  - 2 ^ 63 <= T_period < 2 ^ 63 -> time_day n T_period = Ok (day_indices n T_period).
Proof.
  intros HT. unfold time_day, array_floor_divide, array_remainder.
  rewrite as_int64_Ok by exact HT. cbn [bind].
  rewrite as_int64_Ok by lia. cbn [bind]. unfold day_indices.
  rewrite map_map. reflexivity.
Qed.

(** Within [int64] the two matrices are those of the two index lists. *)
Lemma temporal_matrices_int64 (n : nat) (T_period : Z) (h w : nat) :
  - 2 ^ 63 <= T_period < 2 ^ 63 ->
  temporal_matrices n T_period h w
  = (let* matrix_hour := one_hot_matrix n (hour_indices n T_period) 24 h w in
     let* matrix_day := one_hot_matrix n (day_indices n T_period) 7 h w in
     Ok (matrix_hour, matrix_day)).
Proof.
  intros HT. unfold temporal_matrices.
  rewrite time_hour_Ok, time_day_Ok by exact HT. cbn [bind].
  destruct (one_hot_matrix n (hour_indices n T_period) 24 h w); reflexivity.
Qed.

(** Outside of it line 159 raises [OverflowError]. *)
Lemma temporal_matrices_overflow (n : nat) (T_period : Z) (h w : nat) :
  T_period < - 2 ^ 63 \/ 2 ^ 63 <= T_period ->
  temporal_matrices n T_period h w = Raise OverflowError.
Proof.
  intros HT. unfold temporal_matrices, time_hour, array_remainder.
  rewrite as_int64_raises by exact HT. reflexivity.
Qed.

Lemma temporal_matrices_total (n : nat) (T_period : Z) (h w : nat) :
  -25 <= T_period <= 24 ->
  exists mh md, temporal_matrices n T_period h w = Ok (mh, md).
Proof.
  intros HT. rewrite temporal_matrices_int64 by lia.
  destruct (hour_matrix_total n T_period h w HT) as (mh & ->).
  destruct (day_matrix_total n T_period h w) as (md & ->).
  simpl. eauto.
Qed.

Lemma temporal_matrices_Ok_int64 (n : nat) (T_period : Z) (h w : nat)
  (mh md : ndarray4) :
  temporal_matrices n T_period h w = Ok (mh, md) -> - 2 ^ 63 <= T_period < 2 ^ 63.
Proof.
  intros H. destruct (as_int64_cases T_period) as [[HT _]|[HT _]]; [exact HT|].
  rewrite temporal_matrices_overflow in H by exact HT. discriminate.
Qed.

Lemma temporal_matrices_Ok_inv (n : nat) (T_period : Z) (h w : nat) (mh md : ndarray4) :
  temporal_matrices n T_period h w = Ok (mh, md) ->
  one_hot_upto n (hour_indices n T_period) 24 h w n mh
  /\ one_hot_upto n (day_indices n T_period) 7 h w n md.
Proof.
  intros H. pose proof (temporal_matrices_Ok_int64 _ _ _ _ _ _ H) as HT.
  rewrite temporal_matrices_int64 in H by exact HT.
  apply bind_Ok_inv in H as (mh' & Hh & H).
  apply bind_Ok_inv in H as (md' & Hd & H).
  injection H as <- <-.
  split; apply one_hot_matrix_Ok_inv; assumption.
Qed.

Lemma temporal_matrices_cases (n : nat) (T_period : Z) (h w : nat) :
  (exists mh md, temporal_matrices n T_period h w = Ok (mh, md))
  \/ temporal_matrices n T_period h w = Raise IndexError
  \/ temporal_matrices n T_period h w = Raise OverflowError.
Proof.
  destruct (as_int64_cases T_period) as [[HT _]|[HT _]].
  - rewrite temporal_matrices_int64 by exact HT.
    destruct (one_hot_matrix_cases n (hour_indices n T_period) 24 h w)
      as [(mh & ->)| ->]; simpl; auto.
    destruct (day_matrix_total n T_period h w) as (md & ->). simpl. eauto.
  - right. right. apply temporal_matrices_overflow. exact HT.
Qed.

(** The loop raises [IndexError] at the first time step whose index is out
    of the axis. *)
Lemma one_hot_matrix_raises (n : nat) (index : list Z) (size h w j : nat) (cj : Z) :
  (j < n)%nat ->
  (forall i, (i < j)%nat ->
     exists c, index !! i = Some c /\ - Z.of_nat size <= c < Z.of_nat size) ->
  index !! j = Some cj ->
  Z.of_nat size <= cj \/ cj < - Z.of_nat size ->
  one_hot_matrix n index size h w = Raise IndexError.
Proof.
  intros Hj Hbefore Hcj Hout. unfold one_hot_matrix.
  apply (for_each_raise _ _ (one_hot_upto n index size h w) _ j j).
  - apply one_hot_upto_zeros.
  - apply lookup_seq. lia.
  - intros i y s Hi Hy Hs. apply lookup_seq in Hy as [-> Hy]. simpl.
    destruct (Hbefore i Hi) as (c & Hc & Hrange).
    assert (Hb : exists s', (let* c := getitem index i in
                             assign_plane s (Z.of_nat i) c 1%Q) = Ok s').
    { unfold getitem. rewrite Hc. simpl. unfold assign_plane.
      destruct Hs as (Hch & _ & _ & Hlen & _).
      rewrite Hlen, Hch, norm_index_in_range by lia. simpl.
      destruct (norm_index_valid size c Hrange) as (c' & ->). simpl. eauto. }
    destruct Hb as (s' & Hb). exists s'. split; [exact Hb|].
    eapply one_hot_step; eauto.
  - intros s (Hch & _ & _ & Hlen & _).
    unfold getitem. rewrite Hcj. simpl. unfold assign_plane.
    rewrite Hlen, Hch, norm_index_in_range by lia. simpl.
    rewrite norm_index_out_of_bounds by exact Hout. reflexivity.
Qed.

(** The hour matrix cannot be built for a period above 24 over more than 24
    time steps: iteration 24 indexes channel 24. *)
Lemma hour_matrix_raises (n : nat) (T_period : Z) (h w : nat) :
  24 < T_period -> (24 < n)%nat ->
  one_hot_matrix n (hour_indices n T_period) 24 h w = Raise IndexError.
Proof.
  intros HT Hn.
  assert (Hsmall : forall i, (i <= 24)%nat ->
            remainder (Z.of_nat i) T_period = Z.of_nat i).
  { intros i Hi. unfold remainder. destruct (Z.eqb_spec T_period 0); [lia|].
    apply Z.mod_small. lia. }
  apply (one_hot_matrix_raises n _ 24 h w 24 24).
  - exact Hn.
  - intros i Hi. exists (Z.of_nat i). split; [|lia].
    rewrite lookup_hour_indices by lia. rewrite Hsmall by lia. reflexivity.
  - rewrite lookup_hour_indices by lia. rewrite (Hsmall 24%nat) by lia. reflexivity.
  - left. lia.
Qed.

(** Nor for a period below -25 over more than one time step: iteration 1
    indexes channel [T_period + 1], below [-24]. *)
Lemma hour_matrix_raises_negative (n : nat) (T_period : Z) (h w : nat) :
  T_period < -25 -> (1 < n)%nat ->
  one_hot_matrix n (hour_indices n T_period) 24 h w = Raise IndexError.
Proof.
  intros HT Hn.
  apply (one_hot_matrix_raises n _ 24 h w 1 (T_period + 1)).
  - exact Hn.
  - intros i Hi. exists 0. split; [|lia].
    assert (i = 0%nat) as -> by lia.
    rewrite lookup_hour_indices by lia. unfold remainder.
    destruct (Z.eqb_spec T_period 0); [lia|]. rewrite Z.mod_0_l by lia. reflexivity.
  - rewrite lookup_hour_indices by lia. unfold remainder.
    destruct (Z.eqb_spec T_period 0); [lia|]. f_equal.
    symmetry. apply (Z.mod_unique_neg 1 T_period (-1)); lia.
  - right. lia.
Qed.


(** A period outside of -25 .. 24 still gives valid hour indices when the
    series is short: up to 24 steps for a period above 24, one step for a
    period below -25. *)
Lemma hour_matrix_short (n : nat) (T_period : Z) (h w : nat) :
  (24 < T_period /\ (n <= 24)%nat) \/ (T_period < -25 /\ (n <= 1)%nat) ->
  exists m, one_hot_matrix n (hour_indices n T_period) 24 h w = Ok m.
Proof.
  intros HT. apply one_hot_matrix_total. intros i Hi.
  exists (remainder (Z.of_nat i) T_period). split; [apply lookup_hour_indices; exact Hi|].
  unfold remainder. destruct (Z.eqb_spec T_period 0); [lia|].
  destruct HT as [[HT Hn]|[HT Hn]].
  - rewrite Z.mod_small by lia. simpl. lia.
  - assert (i = 0%nat) as -> by lia. rewrite Z.mod_0_l by lia. simpl. lia.
Qed.

(** The temporal matrices are built exactly for the periods of
    [mask_period]; otherwise line 159 raises [OverflowError] or the loop of
    lines 161-162 [IndexError]. *)
Lemma temporal_matrices_built (n : nat) (T_period : Z) (h w : nat) :
  mask_period n T_period ->
  exists mh md, temporal_matrices n T_period h w = Ok (mh, md).
Proof.
  intros [HT|HT].
  - apply temporal_matrices_total. exact HT.
  - rewrite temporal_matrices_int64 by lia.
    destruct (hour_matrix_short n T_period h w) as (mh & ->); [lia|].
    destruct (day_matrix_total n T_period h w) as (md & ->). simpl. eauto.
Qed.

Lemma temporal_matrices_IndexError (n : nat) (T_period : Z) (h w : nat) :
  (24 < T_period < 2 ^ 63 /\ (24 < n)%nat)
  \/ (- 2 ^ 63 <= T_period < -25 /\ (1 < n)%nat) ->
  temporal_matrices n T_period h w = Raise IndexError.
Proof.
  intros HT. rewrite temporal_matrices_int64 by lia.
  destruct HT as [[HT Hn]|[HT Hn]].
  - rewrite hour_matrix_raises by (lia || exact Hn). reflexivity.
  - rewrite hour_matrix_raises_negative by (lia || exact Hn). reflexivity.
Qed.

Lemma temporal_matrices_outcome (n : nat) (T_period : Z) (h w : nat) :
  (mask_period n T_period
   /\ exists mh md, temporal_matrices n T_period h w = Ok (mh, md))
  \/ (((24 < T_period < 2 ^ 63 /\ (24 < n)%nat)
       \/ (- 2 ^ 63 <= T_period < -25 /\ (1 < n)%nat))
      /\ temporal_matrices n T_period h w = Raise IndexError)
  \/ ((T_period < - 2 ^ 63 \/ 2 ^ 63 <= T_period)
      /\ temporal_matrices n T_period h w = Raise OverflowError).
Proof.
  destruct (Z.lt_ge_cases T_period (- 2 ^ 63)) as [Hlow|Hlow].
  { right. right. split; [lia|apply temporal_matrices_overflow; lia]. }
  destruct (Z.lt_ge_cases T_period (2 ^ 63)) as [Hhigh|Hhigh];
    [|right; right; split; [lia|apply temporal_matrices_overflow; lia]].
  destruct (Z.lt_ge_cases T_period (-25)) as [H1|H1].
  - destruct (le_gt_dec n 1) as [Hn|Hn].
    + left. assert (Hm : mask_period n T_period) by (right; right; lia).
      split; [exact Hm|apply temporal_matrices_built; exact Hm].
    + right. left. split; [right; lia|apply temporal_matrices_IndexError; right; lia].
  - destruct (Z.le_gt_cases T_period 24) as [H2|H2].
    + left. assert (Hm : mask_period n T_period) by (left; lia).
      split; [exact Hm|apply temporal_matrices_built; exact Hm].
    + destruct (le_gt_dec n 24) as [Hn|Hn].
      * left. assert (Hm : mask_period n T_period) by (right; left; lia).
        split; [exact Hm|apply temporal_matrices_built; exact Hm].
      * right. left. split; [left; lia|apply temporal_matrices_IndexError; left; lia].
Qed.

(** ** Lagged windows *)

Lemma concatenate_Ok (a b : ndarray4) :
  length (frames a) = length (frames b) ->
  height a = height b -> width a = width b ->
  concatenate a b
  = Ok (NdArray4 (channels a + channels b) (height a) (width a)
          (zip_with app (frames a) (frames b))).
Proof.
  intros Hl Hh Hw. unfold concatenate.
  destruct (decide _) as [_|Hn]; [reflexivity|]. exfalso. apply Hn. auto.
Qed.

Lemma concatenate_Ok_inv (a b c : ndarray4) :
  concatenate a b = Ok c ->
  length (frames a) = length (frames b)
  /\ c = NdArray4 (channels a + channels b) (height a) (width a)
           (zip_with app (frames a) (frames b)).
Proof.
  unfold concatenate. destruct (decide _) as [(Hl & _ & _)|_]; [|discriminate].
  intros [= <-]. auto.
Qed.

Lemma concatenate_length_mismatch (a b : ndarray4) :
  length (frames a) <> length (frames b) -> concatenate a b = Raise ValueError.
Proof.
  intros Hne. unfold concatenate.
  destruct (decide _) as [(Hl & _)|_]; [contradiction|reflexivity].
Qed.

Lemma window_frame_S (all_data : ndarray4) (skip len_total T : Z) (i j : nat) :
  window_frame all_data skip len_total T (Z.of_nat (S i)) j
  = window_frame all_data skip len_total T (Z.of_nat i) j
    ++ default [] (lag_slice all_data skip len_total T (1 + Z.of_nat i) !! j).
Proof.
  unfold window_frame. rewrite seqZ_S, map_app, concat_app. simpl.
  rewrite app_nil_r. reflexivity.
Qed.

Lemma window_upto_first (all_data : ndarray4) (skip len_total T : Z) :
  window_upto all_data skip len_total T
    (length (lag_slice all_data skip len_total T 1)) 0
    (slice all_data (skip - T) (len_total - T)).
Proof.
  unfold window_upto, slice, lag_slice; simpl.
  rewrite Z.mul_1_r. repeat split; auto; try lia.
  intros j Hj. rewrite (window_frame_S _ _ _ _ 0). unfold window_frame, lag_slice. simpl.
  rewrite Z.mul_1_r.
  destruct (lookup_lt_is_Some_2 _ _ Hj) as (fr & ->). reflexivity.
Qed.

Lemma window_step (all_data : ndarray4) (skip len_total T : Z) (m i : nat)
  (X X' : ndarray4) :
  window_upto all_data skip len_total T m i X ->
  concatenate X (slice all_data (skip - T * (2 + Z.of_nat i))
                               (len_total - T * (2 + Z.of_nat i))) = Ok X' ->
  window_upto all_data skip len_total T m (S i) X'.
Proof.
  intros (Hc & Hh & Hw & Hm & Hfr) H.
  apply concatenate_Ok_inv in H as (Hlen & ->). simpl in Hlen.
  unfold window_upto; simpl.
  assert (Hzip : length (zip_with app (frames X)
                   (py_slice (skip - T * (2 + Z.of_nat i))
                             (len_total - T * (2 + Z.of_nat i)) (frames all_data))) = m).
  { rewrite length_zip_with_l_eq; auto. }
  repeat split; auto; [lia|].
  intros j Hj. rewrite lookup_zip_with, (Hfr j Hj). simpl.
  rewrite (window_frame_S _ _ _ _ (S i)).
  replace (1 + Z.of_nat (S i)) with (2 + Z.of_nat i) by lia.
  unfold lag_slice.
  destruct (lookup_lt_is_Some_2
              (py_slice (skip - T * (2 + Z.of_nat i))
                        (len_total - T * (2 + Z.of_nat i)) (frames all_data)) j)
    as (fr & ->); [lia|]. reflexivity.
Qed.

(** When the [L] lagged slices have one length [m], the window is built and
    its sample [j] is [window_frame .. j]. *)
Lemma lagged_window_total (all_data : ndarray4) (skip len_total T L : Z) (m : nat) :
  0 < L ->
  (forall k, 1 <= k <= L -> length (lag_slice all_data skip len_total T k) = m) ->
  exists X, lagged_window all_data skip len_total T L = Ok X
    /\ shape X = (m, (Z.to_nat L * channels all_data)%nat,
                  height all_data, width all_data)
    /\ forall j, (j < m)%nat ->
         frames X !! j = Some (window_frame all_data skip len_total T L j).
Proof.
  intros HL Hlen. unfold lagged_window, range.
  destruct (for_each_total (seqZ 0 (L - 1 - 0))
              (fun i X => concatenate X (slice all_data (skip - T * (2 + i))
                                                        (len_total - T * (2 + i))))
              (window_upto all_data skip len_total T m)
              (slice all_data (skip - T) (len_total - T)))
    as (X & HX & HI).
  - rewrite <- (Hlen 1) by lia. apply window_upto_first.
  - intros i x s Hx Hs. apply lookup_seqZ in Hx as [-> Hx].
    replace (2 + (0 + Z.of_nat i)) with (2 + Z.of_nat i) by lia.
    assert (Hc : exists s', concatenate s (slice all_data (skip - T * (2 + Z.of_nat i))
                               (len_total - T * (2 + Z.of_nat i))) = Ok s').
    { destruct Hs as (_ & Hh & Hw & Hm & _).
      rewrite concatenate_Ok; simpl; eauto.
      rewrite Hm. symmetry. apply (Hlen (2 + Z.of_nat i)). lia. }
    destruct Hc as (s' & Hc). exists s'. split; [exact Hc|].
    eapply window_step; eauto.
  - exists X. split; [exact HX|].
    rewrite length_seqZ in HI. destruct HI as (Hc & Hh & Hw & Hm & Hfr).
    replace (Z.of_nat (S (Z.to_nat (L - 1 - 0)))) with L in Hfr by lia.
    split; [|exact Hfr].
    unfold shape. rewrite Hc, Hh, Hw, Hm. repeat f_equal. lia.
Qed.

(** The first lagged slice fixes the length of the window. *)
Lemma lagged_window_length_mismatch (all_data : ndarray4) (skip len_total T L k : Z) :
  2 <= k <= L ->
  (forall k', 1 <= k' < k ->
     length (lag_slice all_data skip len_total T k')
     = length (lag_slice all_data skip len_total T 1)) ->
  length (lag_slice all_data skip len_total T k)
  <> length (lag_slice all_data skip len_total T 1) ->
  lagged_window all_data skip len_total T L = Raise ValueError.
Proof.
  intros Hk Heq Hne. unfold lagged_window, range.
  apply (for_each_raise _ _
           (window_upto all_data skip len_total T
              (length (lag_slice all_data skip len_total T 1)))
           _ (Z.to_nat (k - 2)) (k - 2)).
  - apply window_upto_first.
  - apply lookup_seqZ. lia.
  - intros i y s Hi Hy Hs. apply lookup_seqZ in Hy as [-> Hy].
    replace (2 + (0 + Z.of_nat i)) with (2 + Z.of_nat i) by lia.
    assert (Hc : exists s', concatenate s (slice all_data (skip - T * (2 + Z.of_nat i))
                               (len_total - T * (2 + Z.of_nat i))) = Ok s').
    { destruct Hs as (_ & Hh & Hw & Hm & _).
      rewrite concatenate_Ok; simpl; eauto.
      rewrite Hm. symmetry. apply (Heq (2 + Z.of_nat i)). lia. }
    destruct Hc as (s' & Hc). exists s'. split; [exact Hc|].
    eapply window_step; eauto.
  - intros s (_ & _ & _ & Hm & _).
    apply concatenate_length_mismatch. simpl. rewrite Hm.
    replace (2 + (k - 2)) with k by lia. intros Heq'. apply Hne.
    symmetry. exact Heq'.
Qed.

(** A chunk of a concatenation of lists of one length. *)
Lemma concat_chunk {A : Type} (ls : list (list A)) (c i : nat) (x : list A) :
  Forall (fun l => length l = c) ls ->
  ls !! i = Some x ->
  take c (drop (i * c) (concat ls)) = x.
Proof.
  intros Hall. revert i x. induction Hall as [|l ls Hl _ IH]; intros i x Hi.
  - discriminate.
  - destruct i as [|i]; simpl in *.
    + injection Hi as ->. rewrite drop_0, take_app_length' by auto. reflexivity.
    + rewrite drop_app_ge by lia. rewrite Hl.
      replace (c + i * c - c)%nat with (i * c)%nat by lia. apply IH. exact Hi.
Qed.

Lemma lag_slice_in_range (all_data : ndarray4) (skip T k : Z) :
  let n := Z.of_nat (length (frames all_data)) in
  0 <= T * k <= skip -> skip <= n ->
  length (lag_slice all_data skip n T k) = Z.to_nat (n - skip)
  /\ forall j, 0 <= j < n - skip ->
       lag_slice all_data skip n T k !! Z.to_nat j
       = frames all_data !! Z.to_nat (skip + j - T * k).
Proof.
  intros n Hk Hs. unfold lag_slice.
  destruct (py_slice_in_range (skip - T * k) (n - T * k) (frames all_data))
    as (Hlen & Hlook); try (subst n; lia).
  split.
  - rewrite Hlen. f_equal. lia.
  - intros j Hj. rewrite Hlook by lia. f_equal. f_equal. lia.
Qed.

(** ** Point-of-interest features *)

Lemma max_of_nonempty (xs : list Q) : xs <> [] -> exists m, max_of xs = Ok m.
Proof. destruct xs; [congruence|]. simpl. eauto. Qed.

Lemma min_of_nonempty (xs : list Q) : xs <> [] -> exists m, min_of xs = Ok m.
Proof. destruct xs; [congruence|]. simpl. eauto. Qed.

Lemma normalize_poi_total (dt : dtype) (poi : list plane) :
  Forall (fun p => plane_elements p <> []) poi ->
  exists ps, normalize_poi dt poi = Ok ps /\ length ps = length poi.
Proof.
  intros Hne. unfold normalize_poi.
  destruct (for_each_total (seq 0 (length poi))
              (fun i ps =>
                 let* p := getitem ps i in
                 let* m := max_of (plane_elements p) in
                 Ok (<[i := map_plane (fun x => astype dt (x / m)%Q) p]> ps))
              (poi_upto poi) poi) as (ps & Hps & Hlen & _).
  - split; auto.
  - intros i x s Hx (Hlen & Hrest). apply lookup_seq in Hx as [-> Hx]. simpl in *.
    destruct (lookup_lt_is_Some_2 poi i Hx) as (p & Hp).
    unfold getitem. rewrite (Hrest i), Hp by lia. simpl.
    destruct (max_of_nonempty (plane_elements p)) as (m & ->).
    { rewrite Forall_lookup in Hne. exact (Hne i p Hp). }
    simpl. eexists. split; [reflexivity|]. split.
    + rewrite length_insert. exact Hlen.
    + intros j Hj. rewrite list_lookup_insert_ne by lia. apply Hrest. lia.
  - eauto.
Qed.

(** ** [_create_feature_vector] *)

Lemma scale_attribute_Some_inv (all_data : ndarray4) (skip len_total T L : Z)
  (o : option ndarray4) (X : ndarray4) :
  scale_attribute all_data skip len_total T L = Ok o ->
  getattr o = Ok X ->
  0 < L /\ lagged_window all_data skip len_total T L = Ok X.
Proof.
  unfold scale_attribute. destruct (Z.ltb_spec 0 L) as [HL|HL].
  - intros H Hg. apply bind_Ok_inv in H as (X' & HX & H). injection H as <-.
    simpl in Hg. injection Hg as <-. auto.
  - intros [= <-]. discriminate.
Qed.

(** What a successful construction has computed. *)
Lemma create_feature_vector_Ok_inv (all_data : ndarray4) (poi : ndarray3)
  (len_closeness len_period len_trend T_closeness T_period T_trend : Z)
  (fv : feature_vector) :
  let len_total := Z.of_nat (length (frames all_data)) in
  _create_feature_vector all_data poi
    len_closeness len_period len_trend T_closeness T_period T_trend = Ok fv ->
  exists skip mh md mT p,
    temporal_matrices (length (frames all_data)) T_period
      (height all_data) (width all_data) = Ok (mh, md)
    /\ concatenate mh md = Ok mT
    /\ number_of_skip_hours
         len_closeness len_period len_trend T_closeness T_period T_trend = Ok skip
    /\ (0 < len_closeness
        /\ lagged_window all_data skip len_total T_closeness len_closeness
           = Ok (fv_X_closeness fv))
    /\ (0 < len_period
        /\ lagged_window all_data skip len_total T_period len_period
           = Ok (fv_X_period fv))
    /\ (0 < len_trend
        /\ lagged_window all_data skip len_total T_trend len_trend
           = Ok (fv_X_trend fv))
    /\ fv_T_data fv = slice_from mT skip
    /\ fv_Y_data fv = slice all_data skip len_total
    /\ fv_P_data fv
       = repeat p (length (planes poi)) (height all_data) (width all_data)
           (length (frames (fv_X_closeness fv))).
Proof.
  intros len_total. unfold _create_feature_vector, shape. intros H.
  apply bind_Ok_inv in H as ([mh md] & Htm & H).
  apply bind_Ok_inv in H as (mT & HmT & H).
  apply bind_Ok_inv in H as (skip & Hskip & H).
  apply bind_Ok_inv in H as (oc & Hoc & H).
  apply bind_Ok_inv in H as (op & Hop & H).
  apply bind_Ok_inv in H as (ot & Hot & H).
  apply bind_Ok_inv in H as (Xc & HXc & H).
  apply bind_Ok_inv in H as (poi' & Hpoi & H).
  apply bind_Ok_inv in H as (p & Hp & H).
  apply bind_Ok_inv in H as (Xp & HXp & H).
  apply bind_Ok_inv in H as (Xt & HXt & H).
  injection H as <-. simpl.
  exists skip, mh, md, mT, p.
  repeat split; auto;
    eapply scale_attribute_Some_inv; eauto.
Qed.

(** The window of a scale whose lag span is within the skip offset: every
    lagged slice has [len_total - skip] frames (none when the offset
    exceeds the series at least twice). *)
Lemma lagged_window_within_skip (all_data : ndarray4) (skip T L : Z) :
  let n := Z.of_nat (length (frames all_data)) in
  0 < L -> 0 <= T -> T * L <= skip ->
  skip <= n \/ 2 * n <= skip ->
  exists X, lagged_window all_data skip n T L = Ok X
    /\ shape X = (Z.to_nat (n - skip), (Z.to_nat L * channels all_data)%nat,
                  height all_data, width all_data)
    /\ forall j, (j < Z.to_nat (n - skip))%nat ->
         frames X !! j = Some (window_frame all_data skip n T L j).
Proof.
  intros n HL HT Hspan Hskip.
  apply lagged_window_total; [exact HL|].
  intros k Hk. unfold lag_slice. subst n.
  apply length_lagged_slice; [nia|exact Hskip].
Qed.

Lemma number_of_skip_hours_trend
  (len_closeness len_period len_trend T_closeness T_period T_trend : Z) :
  0 < len_trend ->
  number_of_skip_hours len_closeness len_period len_trend T_closeness T_period T_trend
  = Ok (T_trend * len_trend).
Proof.
  intros H. unfold number_of_skip_hours.
  destruct (Z.ltb_spec 0 len_trend); [reflexivity|lia].
Qed.

Lemma scale_attribute_enabled (all_data : ndarray4) (skip len_total T L : Z)
  (X : ndarray4) :
  0 < L -> lagged_window all_data skip len_total T L = Ok X ->
  scale_attribute all_data skip len_total T L = Ok (Some X).
Proof.
  intros HL HX. unfold scale_attribute.
  destruct (Z.ltb_spec 0 L); [|lia]. rewrite HX. reflexivity.
Qed.

Lemma reshape_fits (poi : ndarray3) (ps : list plane) (all_data : ndarray4) :
  poi_fits poi all_data -> length ps = length (planes poi) ->
  exists p, reshape (NdArray3 (dtype3 poi) (height3 poi) (width3 poi) ps)
              (height all_data) (width all_data) = Ok p.
Proof.
  intros (_ & Hfit) Hlen. unfold reshape. simpl. rewrite Hlen.
  destruct (decide _) as [_|Hn]; [eauto|contradiction].
Qed.

(** Construction succeeds when all three scales are enabled with lag spans
    within the skip offset, and the six arrays then have one sample count. *)
Lemma create_feature_vector_total (all_data : ndarray4) (poi : ndarray3)
  (len_closeness len_period len_trend T_closeness T_period T_trend : Z) :
  let n := Z.of_nat (length (frames all_data)) in
  let skip := T_trend * len_trend in
  let m := Z.to_nat (n - skip) in
  poi_fits poi all_data ->
  0 < len_closeness -> 0 < len_period -> 0 < len_trend ->
  0 <= T_closeness -> 0 <= T_period <= 24 -> 0 <= T_trend ->
  T_closeness * len_closeness <= skip ->
  T_period * len_period <= skip ->
  skip <= n \/ 2 * n <= skip ->
  exists fv,
    _create_feature_vector all_data poi
      len_closeness len_period len_trend T_closeness T_period T_trend = Ok fv
    /\ shape (fv_X_closeness fv)
       = (m, (Z.to_nat len_closeness * channels all_data)%nat,
          height all_data, width all_data)
    /\ shape (fv_X_period fv)
       = (m, (Z.to_nat len_period * channels all_data)%nat,
          height all_data, width all_data)
    /\ shape (fv_X_trend fv)
       = (m, (Z.to_nat len_trend * channels all_data)%nat,
          height all_data, width all_data)
    /\ shape (fv_T_data fv) = (m, 31%nat, height all_data, width all_data)
    /\ shape (fv_P_data fv)
       = (m, length (planes poi), height all_data, width all_data)
    /\ shape (fv_Y_data fv)
       = (m, channels all_data, height all_data, width all_data).
Proof.
  intros n skip m Hpoi Hlc Hlp Hlt HTc HTp HTt Hsc Hsp Hskip.
  destruct (temporal_matrices_total (length (frames all_data)) T_period
              (height all_data) (width all_data)) as (mh & md & Htm); [lia|].
  destruct (temporal_matrices_Ok_inv _ _ _ _ _ _ Htm)
    as [(Hc1 & Hh1 & Hw1 & Hn1 & _) (Hc2 & Hh2 & Hw2 & Hn2 & _)].
  destruct (lagged_window_within_skip all_data skip T_closeness len_closeness)
    as (Xc & HXc & HsXc & _); auto.
  destruct (lagged_window_within_skip all_data skip T_period len_period)
    as (Xp & HXp & HsXp & _); auto; [lia|].
  destruct (lagged_window_within_skip all_data skip T_trend len_trend)
    as (Xt & HXt & HsXt & _); auto; [subst skip; lia|].
  destruct (normalize_poi_total (dtype3 poi) (planes poi) (proj1 Hpoi)) as (ps & Hps & Hpslen).
  destruct (reshape_fits poi ps all_data Hpoi Hpslen) as (p & Hp).
  eexists. split.
  - unfold _create_feature_vector, shape.
    rewrite Htm. cbn [bind].
    rewrite concatenate_Ok by congruence. cbn [bind].
    rewrite number_of_skip_hours_trend by exact Hlt. cbn [bind]. fold skip.
    rewrite (scale_attribute_enabled _ _ _ _ _ Xc Hlc HXc). cbn [bind].
    rewrite (scale_attribute_enabled _ _ _ _ _ Xp Hlp HXp). cbn [bind].
    rewrite (scale_attribute_enabled _ _ _ _ _ Xt Hlt HXt). cbn [bind getattr].
    rewrite Hps. cbn [bind]. rewrite Hp. cbn [bind]. reflexivity.
  - cbn [fv_X_closeness fv_X_period fv_X_trend fv_T_data fv_P_data fv_Y_data].
    split; [exact HsXc|]. split; [exact HsXp|]. split; [exact HsXt|].
    assert (Hskip0 : 0 <= skip) by (subst skip; nia).
    injection HsXc as HmXc _ _ _.
    repeat split.
    + unfold shape, slice_from; simpl. rewrite length_py_slice_from.
      rewrite length_zip_with_l_eq by congruence. rewrite Hn1, Hc1, Hc2, Hh1, Hw1.
      unfold slice_bound. destruct (Z.ltb_spec skip 0); [lia|].
      f_equal. f_equal. f_equal. subst m n. lia.
    + unfold shape, repeat; simpl. rewrite length_replicate, HmXc. reflexivity.
    + unfold shape, slice; simpl. rewrite length_py_slice.
      unfold slice_bound. destruct (Z.ltb_spec skip 0); [lia|].
      destruct (Z.ltb_spec (Z.of_nat (length (frames all_data))) 0); [lia|].
      f_equal. f_equal. f_equal. subst m n. lia.
Qed.

(** ** The constructor *)

Lemma full_data_same_shape (normalize : bool) (f : Q -> Q) (flow : ndarray4) :
  let full := if normalize then map_elements f flow else flow in
  length (frames full) = length (frames flow)
  /\ channels full = channels flow
  /\ height full = height flow /\ width full = width flow.
Proof.
  destruct normalize; simpl; auto.
  rewrite length_map. auto.
Qed.

Lemma init_Ok_inv (flow : ndarray4) (poi : ndarray3)
  (len_closeness len_period len_trend T_closeness T_period T_trend : Z)
  (normalize : bool) (ds : BikeNYCDeepSTN) :
  __init__ flow poi len_closeness len_period len_trend
    T_closeness T_period T_trend normalize = Ok ds ->
  exists mx mn fv,
    np.max flow = Ok mx /\ np.min flow = Ok mn
    /\ _create_feature_vector
         (if normalize then map_elements (normalization mx mn) flow else flow) poi
         len_closeness len_period len_trend T_closeness T_period T_trend = Ok fv
    /\ full_data ds
       = (if normalize then map_elements (normalization mx mn) flow else flow)
    /\ min_max_diff ds = (mx - mn)%Q
    /\ X_closeness ds = fv_X_closeness fv /\ X_period ds = fv_X_period fv
    /\ X_trend ds = fv_X_trend fv /\ T_data ds = fv_T_data fv
    /\ P_data ds = fv_P_data fv /\ Y_data ds = Tensor4 (fv_Y_data fv)
    /\ use_lead_time ds = false /\ sequential ds = false /\ periodical ds = true.
Proof.
  unfold __init__. intros H.
  apply bind_Ok_inv in H as (mx & Hmx & H).
  apply bind_Ok_inv in H as (mn & Hmn & H).
  apply bind_Ok_inv in H as (fv & Hfv & H).
  injection H as <-. exists mx, mn, fv. simpl. repeat split; auto.
Qed.

Lemma init_of_feature_vector (flow : ndarray4) (poi : ndarray3)
  (len_closeness len_period len_trend T_closeness T_period T_trend : Z)
  (normalize : bool) (mx mn : Q) (fv : feature_vector) :
  np.max flow = Ok mx -> np.min flow = Ok mn ->
  _create_feature_vector
    (if normalize then map_elements (normalization mx mn) flow else flow) poi
    len_closeness len_period len_trend T_closeness T_period T_trend = Ok fv ->
  exists ds,
    __init__ flow poi len_closeness len_period len_trend
      T_closeness T_period T_trend normalize = Ok ds
    /\ X_closeness ds = fv_X_closeness fv /\ X_period ds = fv_X_period fv
    /\ X_trend ds = fv_X_trend fv /\ T_data ds = fv_T_data fv
    /\ P_data ds = fv_P_data fv /\ Y_data ds = Tensor4 (fv_Y_data fv)
    /\ use_lead_time ds = false.
Proof.
  intros Hmx Hmn Hfv. unfold __init__.
  rewrite Hmx. cbn [bind]. rewrite Hmn. cbn [bind]. rewrite Hfv. cbn [bind].
  eexists. split; [reflexivity|]. simpl. repeat split; reflexivity.
Qed.

Lemma init_raises (flow : ndarray4) (poi : ndarray3)
  (len_closeness len_period len_trend T_closeness T_period T_trend : Z)
  (normalize : bool) (e : exn) :
  elements flow <> [] ->
  (forall full,
     length (frames full) = length (frames flow) ->
     height full = height flow -> width full = width flow ->
     _create_feature_vector full poi
       len_closeness len_period len_trend T_closeness T_period T_trend = Raise e) ->
  __init__ flow poi len_closeness len_period len_trend
    T_closeness T_period T_trend normalize = Raise e.
Proof.
  intros Hne Hfv. unfold __init__, np.max, np.min.
  destruct (max_of_nonempty _ Hne) as (mx & ->).
  destruct (min_of_nonempty _ Hne) as (mn & ->). cbn [bind].
  destruct (full_data_same_shape normalize (normalization mx mn) flow)
    as (Hl & _ & Hh & Hw).
  rewrite Hfv by assumption. reflexivity.
Qed.

(** Construction of the whole object under the conditions of
    [create_feature_vector_total]. *)
Lemma init_total (flow : ndarray4) (poi : ndarray3)
  (len_closeness len_period len_trend T_closeness T_period T_trend : Z)
  (normalize : bool) :
  let n := Z.of_nat (length (frames flow)) in
  let skip := T_trend * len_trend in
  let m := Z.to_nat (n - skip) in
  elements flow <> [] ->
  poi_fits poi flow ->
  0 < len_closeness -> 0 < len_period -> 0 < len_trend ->
  0 <= T_closeness -> 0 <= T_period <= 24 -> 0 <= T_trend ->
  T_closeness * len_closeness <= skip ->
  T_period * len_period <= skip ->
  skip <= n \/ 2 * n <= skip ->
  exists ds Y,
    __init__ flow poi len_closeness len_period len_trend
      T_closeness T_period T_trend normalize = Ok ds
    /\ length (frames (X_closeness ds)) = m
    /\ length (frames (X_period ds)) = m
    /\ length (frames (X_trend ds)) = m
    /\ length (frames (T_data ds)) = m
    /\ length (frames (P_data ds)) = m
    /\ Y_data ds = Tensor4 Y /\ length (frames Y) = m
    /\ use_lead_time ds = false.
Proof.
  intros n skip m Hne Hpoi Hlc Hlp Hlt HTc HTp HTt Hsc Hsp Hskip.
  destruct (max_of_nonempty _ Hne) as (mx & Hmx).
  destruct (min_of_nonempty _ Hne) as (mn & Hmn).
  destruct (full_data_same_shape normalize (normalization mx mn) flow)
    as (Hl & _ & Hh & Hw).
  destruct (create_feature_vector_total
              (if normalize then map_elements (normalization mx mn) flow else flow)
              poi len_closeness len_period len_trend T_closeness T_period T_trend)
    as (fv & Hfv & H1 & H2 & H3 & H4 & H5 & H6); auto.
  { destruct Hpoi as [Hp1 Hp2]. split; [exact Hp1|]. rewrite Hh, Hw. exact Hp2. }
  { rewrite Hl. exact Hskip. }
  destruct (init_of_feature_vector flow poi len_closeness len_period len_trend
              T_closeness T_period T_trend normalize mx mn fv Hmx Hmn Hfv)
    as (ds & Hds & E1 & E2 & E3 & E4 & E5 & HY & Hlead).
  exists ds, (fv_Y_data fv). split; [exact Hds|].
  rewrite E1, E2, E3, E4, E5.
  unfold shape in *. rewrite Hl in *.
  injection H1 as -> _ _ _. injection H2 as -> _ _ _. injection H3 as -> _ _ _.
  injection H4 as -> _ _ _. injection H5 as -> _ _ _. injection H6 as -> _ _ _.
  repeat split; auto.
Qed.

(** ** Normalisation *)

Lemma qmax_spec (a b : Q) :
  (qmax a b = a \/ qmax a b = b) /\ (a <= qmax a b)%Q /\ (b <= qmax a b)%Q.
Proof.
  unfold qmax. destruct (Qle_bool a b) eqn:E.
  - apply Qle_bool_iff in E. repeat split; auto. apply Qle_refl.
  - assert (Hlt : (b < a)%Q).
    { apply Qnot_le_lt. intros Hle. apply Qle_bool_iff in Hle. congruence. }
    repeat split; auto; [apply Qle_refl|apply Qlt_le_weak; exact Hlt].
Qed.

Lemma qmin_spec (a b : Q) :
  (qmin a b = a \/ qmin a b = b) /\ (qmin a b <= a)%Q /\ (qmin a b <= b)%Q.
Proof.
  unfold qmin. destruct (Qle_bool a b) eqn:E.
  - apply Qle_bool_iff in E. repeat split; auto. apply Qle_refl.
  - assert (Hlt : (b < a)%Q).
    { apply Qnot_le_lt. intros Hle. apply Qle_bool_iff in Hle. congruence. }
    repeat split; auto; [apply Qlt_le_weak; exact Hlt|apply Qle_refl].
Qed.

Lemma foldl_qmax_spec (xs : list Q) (a : Q) :
  foldl qmax a xs ∈ a :: xs
  /\ forall x, x ∈ a :: xs -> (x <= foldl qmax a xs)%Q.
Proof.
  revert a. induction xs as [|y xs IH]; intros a; simpl.
  - split; [left|]. intros x Hx. apply list_elem_of_singleton in Hx as ->. apply Qle_refl.
  - destruct (IH (qmax a y)) as [Hin Hub].
    destruct (qmax_spec a y) as (Hq & Ha & Hy). split.
    + apply elem_of_cons in Hin as [Hin|Hin].
      * rewrite Hin. destruct Hq as [-> | ->]; [left|right; left].
      * right. right. exact Hin.
    + intros x Hx. apply elem_of_cons in Hx as [->|Hx].
      * eapply Qle_trans; [exact Ha|]. apply Hub. left.
      * apply elem_of_cons in Hx as [->|Hx].
        -- eapply Qle_trans; [exact Hy|]. apply Hub. left.
        -- apply Hub. right. exact Hx.
Qed.

Lemma foldl_qmin_spec (xs : list Q) (a : Q) :
  foldl qmin a xs ∈ a :: xs
  /\ forall x, x ∈ a :: xs -> (foldl qmin a xs <= x)%Q.
Proof.
  revert a. induction xs as [|y xs IH]; intros a; simpl.
  - split; [left|]. intros x Hx. apply list_elem_of_singleton in Hx as ->. apply Qle_refl.
  - destruct (IH (qmin a y)) as [Hin Hlb].
    destruct (qmin_spec a y) as (Hq & Ha & Hy). split.
    + apply elem_of_cons in Hin as [Hin|Hin].
      * rewrite Hin. destruct Hq as [-> | ->]; [left|right; left].
      * right. right. exact Hin.
    + intros x Hx. apply elem_of_cons in Hx as [->|Hx].
      * eapply Qle_trans; [|exact Ha]. apply Hlb. left.
      * apply elem_of_cons in Hx as [->|Hx].
        -- eapply Qle_trans; [|exact Hy]. apply Hlb. left.
        -- apply Hlb. right. exact Hx.
Qed.

(** [np.max] and [np.min] return global extrema that the array attains. *)
Lemma max_of_spec (xs : list Q) (m : Q) :
  max_of xs = Ok m -> m ∈ xs /\ forall x, x ∈ xs -> (x <= m)%Q.
Proof.
  destruct xs as [|a xs]; simpl; [discriminate|].
  intros [= <-]. apply foldl_qmax_spec.
Qed.

Lemma min_of_spec (xs : list Q) (m : Q) :
  min_of xs = Ok m -> m ∈ xs /\ forall x, x ∈ xs -> (m <= x)%Q.
Proof.
  destruct xs as [|a xs]; simpl; [discriminate|].
  intros [= <-]. apply foldl_qmin_spec.
Qed.

Lemma denormalization_normalization (mx mn x : Q) :
  (mn < mx)%Q ->
  (denormalization (mx - mn) (mx + mn) (normalization mx mn x) == x)%Q.
Proof.
  intros Hlt. unfold denormalization, normalization. field.
  intros H0. apply (Qlt_not_eq mn mx Hlt).
  symmetry. apply Qplus_inj_r with (z := (- mn)%Q).
  rewrite Qplus_opp_r. exact H0.
Qed.

Lemma concat_map_map {A B : Type} (f : A -> B) (xss : list (list A)) :
  concat (map (map f) xss) = map f (concat xss).
Proof. symmetry. apply concat_map. Qed.

Lemma elements_map_elements (f : Q -> Q) (a : ndarray4) :
  elements (map_elements f a) = map f (elements a).
Proof.
  unfold elements, map_elements, frame_elements, plane_elements, map_frame, map_plane.
  simpl. rewrite <- concat_map_map, !map_map. f_equal.
  apply map_ext. intros fr. rewrite <- concat_map_map, !map_map. f_equal.
  apply map_ext. intros p. apply concat_map_map.
Qed.

Lemma elements_slice (a : ndarray4) (i j : Z) (x : Q) :
  x ∈ elements (slice a i j) -> x ∈ elements a.
Proof.
  unfold elements, slice, py_slice; simpl. rewrite !list_elem_of_In.
  rewrite !in_concat. intros (ys & Hys & Hx). exists ys. split; [|exact Hx].
  apply in_map_iff in Hys as (fr & <- & Hfr). apply in_map.
  apply list_elem_of_In. apply list_elem_of_In in Hfr.
  eapply subseteq_drop, subseteq_take. exact Hfr.
Qed.

(** ** The temporal mask *)

(** C6. For every time step [i] of the series the temporal encoder takes
    [hour = i mod T_period] and [day = (i div T_period) mod 7] and makes the
    hour matrix's frame [i] all ones in channel [hour] and all zeros in the
    other 23 channels, and likewise the day matrix's frame [i] for channel
    [day] of 7; each of the two per-step masks therefore sums to [h * w].
    The matrices are built for every period from 0 to 24 (and down to -25,
    where the negative hour index counts from the end). *)
Theorem temporal_mask_one_hot (len_total : nat) (T_period : Z) (h w : nat) :
  (-25 <= T_period <= 24 ->
   exists mh md, temporal_matrices len_total T_period h w = Ok (mh, md))
  /\ (T_period <> 0 ->
      forall i, remainder i T_period = i mod T_period
                /\ remainder (floor_divide i T_period) 7 = (i / T_period) mod 7)
  /\ (forall mh md,
        temporal_matrices len_total T_period h w = Ok (mh, md) ->
        shape mh = (len_total, 24%nat, h, w)
        /\ shape md = (len_total, 7%nat, h, w)
        /\ forall i, (i < len_total)%nat ->
             let hour := remainder (Z.of_nat i) T_period in
             let day := remainder (floor_divide (Z.of_nat i) T_period) 7 in
             exists ch cd fh fd,
               norm_index 24 hour = Ok ch /\ (0 <= hour -> Z.of_nat ch = hour)
               /\ norm_index 7 day = Ok cd /\ Z.of_nat cd = day
               /\ frames mh !! i = Some fh /\ frames md !! i = Some fd
               /\ length fh = 24%nat /\ length fd = 7%nat
               /\ (forall c, (c < 24)%nat ->
                     fh !! c = Some (full_plane h w (if decide (c = ch) then 1%Q else 0%Q)))
               /\ (forall c, (c < 7)%nat ->
                     fd !! c = Some (full_plane h w (if decide (c = cd) then 1%Q else 0%Q)))
               /\ (frame_sum fh == inject_Z (Z.of_nat (h * w)))%Q
               /\ (frame_sum fd == inject_Z (Z.of_nat (h * w)))%Q).
Proof.
  split; [apply temporal_matrices_total|]. split.
  - intros HT i. unfold remainder, floor_divide.
    destruct (Z.eqb_spec T_period 0); [contradiction|]. auto.
  - intros mh md H.
    apply temporal_matrices_Ok_inv in H
      as [(Hc1 & Hh1 & Hw1 & Hn1 & Hdone1 & _) (Hc2 & Hh2 & Hw2 & Hn2 & Hdone2 & _)].
    split; [unfold shape; congruence|]. split; [unfold shape; congruence|].
    intros i Hi hour day.
    destruct (Hdone1 i Hi) as (c1 & ch & Hl1 & Hi1 & Hf1).
    destruct (Hdone2 i Hi) as (c2 & cd & Hl2 & Hi2 & Hf2).
    rewrite lookup_hour_indices in Hl1 by exact Hi. injection Hl1 as <-.
    rewrite lookup_day_indices in Hl2 by exact Hi. injection Hl2 as <-.
    fold hour in Hi1. fold day in Hi2.
    pose proof (norm_index_Ok_inv _ _ _ Hi1) as (Hch & _ & Hch').
    pose proof (norm_index_Ok_inv _ _ _ Hi2) as (Hcd & _ & Hcd').
    pose proof (day_index_range (floor_divide (Z.of_nat i) T_period)) as Hday.
    fold day in Hday.
    exists ch, cd, (one_hot_frame 24 h w ch), (one_hot_frame 7 h w cd).
    repeat split; auto; try apply length_one_hot_frame.
    + intros Hpos. destruct (Z.leb_spec 0 hour); lia.
    + destruct (Z.leb_spec 0 day); lia.
    + intros c Hc. apply lookup_one_hot_frame; assumption.
    + intros c Hc. apply lookup_one_hot_frame; assumption.
    + apply frame_sum_one_hot. exact Hch.
    + apply frame_sum_one_hot. exact Hcd.
Qed.

Lemma temporal_mask_one_hot_witness :
  exists mh md,
    temporal_matrices 30 24 2 3 = Ok (mh, md)
    /\ shape mh = (30%nat, 24%nat, 2%nat, 3%nat)
    /\ shape md = (30%nat, 7%nat, 2%nat, 3%nat).
Proof.
  destruct (temporal_mask_one_hot 30 24 2 3) as (Htotal & _ & Hspec).
  destruct Htotal as (mh & md & H); [lia|].
  exists mh, md. split; [exact H|].
  destruct (Hspec mh md H) as (H1 & H2 & _). split; assumption.
Defined.

(** ** The skip offset *)

Lemma number_of_skip_hours_none
  (len_closeness len_period len_trend T_closeness T_period T_trend : Z) :
  len_trend <= 0 -> len_period <= 0 -> len_closeness <= 0 ->
  number_of_skip_hours len_closeness len_period len_trend T_closeness T_period T_trend
  = Raise InvalidParametersException.
Proof.
  intros Ht Hp Hc. unfold number_of_skip_hours.
  destruct (Z.ltb_spec 0 len_trend); [lia|].
  destruct (Z.ltb_spec 0 len_period); [lia|].
  destruct (Z.ltb_spec 0 len_closeness); [lia|]. reflexivity.
Qed.

(** What [_create_feature_vector] does before it reaches the skip rule. *)
Lemma create_feature_vector_masks_raise (all_data : ndarray4) (poi : ndarray3)
  (len_closeness len_period len_trend T_closeness T_period T_trend : Z) (e : exn) :
  temporal_matrices (length (frames all_data)) T_period
    (height all_data) (width all_data) = Raise e ->
  _create_feature_vector all_data poi
    len_closeness len_period len_trend T_closeness T_period T_trend = Raise e.
Proof.
  intros Htm. unfold _create_feature_vector, shape. rewrite Htm. reflexivity.
Qed.

Lemma create_feature_vector_no_scale (all_data : ndarray4) (poi : ndarray3)
  (len_closeness len_period len_trend T_closeness T_period T_trend : Z) :
  len_trend <= 0 -> len_period <= 0 -> len_closeness <= 0 ->
  mask_period (length (frames all_data)) T_period ->
  _create_feature_vector all_data poi
    len_closeness len_period len_trend T_closeness T_period T_trend
  = Raise InvalidParametersException.
Proof.
  intros Ht Hp Hc Hmask.
  destruct (temporal_matrices_built (length (frames all_data)) T_period
              (height all_data) (width all_data) Hmask) as (mh & md & Htm).
  unfold _create_feature_vector, shape. rewrite Htm. cbn [bind].
  destruct (temporal_matrices_Ok_inv _ _ _ _ _ _ Htm)
    as [(_ & Hh1 & Hw1 & Hn1 & _) (_ & Hh2 & Hw2 & Hn2 & _)].
  rewrite concatenate_Ok by congruence. cbn [bind].
  rewrite number_of_skip_hours_none by assumption. reflexivity.
Qed.

(** C1, as the code has it.  The skip offset follows a fixed priority:
    [T_trend * len_trend] when the trend scale is enabled, else
    [T_period * len_period] when the period scale is, else
    [T_closeness * len_closeness] when the closeness scale is; with no scale
    enabled the rule raises [InvalidParametersException].  Construction then
    produces no arrays, and it ends with that exception exactly when the
    temporal masks, which are built before the rule is applied, can be
    built: for a period from -25 to 24, for a larger period within [int64]
    on at most 24 time steps and for a smaller one within [int64] on at most
    one.  Otherwise it has ended before the rule, with the [IndexError] of
    the hour mask for a period within [int64] and with [OverflowError] for a
    period outside of it. *)
Theorem skip_offset_priority_rule
  (len_closeness len_period len_trend T_closeness T_period T_trend : Z) :
  (0 < len_trend ->
   number_of_skip_hours len_closeness len_period len_trend
     T_closeness T_period T_trend = Ok (T_trend * len_trend))
  /\ (len_trend <= 0 -> 0 < len_period ->
      number_of_skip_hours len_closeness len_period len_trend
        T_closeness T_period T_trend = Ok (T_period * len_period))
  /\ (len_trend <= 0 -> len_period <= 0 -> 0 < len_closeness ->
      number_of_skip_hours len_closeness len_period len_trend
        T_closeness T_period T_trend = Ok (T_closeness * len_closeness))
  /\ (len_trend <= 0 -> len_period <= 0 -> len_closeness <= 0 ->
      number_of_skip_hours len_closeness len_period len_trend
        T_closeness T_period T_trend = Raise InvalidParametersException
      /\ forall (flow : ndarray4) (poi : ndarray3) (normalize : bool),
           let n := length (frames flow) in
           let failure (e : exn) :=
             _create_feature_vector flow poi len_closeness len_period len_trend
               T_closeness T_period T_trend = Raise e
             /\ (elements flow <> [] ->
                 __init__ flow poi len_closeness len_period len_trend
                   T_closeness T_period T_trend normalize = Raise e) in
           (mask_period n T_period -> failure InvalidParametersException)
           /\ ((24 < T_period < 2 ^ 63 /\ (24 < n)%nat)
               \/ (- 2 ^ 63 <= T_period < -25 /\ (1 < n)%nat) ->
               failure IndexError)
           /\ (T_period < - 2 ^ 63 \/ 2 ^ 63 <= T_period -> failure OverflowError)
           /\ (forall fv,
                 _create_feature_vector flow poi len_closeness len_period len_trend
                   T_closeness T_period T_trend <> Ok fv)
           /\ (forall ds,
                 __init__ flow poi len_closeness len_period len_trend
                   T_closeness T_period T_trend normalize <> Ok ds))
  /\ (forall (all_data : ndarray4) (poi : ndarray3) (fv : feature_vector),
        _create_feature_vector all_data poi len_closeness len_period len_trend
          T_closeness T_period T_trend = Ok fv ->
        exists skip mT,
          number_of_skip_hours len_closeness len_period len_trend
            T_closeness T_period T_trend = Ok skip
          /\ fv_Y_data fv
             = slice all_data skip (Z.of_nat (length (frames all_data)))
          /\ fv_T_data fv = slice_from mT skip).
Proof.
  split; [|split; [|split; [|split]]].
  - apply number_of_skip_hours_trend.
  - intros Ht Hp. unfold number_of_skip_hours.
    destruct (Z.ltb_spec 0 len_trend); [lia|].
    destruct (Z.ltb_spec 0 len_period); [reflexivity|lia].
  - intros Ht Hp Hc. unfold number_of_skip_hours.
    destruct (Z.ltb_spec 0 len_trend); [lia|].
    destruct (Z.ltb_spec 0 len_period); [lia|].
    destruct (Z.ltb_spec 0 len_closeness); [reflexivity|lia].
  - intros Ht Hp Hc. split; [apply number_of_skip_hours_none; assumption|].
    intros flow poi normalize n failure.
    assert (Hinit : forall e,
              (forall full,
                 length (frames full) = length (frames flow) ->
                 height full = height flow -> width full = width flow ->
                 _create_feature_vector full poi len_closeness len_period len_trend
                   T_closeness T_period T_trend = Raise e) ->
              failure e).
    { intros e He. split; [apply He; reflexivity|].
      intros Hne. apply init_raises; assumption. }
    assert (H1 : mask_period n T_period -> failure InvalidParametersException).
    { intros Hmask. apply Hinit. intros full Hl Hh Hw.
      apply create_feature_vector_no_scale; try assumption.
      rewrite Hl. exact Hmask. }
    assert (H2 : (24 < T_period < 2 ^ 63 /\ (24 < n)%nat)
                 \/ (- 2 ^ 63 <= T_period < -25 /\ (1 < n)%nat) ->
                 failure IndexError).
    { intros HT. apply Hinit. intros full Hl Hh Hw.
      apply create_feature_vector_masks_raise.
      rewrite Hl. apply temporal_matrices_IndexError. exact HT. }
    assert (H3 : T_period < - 2 ^ 63 \/ 2 ^ 63 <= T_period -> failure OverflowError).
    { intros HT. apply Hinit. intros full Hl Hh Hw.
      apply create_feature_vector_masks_raise.
      apply temporal_matrices_overflow. exact HT. }
    assert (Hfv : exists e,
              _create_feature_vector flow poi len_closeness len_period len_trend
                T_closeness T_period T_trend = Raise e).
    { destruct (temporal_matrices_outcome n T_period (height flow) (width flow))
        as [(Hm & _)|[(HT & _)|(HT & _)]].
      - eexists. apply (H1 Hm).
      - eexists. apply (H2 HT).
      - eexists. apply (H3 HT). }
    split; [exact H1|]. split; [exact H2|]. split; [exact H3|].
    destruct Hfv as (e & He). split.
    + intros fv Hfv. rewrite He in Hfv. discriminate.
    + intros ds Hds. apply init_Ok_inv in Hds as (mx & mn & fv & _ & _ & Hfv & _).
      destruct (create_feature_vector_Ok_inv _ _ _ _ _ _ _ _ _ Hfv)
        as (skip & _ & _ & _ & _ & _ & _ & Hskip & _).
      rewrite number_of_skip_hours_none in Hskip by assumption. discriminate.
  - intros all_data poi fv Hfv.
    apply create_feature_vector_Ok_inv in Hfv
      as (skip & mh & md & mT & p & _ & _ & Hskip & _ & _ & _ & HT & HY & _).
    exists skip, mT. auto.
Qed.

Lemma skip_offset_priority_rule_witness :
  number_of_skip_hours 3 4 4 1 24 168 = Ok 672
  /\ number_of_skip_hours 3 4 0 1 24 168 = Ok 96
  /\ number_of_skip_hours 3 0 0 1 24 168 = Ok 3
  /\ _create_feature_vector (ramp 10) unit_poi 0 0 0 1 24 168
     = Raise InvalidParametersException
  /\ _create_feature_vector (ramp 10) unit_poi 0 0 0 1 25 168
     = Raise InvalidParametersException
  /\ _create_feature_vector (ramp 30) unit_poi 0 0 0 1 25 168 = Raise IndexError
  /\ _create_feature_vector (ramp 30) unit_poi 0 0 0 1 (2 ^ 63) 168
     = Raise OverflowError.
Proof.
  split; [|split; [|split; [|split; [|split; [|split]]]]].
  - apply (skip_offset_priority_rule 3 4 4 1 24 168). lia.
  - apply (skip_offset_priority_rule 3 4 0 1 24 168); lia.
  - apply (skip_offset_priority_rule 3 0 0 1 24 168); lia.
  - apply (skip_offset_priority_rule 0 0 0 1 24 168); try lia.
    + exact true.
    + left. lia.
  - apply (skip_offset_priority_rule 0 0 0 1 25 168); try lia.
    + exact true.
    + right. left. split; [lia|vm_compute; lia].
  - apply (skip_offset_priority_rule 0 0 0 1 25 168); try lia.
    + exact true.
    + left. split; [lia|vm_compute; lia].
  - apply (skip_offset_priority_rule 0 0 0 1 (2 ^ 63) 168); try lia.
    exact true.
Defined.

(** C1 as stated fails: the masks come first.  With no scale enabled, a
    period of 25 and a series of 30 time steps, iteration 24 of the hour
    loop indexes channel 24 of 24 and construction ends with [IndexError],
    not with [InvalidParametersException]. *)
Lemma no_scale_raises_IndexError :
  number_of_skip_hours 0 0 0 1 25 168 = Raise InvalidParametersException
  /\ _create_feature_vector (ramp 30) unit_poi 0 0 0 1 25 168 = Raise IndexError
  /\ __init__ (ramp 30) unit_poi 0 0 0 1 25 168 true = Raise IndexError
  /\ ~ (forall all_data poi lc lp lt Tc Tp Tt,
          lt <= 0 -> lp <= 0 -> lc <= 0 ->
          _create_feature_vector all_data poi lc lp lt Tc Tp Tt
          = Raise InvalidParametersException).
Proof.
  assert (H : _create_feature_vector (ramp 30) unit_poi 0 0 0 1 25 168
              = Raise IndexError) by (vm_compute; reflexivity).
  split; [reflexivity|]. split; [exact H|]. split; [vm_compute; reflexivity|].
  intros Hall.
  rewrite (Hall (ramp 30) unit_poi 0 0 0 1 25 168) in H by lia. discriminate.
Qed.

(** C4, as the code has it.  The skip offset is the lag span of the first
    enabled scale in the order trend, period, closeness.  It is one of the
    enabled lag spans, so it never exceeds their maximum, and it is that
    maximum exactly when no enabled scale has a larger span. *)
Theorem skip_offset_vs_max_lag_span
  (len_closeness len_period len_trend T_closeness T_period T_trend skip : Z) :
  number_of_skip_hours len_closeness len_period len_trend
    T_closeness T_period T_trend = Ok skip ->
  ((0 < len_trend /\ skip = T_trend * len_trend)
   \/ (len_trend <= 0 /\ 0 < len_period /\ skip = T_period * len_period)
   \/ (len_trend <= 0 /\ len_period <= 0 /\ 0 < len_closeness
       /\ skip = T_closeness * len_closeness))
  /\ exists mx,
       max_lag_span len_closeness len_period len_trend
         T_closeness T_period T_trend = Some mx
       /\ skip ∈ enabled_spans len_closeness len_period len_trend
                   T_closeness T_period T_trend
       /\ skip <= mx
       /\ (skip = mx <->
           Forall (fun s => s <= skip)
             (enabled_spans len_closeness len_period len_trend
                T_closeness T_period T_trend)).
Proof.
  unfold number_of_skip_hours, max_lag_span, enabled_spans.
  destruct (Z.ltb_spec 0 len_trend), (Z.ltb_spec 0 len_period),
    (Z.ltb_spec 0 len_closeness);
    simpl; intros [= <-]; (split; [lia|]); eexists; (split; [reflexivity|]);
    (split; [apply list_elem_of_In; simpl; auto|]); (split; [lia|]);
    rewrite ?Forall_cons, ?Forall_nil; lia.
Qed.

Lemma skip_offset_vs_max_lag_span_witness :
  number_of_skip_hours 3 4 4 1 24 168 = Ok 672
  /\ enabled_spans 3 4 4 1 24 168 = [3; 96; 672]
  /\ max_lag_span 3 4 4 1 24 168 = Some 672.
Proof.
  split; [reflexivity|]. split; [reflexivity|].
  destruct (skip_offset_vs_max_lag_span 3 4 4 1 24 168 672 eq_refl)
    as (_ & mx & Hmx & _ & _ & Heq).
  rewrite Hmx. f_equal. symmetry. apply Heq.
  repeat constructor; lia.
Defined.

(** C4 as stated fails: with a trend scale of one lag of 48 steps and a
    period scale of four lags of 24 steps the offset is 48, the maximal lag
    span 96. *)
Lemma skip_offset_not_max_lag_span :
  number_of_skip_hours 3 4 1 1 24 48 = Ok 48
  /\ max_lag_span 3 4 1 1 24 48 = Some 96
  /\ ~ (forall lc lp lt Tc Tp Tt skip,
          number_of_skip_hours lc lp lt Tc Tp Tt = Ok skip ->
          max_lag_span lc lp lt Tc Tp Tt = Some skip).
Proof.
  split; [reflexivity|]. split; [reflexivity|].
  intros H. specialize (H 3 4 1 1 24 48 48 eq_refl). discriminate H.
Qed.

(** ** Scale windows *)

(** A successful construction enabled all three scales. *)
Lemma construction_needs_all_three_scales (all_data : ndarray4) (poi : ndarray3)
  (len_closeness len_period len_trend T_closeness T_period T_trend : Z)
  (fv : feature_vector) :
  _create_feature_vector all_data poi
    len_closeness len_period len_trend T_closeness T_period T_trend = Ok fv ->
  0 < len_closeness /\ 0 < len_period /\ 0 < len_trend.
Proof.
  intros H. apply create_feature_vector_Ok_inv in H
    as (skip & mh & md & mT & p & _ & _ & _ & (Hc & _) & (Hp & _) & (Ht & _) & _).
  auto.
Qed.





(** ** Sample counts *)


Lemma poi_fits_unit_ramp (n : nat) : poi_fits unit_poi (ramp n).
Proof. split; [repeat constructor; discriminate|reflexivity]. Qed.



(** A disabled scale leaves its attribute unassigned, and the construction
    reads it all the same. *)
Example disabled_period_raises :
  _create_feature_vector (ramp 10) unit_poi 2 0 1 1 2 3 = Raise AttributeError.
Proof. vm_compute. reflexivity. Qed.

(** ** A skip offset beyond the series *)

Lemma elements_nonempty_frames (a : ndarray4) :
  elements a <> [] -> (0 < length (frames a))%nat.
Proof.
  unfold elements. destruct (frames a); simpl; [congruence|lia].
Qed.

(** Beyond twice the length of the series a slice of its length is empty
    wherever it is shifted to. *)
Lemma length_slice_beyond {A : Type} (l : list A) (skip d : Z) :
  2 * Z.of_nat (length l) <= skip ->
  length (py_slice (skip - d) (Z.of_nat (length l) - d) l) = 0%nat.
Proof.
  intros Hs. rewrite length_py_slice. unfold slice_bound.
  destruct (Z.ltb_spec (skip - d) 0), (Z.ltb_spec (Z.of_nat (length l) - d) 0); lia.
Qed.

Lemma lagged_window_beyond (all_data : ndarray4) (skip T L : Z) :
  let n := Z.of_nat (length (frames all_data)) in
  0 < L -> 2 * n <= skip ->
  exists X, lagged_window all_data skip n T L = Ok X
    /\ shape X = (0%nat, (Z.to_nat L * channels all_data)%nat,
                  height all_data, width all_data).
Proof.
  intros n HL Hskip.
  destruct (lagged_window_total all_data skip n T L 0 HL) as (X & HX & Hs & _).
  - intros k Hk. unfold lag_slice. apply length_slice_beyond. exact Hskip.
  - exists X. split; assumption.
Qed.

Lemma create_feature_vector_beyond (all_data : ndarray4) (poi : ndarray3)
  (len_closeness len_period len_trend T_closeness T_period T_trend : Z) :
  let n := Z.of_nat (length (frames all_data)) in
  let skip := T_trend * len_trend in
  poi_fits poi all_data ->
  0 < len_closeness -> 0 < len_period -> 0 < len_trend ->
  mask_period (length (frames all_data)) T_period ->
  2 * n <= skip ->
  exists fv,
    _create_feature_vector all_data poi
      len_closeness len_period len_trend T_closeness T_period T_trend = Ok fv
    /\ length (frames (fv_X_closeness fv)) = 0%nat
    /\ length (frames (fv_X_period fv)) = 0%nat
    /\ length (frames (fv_X_trend fv)) = 0%nat
    /\ length (frames (fv_T_data fv)) = 0%nat
    /\ length (frames (fv_P_data fv)) = 0%nat
    /\ length (frames (fv_Y_data fv)) = 0%nat.
Proof.
  intros n skip Hpoi Hlc Hlp Hlt Hmask Hskip.
  destruct (temporal_matrices_built (length (frames all_data)) T_period
              (height all_data) (width all_data) Hmask) as (mh & md & Htm).
  destruct (temporal_matrices_Ok_inv _ _ _ _ _ _ Htm)
    as [(Hc1 & Hh1 & Hw1 & Hn1 & _) (Hc2 & Hh2 & Hw2 & Hn2 & _)].
  destruct (lagged_window_beyond all_data skip T_closeness len_closeness Hlc Hskip)
    as (Xc & HXc & HsXc).
  destruct (lagged_window_beyond all_data skip T_period len_period Hlp Hskip)
    as (Xp & HXp & HsXp).
  destruct (lagged_window_beyond all_data skip T_trend len_trend Hlt Hskip)
    as (Xt & HXt & HsXt).
  destruct (normalize_poi_total (dtype3 poi) (planes poi) (proj1 Hpoi))
    as (ps & Hps & Hpslen).
  destruct (reshape_fits poi ps all_data Hpoi Hpslen) as (p & Hp).
  injection HsXc as HmXc _ _ _. injection HsXp as HmXp _ _ _.
  injection HsXt as HmXt _ _ _.
  eexists. split.
  - unfold _create_feature_vector, shape.
    rewrite Htm. cbn [bind].
    rewrite concatenate_Ok by congruence. cbn [bind].
    rewrite number_of_skip_hours_trend by exact Hlt. cbn [bind]. fold skip.
    rewrite (scale_attribute_enabled _ _ _ _ _ Xc Hlc HXc). cbn [bind].
    rewrite (scale_attribute_enabled _ _ _ _ _ Xp Hlp HXp). cbn [bind].
    rewrite (scale_attribute_enabled _ _ _ _ _ Xt Hlt HXt). cbn [bind getattr].
    rewrite Hps. cbn [bind]. rewrite Hp. cbn [bind]. reflexivity.
  - cbn [fv_X_closeness fv_X_period fv_X_trend fv_T_data fv_P_data fv_Y_data].
    split; [exact HmXc|]. split; [exact HmXp|]. split; [exact HmXt|].
    repeat split.
    + unfold slice_from; simpl. rewrite length_py_slice_from.
      rewrite length_zip_with_l_eq by congruence. rewrite Hn1.
      unfold slice_bound. destruct (Z.ltb_spec skip 0); subst n; lia.
    + unfold repeat; simpl. rewrite length_replicate. exact HmXc.
    + unfold slice; simpl. rewrite length_py_slice.
      unfold slice_bound. destruct (Z.ltb_spec skip 0); [subst n; lia|].
      destruct (Z.ltb_spec (Z.of_nat (length (frames all_data))) 0); subst n; lia.
Qed.

(** C7, as the code has it.  When the skip offset is at least twice the
    length of the series (as in the scenario of 200 steps with the default
    parameters, where it is 672), all three scales being enabled, the series
    not empty, the period one for which the temporal masks are built and the
    points of interest having channels that are not empty and fit the grid,
    construction does not fail whatever the steps of the closeness and the
    period scale are: the three scale arrays, [T_data], [P_data] and [Y_data]
    have no sample, and [__len__] of the new object is 0. *)
Theorem degenerate_skip_yields_empty (flow : ndarray4) (poi : ndarray3)
  (len_closeness len_period len_trend T_closeness T_period T_trend : Z)
  (normalize : bool) :
  let n := Z.of_nat (length (frames flow)) in
  let skip := T_trend * len_trend in
  elements flow <> [] ->
  poi_fits poi flow ->
  0 < len_closeness -> 0 < len_period -> 0 < len_trend ->
  mask_period (length (frames flow)) T_period ->
  2 * n <= skip ->
  exists ds,
    __init__ flow poi len_closeness len_period len_trend
      T_closeness T_period T_trend normalize = Ok ds
    /\ number_of_skip_hours len_closeness len_period len_trend
         T_closeness T_period T_trend = Ok skip
    /\ n < skip
    /\ length (frames (X_closeness ds)) = 0%nat
    /\ length (frames (X_period ds)) = 0%nat
    /\ length (frames (X_trend ds)) = 0%nat
    /\ length (frames (T_data ds)) = 0%nat
    /\ length (frames (P_data ds)) = 0%nat
    /\ len (Y_data ds) = 0
    /\ __len__ ds = Ok 0.
Proof.
  intros n skip Hne Hpoi Hlc Hlp Hlt Hmask Hskip.
  pose proof (elements_nonempty_frames flow Hne) as Hpos.
  destruct (max_of_nonempty _ Hne) as (mx & Hmx).
  destruct (min_of_nonempty _ Hne) as (mn & Hmn).
  destruct (full_data_same_shape normalize (normalization mx mn) flow)
    as (Hl & _ & Hh & Hw).
  destruct (create_feature_vector_beyond
              (if normalize then map_elements (normalization mx mn) flow else flow)
              poi len_closeness len_period len_trend T_closeness T_period T_trend)
    as (fv & Hfv & H1 & H2 & H3 & H4 & H5 & H6); auto.
  { destruct Hpoi as [Hp1 Hp2]. split; [exact Hp1|]. rewrite Hh, Hw. exact Hp2. }
  { rewrite Hl. exact Hmask. }
  { rewrite Hl. exact Hskip. }
  destruct (init_of_feature_vector flow poi len_closeness len_period len_trend
              T_closeness T_period T_trend normalize mx mn fv Hmx Hmn Hfv)
    as (ds & Hds & E1 & E2 & E3 & E4 & E5 & HY & Hlead).
  exists ds. split; [exact Hds|].
  split; [apply number_of_skip_hours_trend; exact Hlt|].
  split; [subst n; lia|].
  rewrite E1, E2, E3, E4, E5.
  repeat (split; [assumption|]).
  assert (Hlen : len (Y_data ds) = 0) by (rewrite HY; simpl; lia).
  split; [exact Hlen|].
  unfold __len__. rewrite Hlead, Hlen. reflexivity.
Qed.

Lemma degenerate_skip_yields_empty_witness :
  (exists ds, default_init (ramp 200) unit_poi = Ok ds
              /\ number_of_skip_hours 3 4 4 1 24 (24 * 7) = Ok (24 * 7 * 4)
              /\ length (frames (X_trend ds)) = 0%nat
              /\ __len__ ds = Ok 0)
  /\ (exists ds, __init__ (ramp 10) unit_poi 3 4 4 (-1) 48 5 false = Ok ds
                 /\ length (frames (X_closeness ds)) = 0%nat
                 /\ __len__ ds = Ok 0).
Proof.
  split.
  - destruct (degenerate_skip_yields_empty (ramp 200) unit_poi 3 4 4 1 24 (24 * 7) true)
      as (ds & Hds & Hskip & _ & _ & _ & Ht & _ & _ & _ & Hlen);
      try lia; [vm_compute; discriminate|apply poi_fits_unit_ramp
               |left; lia|vm_compute; discriminate|].
    exists ds. repeat split; assumption.
  - destruct (degenerate_skip_yields_empty (ramp 10) unit_poi 3 4 4 (-1) 48 5 false)
      as (ds & Hds & _ & _ & Hc & _ & _ & _ & _ & _ & Hlen);
      try lia; [vm_compute; discriminate|apply poi_fits_unit_ramp
               |right; left; split; [lia|vm_compute; lia]|vm_compute; discriminate|].
    exists ds. repeat split; assumption.
Defined.

(** Between once and twice the length of the series the skip offset leaves
    the last lagged slice of the scale that defines it, [raw[0 : n - skip]],
    with a negative end index, which counts from the end: the slice is not
    empty. *)
Lemma last_lagged_slice_not_empty (all_data : ndarray4) (T L : Z) :
  let n := Z.of_nat (length (frames all_data)) in
  n < T * L < 2 * n ->
  length (lag_slice all_data (T * L) n T L) = Z.to_nat (2 * n - T * L)
  /\ (0 < length (lag_slice all_data (T * L) n T L))%nat.
Proof.
  intros n Hskip. unfold lag_slice. rewrite length_py_slice. fold n.
  unfold slice_bound. fold n.
  destruct (Z.ltb_spec (T * L - T * L) 0), (Z.ltb_spec (n - T * L) 0); lia.
Qed.

(** C7 as stated fails when the skip offset exceeds the series by less than
    its length: for 500 steps and the default parameters the offset is 672,
    the third trend slice is [raw[168:-4]], of 328 frames, next to two empty
    ones, and construction ends with a [ValueError]. *)
Lemma skip_beyond_series_fails :
  number_of_skip_hours 3 4 4 1 24 (24 * 7) = Ok 672
  /\ Z.of_nat (length (frames (ramp 500))) < 672
  /\ length (lag_slice (ramp 500) 672 500 (24 * 7) 1) = 0%nat
  /\ length (lag_slice (ramp 500) 672 500 (24 * 7) 3) = 328%nat
  /\ default_init (ramp 500) unit_poi = Raise ValueError.
Proof.
  split; [reflexivity|]. split; [vm_compute; reflexivity|].
  split; [vm_compute; reflexivity|]. split; vm_compute; reflexivity.
Qed.

(** ** The period and the 24 hour channels *)

(** C10, as the code has it.  For a period from -25 to 24 the hour index of
    every time step is a valid index into the 24 channels and the hour matrix
    is built: for a period from 0 to 24 the index is one of [0 .. 23]; for a
    negative period it is negative and counts from the end.  For a period
    above 24 within [int64] and a series of more than 24 steps, and for a
    period below -25 within [int64] and a series of more than one step,
    building the hour matrix raises [IndexError], and so do
    [_create_feature_vector] and the constructor.  For a period outside of
    [int64] the hour index cannot be computed: line 159 raises
    [OverflowError], and so do [_create_feature_vector] and the
    constructor. *)
Theorem hour_encoding_period_bound (all_data : ndarray4) (poi : ndarray3)
  (len_closeness len_period len_trend T_closeness T_period T_trend : Z) :
  let n := length (frames all_data) in
  let failure (e : exn) :=
    _create_feature_vector all_data poi
      len_closeness len_period len_trend T_closeness T_period T_trend = Raise e
    /\ forall normalize,
         elements all_data <> [] ->
         __init__ all_data poi
           len_closeness len_period len_trend T_closeness T_period T_trend
           normalize = Raise e in
  (-25 <= T_period <= 24 ->
   (forall i, (i < n)%nat ->
      - 24 <= remainder (Z.of_nat i) T_period < 24
      /\ exists c, norm_index 24 (remainder (Z.of_nat i) T_period) = Ok c)
   /\ (0 <= T_period ->
       forall i, (i < n)%nat ->
         0 <= remainder (Z.of_nat i) T_period < 24
         /\ norm_index 24 (remainder (Z.of_nat i) T_period)
            = Ok (Z.to_nat (remainder (Z.of_nat i) T_period)))
   /\ exists hours m,
        time_hour n T_period = Ok hours
        /\ (forall i, (i < n)%nat ->
              hours !! i = Some (remainder (Z.of_nat i) T_period))
        /\ one_hot_matrix n hours 24 (height all_data) (width all_data) = Ok m)
  /\ ((24 < T_period < 2 ^ 63 /\ (24 < n)%nat)
      \/ (- 2 ^ 63 <= T_period < -25 /\ (1 < n)%nat) ->
      (exists hours,
         time_hour n T_period = Ok hours
         /\ one_hot_matrix n hours 24 (height all_data) (width all_data)
            = Raise IndexError)
      /\ failure IndexError)
  /\ (T_period < - 2 ^ 63 \/ 2 ^ 63 <= T_period ->
      time_hour n T_period = Raise OverflowError
      /\ failure OverflowError).
Proof.
  intros n failure.
  assert (Hinit : forall e,
            (forall k h w, temporal_matrices k T_period h w = Raise e \/ k <> n) ->
            failure e).
  { intros e He.
    assert (Hfv : forall full,
              length (frames full) = length (frames all_data) ->
              height full = height all_data -> width full = width all_data ->
              _create_feature_vector full poi
                len_closeness len_period len_trend T_closeness T_period T_trend
              = Raise e).
    { intros full Hl Hh Hw. apply create_feature_vector_masks_raise.
      destruct (He (length (frames full)) (height full) (width full)) as [H|H];
        [exact H|contradiction]. }
    split; [apply Hfv; reflexivity|].
    intros normalize Hne. apply init_raises; assumption. }
  split; [|split].
  - intros HT. split; [|split].
    + intros i Hi.
      pose proof (hour_index_valid (Z.of_nat i) T_period HT) as Hr.
      split; [exact Hr|]. apply norm_index_valid. simpl. lia.
    + intros HT0 i Hi.
      pose proof (hour_index_range (Z.of_nat i) T_period ltac:(lia)) as Hr.
      split; [exact Hr|]. apply norm_index_in_range. lia.
    + destruct (hour_matrix_total n T_period (height all_data) (width all_data) HT)
        as (m & Hm).
      exists (hour_indices n T_period), m.
      split; [apply time_hour_Ok; lia|].
      split; [intros i Hi; apply lookup_hour_indices; exact Hi|exact Hm].
  - intros Hout. split.
    + exists (hour_indices n T_period). split; [apply time_hour_Ok; lia|].
      destruct Hout as [[HT Hn]|[HT Hn]];
        [apply hour_matrix_raises|apply hour_matrix_raises_negative];
        (lia || exact Hn).
    + apply Hinit. intros k h w. destruct (Nat.eq_dec k n) as [->|Hk]; [left|right; exact Hk].
      apply temporal_matrices_IndexError. exact Hout.
  - intros Hout. split.
    + unfold time_hour, array_remainder. rewrite as_int64_raises by exact Hout.
      reflexivity.
    + apply Hinit. intros k h w. left. apply temporal_matrices_overflow. exact Hout.
Qed.

Lemma hour_encoding_period_bound_witness :
  (exists hours m,
     time_hour 30 24 = Ok hours /\ one_hot_matrix 30 hours 24 1 1 = Ok m)
  /\ _create_feature_vector (ramp 30) unit_poi 3 4 4 1 25 168 = Raise IndexError
  /\ _create_feature_vector (ramp 30) unit_poi 3 4 4 1 (2 ^ 63) 168
     = Raise OverflowError.
Proof.
  split; [|split].
  - destruct (hour_encoding_period_bound (ramp 30) unit_poi 3 4 4 1 24 168)
      as [Hbuilt _].
    destruct Hbuilt as (_ & _ & hours & m & Hh & _ & Hm); [lia|].
    exists hours, m. split; [exact Hh|exact Hm].
  - destruct (hour_encoding_period_bound (ramp 30) unit_poi 3 4 4 1 25 168)
      as (_ & Hraise & _).
    destruct Hraise as (_ & Hfv & _); [left; split; [lia|vm_compute; lia]|exact Hfv].
  - destruct (hour_encoding_period_bound (ramp 30) unit_poi 3 4 4 1 (2 ^ 63) 168)
      as (_ & _ & Hraise).
    destruct Hraise as (_ & Hfv & _); [right; lia|exact Hfv].
Defined.

(** C10 as stated fails below zero: the period -30 is at most 24, the hour
    index of time step 1 is [1 mod -30 = -29], which is no index into 24
    channels, and construction ends with an [IndexError]. *)
Lemma period_at_most_24_fails :
  -30 <= 24
  /\ remainder 1 (-30) = -29
  /\ norm_index 24 (remainder 1 (-30)) = Raise IndexError
  /\ _create_feature_vector (ramp 3) unit_poi 1 1 1 1 (-30) 1 = Raise IndexError.
Proof.
  split; [lia|]. split; [reflexivity|]. split; [reflexivity|].
  vm_compute. reflexivity.
Qed.

Example ramp_dataset_constructed :
  __init__ (ramp 10) unit_poi 2 1 1 1 2 3 true = Ok ramp_dataset.
Proof. vm_compute. reflexivity. Qed.

(** C5. Construction with normalisation replaces every element [x] of the
    flow series by [(2x - (max + min)) / (max - min)], [max] and [min] being
    extrema of the series that it attains; [max - min] is stored and is what
    [get_min_max_difference] returns, also after a switch to the lead-time
    mode; and for [min < max] the map [y -> (y * (max - min) + (max + min)) / 2]
    takes every normalised element, those of [Y_data] among them, back to the
    element of the series it came from. *)
Theorem normalization_round_trip (flow : ndarray4) (poi : ndarray3)
  (len_closeness len_period len_trend T_closeness T_period T_trend : Z)
  (ds : BikeNYCDeepSTN) :
  __init__ flow poi len_closeness len_period len_trend
    T_closeness T_period T_trend true = Ok ds ->
  exists mx mn,
    np.max flow = Ok mx /\ np.min flow = Ok mn
    /\ mx ∈ elements flow /\ mn ∈ elements flow
    /\ (forall x, x ∈ elements flow -> (mn <= x)%Q /\ (x <= mx)%Q)
    /\ (forall x, normalization mx mn x = ((2 * x - (mx + mn)) / (mx - mn))%Q)
    /\ full_data ds = map_elements (normalization mx mn) flow
    /\ elements (full_data ds) = map (normalization mx mn) (elements flow)
    /\ get_min_max_difference ds = (mx - mn)%Q
    /\ (forall lead,
          get_min_max_difference (merge_closeness_period_trend ds lead)
          = (mx - mn)%Q)
    /\ (forall y, denormalization (get_min_max_difference ds) (mx + mn) y
                  = ((y * (mx - mn) + (mx + mn)) / 2)%Q)
    /\ ((mn < mx)%Q ->
        (forall x,
           (denormalization (get_min_max_difference ds) (mx + mn)
              (normalization mx mn x) == x)%Q)
        /\ forall y, y ∈ tensor_elements (Y_data ds) ->
             exists x, x ∈ elements flow /\ y = normalization mx mn x
                       /\ (denormalization (get_min_max_difference ds) (mx + mn) y
                           == x)%Q).
Proof.
  intros H. apply init_Ok_inv in H
    as (mx & mn & fv & Hmx & Hmn & Hfv & Hfull & Hdiff & _ & _ & _ & _ & _ & HY & _).
  exists mx, mn.
  destruct (max_of_spec _ _ Hmx) as [Hmxin Hub].
  destruct (min_of_spec _ _ Hmn) as [Hmnin Hlb].
  split; [exact Hmx|]. split; [exact Hmn|].
  split; [exact Hmxin|]. split; [exact Hmnin|].
  split; [intros x Hx; split; [apply Hlb|apply Hub]; exact Hx|].
  split; [reflexivity|]. split; [exact Hfull|].
  split; [rewrite Hfull; apply elements_map_elements|].
  unfold get_min_max_difference. simpl. rewrite Hdiff.
  split; [reflexivity|]. split; [reflexivity|]. split; [reflexivity|].
  intros Hlt. split; [intros x; apply denormalization_normalization; exact Hlt|].
  intros y Hy. rewrite HY in Hy. simpl in Hy.
  apply create_feature_vector_Ok_inv in Hfv
    as (skip & _ & _ & _ & _ & _ & _ & _ & _ & _ & _ & _ & HYfv & _).
  rewrite HYfv in Hy. apply elements_slice in Hy.
  rewrite elements_map_elements in Hy.
  apply list_elem_of_In, in_map_iff in Hy as (x & <- & Hx).
  exists x. split; [apply list_elem_of_In; exact Hx|]. split; [reflexivity|].
  apply denormalization_normalization. exact Hlt.
Qed.

Lemma normalization_round_trip_witness :
  exists mx mn,
    np.max (ramp 10) = Ok mx /\ np.min (ramp 10) = Ok mn
    /\ get_min_max_difference ramp_dataset = (mx - mn)%Q.
Proof.
  destruct (normalization_round_trip (ramp 10) unit_poi 2 1 1 1 2 3 ramp_dataset)
    as (mx & mn & Hmx & Hmn & _ & _ & _ & _ & _ & _ & Hd & _);
    [vm_compute; reflexivity|].
  exists mx, mn. repeat split; assumption.
Defined.

(** ** Mode switches *)

Lemma stack_Ok (xs : list ndarray4) (sh : nat * nat * nat * nat) :
  xs <> [] -> Forall (fun y => shape y = sh) xs ->
  exists a, stack xs = Ok a /\ items a = map frames xs.
Proof.
  intros Hne Hall. destruct xs as [|x xs]; [congruence|]. unfold stack.
  destruct (decide _) as [_|Hn]; [eexists; split; reflexivity|].
  exfalso. apply Hn. inversion Hall as [|? ? Hx _]; subst.
  eapply Forall_impl; [exact Hall|]. simpl. intros y Hy. congruence.
Qed.




Lemma shape_slice_in_range (a : ndarray4) (i j : Z) :
  0 <= i -> i <= j -> j <= Z.of_nat (length (frames a)) ->
  shape (slice a i j) = (Z.to_nat (j - i), channels a, height a, width a).
Proof.
  intros Hi Hij Hj. unfold shape, slice; simpl.
  destruct (py_slice_in_range i j (frames a) Hi Hij Hj) as [-> _]. reflexivity.
Qed.

(** C9, as the code has it.  For history and prediction lengths that are not negative,
    [set_sequential_representation] raises (a [ValueError], from stacking an
    empty list) exactly when their sum is at least the length of the series;
    below it the call succeeds and [__len__] becomes
    [len_total - history_length - prediction_length]. *)
Theorem sequential_representation_length (self : BikeNYCDeepSTN)
  (history_length prediction_length : Z) :
  let n := Z.of_nat (length (frames (full_data self))) in
  0 <= history_length -> 0 <= prediction_length ->
  ((exists e,
      set_sequential_representation self history_length prediction_length
      = Raise e)
   <-> n <= history_length + prediction_length)
  /\ (n <= history_length + prediction_length ->
      set_sequential_representation self history_length prediction_length
      = Raise ValueError)
  /\ (history_length + prediction_length < n ->
      exists self',
        set_sequential_representation self history_length prediction_length
        = Ok self'
        /\ __len__ self' = Ok (n - history_length - prediction_length)
        /\ sequential self' = true /\ periodical self' = false
        /\ use_lead_time self' = false).
Proof.
  intros n Hh Hp.
  assert (Hraise : n <= history_length + prediction_length ->
            set_sequential_representation self history_length prediction_length
            = Raise ValueError).
  { intros Hge. unfold set_sequential_representation, range.
    rewrite seqZ_nil by (subst n; lia). reflexivity. }
  assert (Hok : history_length + prediction_length < n ->
            exists self',
              set_sequential_representation self history_length prediction_length
              = Ok self'
              /\ __len__ self' = Ok (n - history_length - prediction_length)
              /\ sequential self' = true /\ periodical self' = false
              /\ use_lead_time self' = false).
  { intros Hlt. unfold set_sequential_representation. fold n.
    set (ends := range (history_length + prediction_length) n).
    assert (Hends : forall e, e ∈ ends ->
              history_length + prediction_length <= e < n).
    { intros e He. apply elem_of_seqZ in He. lia. }
    assert (Hne : ends <> []).
    { intros E. apply (f_equal length) in E. unfold ends, range in E.
      rewrite length_seqZ in E. simpl in E. lia. }
    destruct (stack_Ok
                (map (fun end_idx =>
                        slice (full_data self)
                          (end_idx - prediction_length - history_length)
                          (end_idx - prediction_length)) ends)
                (Z.to_nat history_length, channels (full_data self),
                 height (full_data self), width (full_data self)))
      as (history & -> & _).
    { destruct ends; [congruence|discriminate]. }
    { apply Forall_forall. intros y Hy.
      apply list_elem_of_In, in_map_iff in Hy as (e & <- & He).
      apply list_elem_of_In, Hends in He.
      rewrite shape_slice_in_range by (subst n; lia). do 3 f_equal. lia. }
    destruct (stack_Ok
                (map (fun end_idx =>
                        slice (full_data self) (end_idx - prediction_length) end_idx)
                     ends)
                (Z.to_nat prediction_length, channels (full_data self),
                 height (full_data self), width (full_data self)))
      as (predict & -> & Hitems).
    { destruct ends; [congruence|discriminate]. }
    { apply Forall_forall. intros y Hy.
      apply list_elem_of_In, in_map_iff in Hy as (e & <- & He).
      apply list_elem_of_In, Hends in He.
      rewrite shape_slice_in_range by (subst n; lia). do 3 f_equal. lia. }
    cbn [bind]. eexists. split; [reflexivity|].
    unfold __len__. simpl. rewrite Hitems, !length_map.
    unfold ends, range. rewrite length_seqZ.
    repeat split; auto. f_equal. lia. }
  split; [|split; assumption].
  split.
  - intros (e & He).
    destruct (Z.le_gt_cases n (history_length + prediction_length)) as [Hge|Hlt];
      [exact Hge|].
    destruct (Hok Hlt) as (self' & Hs & _). congruence.
  - intros Hge. exists ValueError. apply Hraise. exact Hge.
Qed.

Lemma sequential_representation_length_witness :
  set_sequential_representation ramp_dataset 6 4 = Raise ValueError
  /\ exists self',
       set_sequential_representation ramp_dataset 3 2 = Ok self'
       /\ __len__ self' = Ok (10 - 3 - 2).
Proof.
  split.
  - apply (sequential_representation_length ramp_dataset 6 4); try lia.
    vm_compute. discriminate.
  - destruct (sequential_representation_length ramp_dataset 3 2)
      as (_ & _ & Hok); [lia|lia|].
    destruct Hok as (self' & Hs & Hlen & _); [vm_compute; reflexivity|].
    exists self'. split; [exact Hs|exact Hlen].
Defined.

(** C9 as stated fails for a negative length: on ten frames, with
    [history_length = -1] and [prediction_length = 3], the sum 2 is below 10,
    the history windows are [raw[0:-1]] (nine frames) and then empty ones,
    and the stack raises a [ValueError]. *)
Lemma negative_history_length_raises :
  -1 + 3 < Z.of_nat (length (frames (full_data ramp_dataset)))
  /\ set_sequential_representation ramp_dataset (-1) 3 = Raise ValueError
  /\ ~ ((exists e, set_sequential_representation ramp_dataset (-1) 3 = Raise e)
        <-> Z.of_nat (length (frames (full_data ramp_dataset))) <= -1 + 3).
Proof.
  assert (H : set_sequential_representation ramp_dataset (-1) 3 = Raise ValueError)
    by (vm_compute; reflexivity).
  split; [vm_compute; reflexivity|]. split; [exact H|].
  intros [Hraise _].
  assert (Hle : Z.of_nat (length (frames (full_data ramp_dataset))) <= -1 + 3)
    by (apply Hraise; eauto).
  vm_compute in Hle. apply Hle. reflexivity.
Qed.

(** * Further properties of the dataset *)

(** ** Samples of the periodical representation *)

Lemma tensor_getitem_Tensor4 (a : ndarray4) (index : Z) (f : frame) :
  0 <= index ->
  frames a !! Z.to_nat index = Some f ->
  tensor_getitem (Tensor4 a) index = Ok (Frame f).
Proof.
  intros Hi Hf. unfold tensor_getitem.
  pose proof (lookup_lt_Some _ _ _ Hf) as Hlt.
  rewrite norm_index_in_range by lia. cbn [bind].
  unfold getitem. rewrite Hf. reflexivity.
Qed.

Lemma tensor_getitem_Tensor4_negative (a : ndarray4) (index : Z) (f : frame) :
  index < 0 ->
  - Z.of_nat (length (frames a)) <= index ->
  frames a !! Z.to_nat (index + Z.of_nat (length (frames a))) = Some f ->
  tensor_getitem (Tensor4 a) index = Ok (Frame f).
Proof.
  intros Hneg Hge Hf. unfold tensor_getitem, norm_index.
  destruct (Z.leb_spec 0 index); [lia|]. simpl.
  destruct (Z.leb_spec (- Z.of_nat (length (frames a))) index); [|lia].
  destruct (Z.ltb_spec index 0); [|lia]. cbn [andb bind].
  unfold getitem. rewrite Hf. reflexivity.
Qed.

Lemma tensor_getitem_out_of_bounds (t : tensor) (index : Z) :
  len t <= index \/ index < - len t ->
  tensor_getitem t index = Raise IndexError.
Proof.
  intros H. destruct t as [a|a]; simpl in *;
    rewrite norm_index_out_of_bounds by exact H; reflexivity.
Qed.

(** Within the series a window frame is made of the frames of the series at
    the lagged time steps. *)
Lemma window_frame_in_range (all_data : ndarray4) (skip T L j : Z) :
  let n := Z.of_nat (length (frames all_data)) in
  0 <= T -> T * L <= skip -> skip <= n -> 0 <= j < n - skip ->
  window_frame all_data skip n T L (Z.to_nat j)
  = concat (map (fun k => default []
                   (frames all_data !! Z.to_nat (skip + j - T * k)))
                (seqZ 1 L)).
Proof.
  intros n HT Hspan Hskip Hj. unfold window_frame. f_equal.
  apply map_ext_in. intros k Hk.
  apply list_elem_of_In, elem_of_seqZ in Hk.
  destruct (lag_slice_in_range all_data skip T k) as [_ Hlook];
    [nia|exact Hskip|].
  fold n in Hlook. rewrite Hlook by exact Hj. reflexivity.
Qed.

Lemma slice_from_lookup {A : Type} (l : list A) (skip j : Z) :
  0 <= skip -> 0 <= j -> skip + j < Z.of_nat (length l) ->
  py_slice_from skip l !! Z.to_nat j = l !! Z.to_nat (skip + j).
Proof.
  intros Hs Hj Hlt. unfold py_slice_from.
  rewrite slice_bound_in_range by lia. rewrite lookup_drop. f_equal. lia.
Qed.

(** The six entries of sample [j] of a construction whose lag spans are
    within the skip offset and whose skip offset is within the series. *)
Lemma feature_vector_entries (all_data : ndarray4) (poi : ndarray3)
  (len_closeness len_period len_trend T_closeness T_period T_trend : Z)
  (fv : feature_vector) :
  let n := Z.of_nat (length (frames all_data)) in
  let skip := T_trend * len_trend in
  _create_feature_vector all_data poi
    len_closeness len_period len_trend T_closeness T_period T_trend = Ok fv ->
  0 <= T_closeness -> 0 <= T_period -> 0 <= T_trend ->
  T_closeness * len_closeness <= skip -> T_period * len_period <= skip ->
  skip <= n ->
  forall j, 0 <= j < n - skip ->
    frames (fv_X_closeness fv) !! Z.to_nat j
    = Some (concat (map (fun k => default []
                           (frames all_data !! Z.to_nat (skip + j - T_closeness * k)))
                        (seqZ 1 len_closeness)))
    /\ frames (fv_X_period fv) !! Z.to_nat j
       = Some (concat (map (fun k => default []
                              (frames all_data !! Z.to_nat (skip + j - T_period * k)))
                           (seqZ 1 len_period)))
    /\ frames (fv_X_trend fv) !! Z.to_nat j
       = Some (concat (map (fun k => default []
                              (frames all_data !! Z.to_nat (skip + j - T_trend * k)))
                           (seqZ 1 len_trend)))
    /\ frames (fv_Y_data fv) !! Z.to_nat j
       = frames all_data !! Z.to_nat (skip + j)
    /\ is_Some (frames all_data !! Z.to_nat (skip + j))
    /\ is_Some (frames (fv_T_data fv) !! Z.to_nat j)
    /\ is_Some (frames (fv_P_data fv) !! Z.to_nat j).
Proof.
  intros n skip H HTc HTp HTt Hsc Hsp Hskip j Hj.
  apply create_feature_vector_Ok_inv in H
    as (skip' & mh & md & mT & p & Htm & HmT & Hs & (Hlc & Hc) & (Hlp & Hp)
        & (Hlt & Ht) & HT & HY & HP).
  rewrite number_of_skip_hours_trend in Hs by exact Hlt. injection Hs as <-.
  fold skip n in Hc, Hp, Ht, HT, HY.
  destruct (lagged_window_within_skip all_data skip T_closeness len_closeness)
    as (Xc & HXc & HsXc & HfXc); auto.
  destruct (lagged_window_within_skip all_data skip T_period len_period)
    as (Xp & HXp & _ & HfXp); auto.
  destruct (lagged_window_within_skip all_data skip T_trend len_trend)
    as (Xt & HXt & _ & HfXt); auto; [subst skip; lia|].
  fold n in HXc, HXp, HXt, HfXc, HfXp, HfXt, HsXc.
  rewrite HXc in Hc. injection Hc as Hc.
  rewrite HXp in Hp. injection Hp as Hp.
  rewrite HXt in Ht. injection Ht as Ht.
  rewrite <- Hc, <- Hp, <- Ht.
  split; [rewrite HfXc by lia; f_equal; apply window_frame_in_range; auto|].
  split; [rewrite HfXp by lia; f_equal; apply window_frame_in_range; auto|].
  split; [rewrite HfXt by lia; f_equal; apply window_frame_in_range; auto;
          subst skip; lia|].
  assert (Hskip0 : 0 <= skip) by (subst skip; nia).
  split.
  { rewrite HY. unfold slice; simpl.
    destruct (py_slice_in_range skip n (frames all_data)) as [_ Hlook];
      [lia|lia|subst n; lia|]. apply Hlook. exact Hj. }
  split; [apply lookup_lt_is_Some_2; subst n; lia|].
  split.
  - rewrite HT. unfold slice_from; simpl.
    apply concatenate_Ok_inv in HmT as (_ & ->). simpl.
    destruct (temporal_matrices_Ok_inv _ _ _ _ _ _ Htm)
      as [(_ & _ & _ & Hn1 & _) (_ & _ & _ & Hn2 & _)].
    apply lookup_lt_is_Some_2. rewrite length_py_slice_from.
    rewrite length_zip_with_l_eq by congruence. rewrite Hn1.
    rewrite slice_bound_in_range by (subst n; lia). subst n. lia.
  - rewrite HP. unfold repeat; simpl. apply lookup_lt_is_Some_2.
    rewrite length_replicate, <- Hc.
    injection HsXc as -> _ _ _. lia.
Qed.

Lemma map_const_replicate {A B : Type} (f : A -> B) (b : B) (l : list A) :
  (forall x, f x = b) -> map f l = replicate (length l) b.
Proof.
  intros Hf. induction l as [|x l IH]; simpl; [reflexivity|].
  rewrite Hf, IH. reflexivity.
Qed.

(** X1. Sample [j] of a dataset constructed with steps that are not negative,
    lag spans within the skip offset and the skip offset within the series:
    its target is the frame of the normalised series at time step [skip + j],
    and each of its three inputs is the concatenation, lag by lag, of the
    frames at the time steps [skip + j - T * k].  These are earlier than the
    target's when the step [T] is positive; for a step of 0 the input is the
    target frame itself, once per lag. *)
Theorem periodical_sample_alignment (flow : ndarray4) (poi : ndarray3)
  (len_closeness len_period len_trend T_closeness T_period T_trend : Z)
  (normalize : bool) (ds : BikeNYCDeepSTN) :
  let n := Z.of_nat (length (frames flow)) in
  let skip := T_trend * len_trend in
  let raw := frames (full_data ds) in
  __init__ flow poi len_closeness len_period len_trend
    T_closeness T_period T_trend normalize = Ok ds ->
  0 <= T_closeness -> 0 <= T_period -> 0 <= T_trend ->
  T_closeness * len_closeness <= skip -> T_period * len_period <= skip ->
  skip <= n ->
  forall j, 0 <= j < n - skip ->
    exists t p y,
      __getitem__ ds j
      = Ok (periodical_sample
              (Frame (concat (map (fun k => default []
                                     (raw !! Z.to_nat (skip + j - T_closeness * k)))
                                  (seqZ 1 len_closeness))))
              (Frame (concat (map (fun k => default []
                                     (raw !! Z.to_nat (skip + j - T_period * k)))
                                  (seqZ 1 len_period))))
              (Frame (concat (map (fun k => default []
                                     (raw !! Z.to_nat (skip + j - T_trend * k)))
                                  (seqZ 1 len_trend))))
              (Frame t) (Frame p) (Frame y))
      /\ raw !! Z.to_nat (skip + j) = Some y
      /\ (forall T k, 0 < T -> 1 <= k -> skip + j - T * k < skip + j)
      /\ (forall L,
            concat (map (fun k => default [] (raw !! Z.to_nat (skip + j - 0 * k)))
                      (seqZ 1 L))
            = concat (replicate (Z.to_nat L) y)).
Proof.
  intros n skip raw H HTc HTp HTt Hsc Hsp Hskip j Hj.
  apply init_Ok_inv in H
    as (mx & mn & fv & _ & _ & Hfv & Hfull & _ & HXc & HXp & HXt & HT & HP & HY
        & _ & _ & Hper).
  destruct (full_data_same_shape normalize (normalization mx mn) flow)
    as (Hl & _ & _ & _).
  rewrite <- Hfull in Hfv, Hl.
  destruct (feature_vector_entries _ _ _ _ _ _ _ _ _ Hfv) with (j := j)
    as (Ec & Ep & Et & Ey & (y & Hy) & (t & Ht) & (p & Hp));
    try rewrite Hl; auto.
  rewrite Hy in Ey.
  exists t, p, y. split; [|split; [exact Hy|split; [intros; nia|]]].
  2: { intros L. f_equal. rewrite <- (length_seqZ 1 L).
       apply map_const_replicate. intros k.
       replace (skip + j - 0 * k) with (skip + j) by lia.
       subst raw skip. rewrite Hy. reflexivity. }
  unfold __getitem__. rewrite Hper, HXc, HXp, HXt, HT, HP, HY.
  rewrite (tensor_getitem_Tensor4 _ _ _ (proj1 Hj) Ec). cbn [bind].
  rewrite (tensor_getitem_Tensor4 _ _ _ (proj1 Hj) Ep). cbn [bind].
  rewrite (tensor_getitem_Tensor4 _ _ _ (proj1 Hj) Et). cbn [bind].
  rewrite (tensor_getitem_Tensor4 _ _ _ (proj1 Hj) Ht). cbn [bind].
  rewrite (tensor_getitem_Tensor4 _ _ _ (proj1 Hj) Hp). cbn [bind].
  rewrite (tensor_getitem_Tensor4 _ _ _ (proj1 Hj) Ey). reflexivity.
Qed.

Lemma periodical_sample_alignment_witness :
  exists t p,
    __getitem__ ramp_dataset 0
    = Ok (periodical_sample
            (Frame (concat (map (fun k => default []
                       (frames (full_data ramp_dataset) !! Z.to_nat (3 + 0 - 1 * k)))
                     (seqZ 1 2))))
            (Frame (concat (map (fun k => default []
                       (frames (full_data ramp_dataset) !! Z.to_nat (3 + 0 - 2 * k)))
                     (seqZ 1 1))))
            (Frame (concat (map (fun k => default []
                       (frames (full_data ramp_dataset) !! Z.to_nat (3 + 0 - 3 * k)))
                     (seqZ 1 1))))
            (Frame t) (Frame p) (Frame [[[(-3 # 9)%Q]]])).
Proof.
  destruct (periodical_sample_alignment (ramp 10) unit_poi 2 1 1 1 2 3 true
              ramp_dataset) with (j := 0)
    as (t & p & y & Hget & Hy & _ & _);
    [vm_compute; reflexivity|lia|lia|lia|lia|lia|vm_compute; discriminate
    |vm_compute; split; congruence|].
  exists t, p. vm_compute in Hy. injection Hy as <-. exact Hget.
Defined.

(** ** The temporal mask of a sample *)

Lemma frame_sum_app (f g : frame) :
  (frame_sum (f ++ g) == frame_sum f + frame_sum g)%Q.
Proof.
  unfold frame_sum, frame_elements. rewrite map_app, concat_app.
  apply qsum_app.
Qed.

(** X2. For a dataset constructed with a trend step that is not negative,
    [T_data] has [len_total - skip] entries, and the temporal mask of sample
    [j] is the one-hot hour frame followed by the one-hot day frame of time
    step [skip + j], the time step of the sample's target: 31 channels that
    sum to [2 * height * width].  The hour channel is the index
    [(skip + j) mod T_period] (0 for a period of 0; a negative index counts
    from the end), the day channel [((skip + j) div T_period) mod 7]. *)
Theorem temporal_mask_alignment (flow : ndarray4) (poi : ndarray3)
  (len_closeness len_period len_trend T_closeness T_period T_trend : Z)
  (normalize : bool) (ds : BikeNYCDeepSTN) :
  let n := Z.of_nat (length (frames flow)) in
  let skip := T_trend * len_trend in
  let h := height flow in
  let w := width flow in
  __init__ flow poi len_closeness len_period len_trend
    T_closeness T_period T_trend normalize = Ok ds ->
  0 <= T_trend ->
  shape (T_data ds) = (Z.to_nat (n - skip), 31%nat, h, w)
  /\ forall j, 0 <= j < n - skip ->
       let hour := remainder (skip + j) T_period in
       let day := remainder (floor_divide (skip + j) T_period) 7 in
       exists ch cd t,
         norm_index 24 hour = Ok ch /\ norm_index 7 day = Ok cd
         /\ t = one_hot_frame 24 h w ch ++ one_hot_frame 7 h w cd
         /\ frames (T_data ds) !! Z.to_nat j = Some t
         /\ tensor_getitem (Tensor4 (T_data ds)) j = Ok (Frame t)
         /\ length t = 31%nat
         /\ (frame_sum t == inject_Z (2 * Z.of_nat (h * w)))%Q.
Proof.
  intros n skip h w H HTt.
  apply init_Ok_inv in H
    as (mx & mn & fv & _ & _ & Hfv & _ & _ & _ & _ & _ & HT & _).
  destruct (full_data_same_shape normalize (normalization mx mn) flow)
    as (Hl & _ & Hh & Hw).
  apply create_feature_vector_Ok_inv in Hfv
    as (skip' & mh & md & mT & p & Htm & HmT & Hs & _ & _ & (Hlt & _) & HTfv & _).
  rewrite number_of_skip_hours_trend in Hs by exact Hlt. injection Hs as <-.
  rewrite Hl, Hh, Hw in Htm. fold skip h w in HTfv, Htm.
  apply concatenate_Ok_inv in HmT as (_ & ->).
  destruct (temporal_matrices_Ok_inv _ _ _ _ _ _ Htm)
    as [(Hc1 & Hh1 & Hw1 & Hn1 & Hdone1 & _) (Hc2 & Hh2 & Hw2 & Hn2 & Hdone2 & _)].
  assert (Hskip0 : 0 <= skip) by (subst skip; nia).
  rewrite HT, HTfv. unfold slice_from, shape. cbn [frames channels height width].
  assert (Hzip : length (zip_with app (frames mh) (frames md)) = length (frames flow)).
  { rewrite length_zip_with_l_eq by congruence. exact Hn1. }
  split.
  { rewrite length_py_slice_from, Hzip, Hc1, Hc2, Hh1, Hw1.
    unfold slice_bound. destruct (Z.ltb_spec skip 0); [lia|].
    f_equal. f_equal. f_equal. subst n. lia. }
  intros j Hj. cbv zeta.
  set (hour := remainder (skip + j) T_period).
  set (day := remainder (floor_divide (skip + j) T_period) 7).
  destruct (Hdone1 (Z.to_nat (skip + j))) as (c1 & ch & Hl1 & Hi1 & Hf1);
    [subst n; lia|].
  destruct (Hdone2 (Z.to_nat (skip + j))) as (c2 & cd & Hl2 & Hi2 & Hf2);
    [subst n; lia|].
  rewrite lookup_hour_indices in Hl1 by (subst n; lia).
  rewrite lookup_day_indices in Hl2 by (subst n; lia).
  rewrite Z2Nat.id in Hl1, Hl2 by lia.
  injection Hl1 as <-. injection Hl2 as <-. fold hour in Hi1. fold day in Hi2.
  assert (Hlook : py_slice_from skip (zip_with app (frames mh) (frames md))
                  !! Z.to_nat j
                  = Some (one_hot_frame 24 h w ch ++ one_hot_frame 7 h w cd)).
  { rewrite slice_from_lookup by (rewrite ?Hzip; subst n; lia).
    rewrite lookup_zip_with, Hf1, Hf2. reflexivity. }
  exists ch, cd, (one_hot_frame 24 h w ch ++ one_hot_frame 7 h w cd).
  split; [exact Hi1|]. split; [exact Hi2|]. split; [reflexivity|].
  split; [exact Hlook|].
  split; [apply tensor_getitem_Tensor4; [lia|exact Hlook]|].
  split; [rewrite length_app, !length_one_hot_frame; reflexivity|].
  rewrite frame_sum_app.
  apply norm_index_Ok_inv in Hi1 as (Hch & _). apply norm_index_Ok_inv in Hi2 as (Hcd & _).
  rewrite !frame_sum_one_hot by assumption.
  replace (2 * Z.of_nat (h * w)) with (Z.of_nat (h * w) + Z.of_nat (h * w)) by lia.
  rewrite inject_Z_plus. reflexivity.
Qed.

Lemma temporal_mask_alignment_witness :
  shape (T_data ramp_dataset) = (7%nat, 31%nat, 1%nat, 1%nat).
Proof.
  apply (temporal_mask_alignment (ramp 10) unit_poi 2 1 1 1 2 3 true ramp_dataset);
    [vm_compute; reflexivity|lia].
Defined.

(** ** Point-of-interest features *)

Lemma normalize_poi_step (dt : dtype) (poi : list plane) (i : nat)
  (ps : list plane) (p : plane) (m : Q) :
  poi_done_upto dt poi i ps ->
  poi !! i = Some p -> max_of (plane_elements p) = Ok m ->
  poi_done_upto dt poi (S i) (<[i := map_plane (fun x => astype dt (x / m)%Q) p]> ps).
Proof.
  intros (Hlen & Hps) Hp Hm. split; [rewrite length_insert; exact Hlen|].
  intros j. destruct (decide (j = i)) as [->|Hne].
  - rewrite list_lookup_insert_eq by (rewrite Hlen; eapply lookup_lt_Some; eauto).
    destruct (decide (i < S i)%nat); [|lia].
    rewrite Hp. simpl. unfold normalized_plane. rewrite Hm. reflexivity.
  - rewrite list_lookup_insert_ne by auto. rewrite Hps.
    destruct (decide (j < i)%nat), (decide (j < S i)%nat); auto; lia.
Qed.

(** Every channel is divided by its own maximum, whatever the others hold. *)
Lemma normalize_poi_spec (dt : dtype) (poi : list plane) :
  Forall (fun p => plane_elements p <> []) poi ->
  normalize_poi dt poi = Ok (map (normalized_plane dt) poi).
Proof.
  intros Hne. unfold normalize_poi.
  destruct (for_each_total (seq 0 (length poi))
              (fun i ps =>
                 let* p := getitem ps i in
                 let* m := max_of (plane_elements p) in
                 Ok (<[i := map_plane (fun x => astype dt (x / m)%Q) p]> ps))
              (poi_done_upto dt poi) poi) as (ps & Hps & Hlen & Hdone).
  - split; [reflexivity|]. intros j. destruct (decide (j < 0)%nat); [lia|reflexivity].
  - intros i x s Hx Hs. apply lookup_seq in Hx as [-> Hx]. simpl in *.
    destruct (lookup_lt_is_Some_2 poi i Hx) as (p & Hp).
    pose proof Hs as (_ & Hrest). specialize (Hrest i).
    destruct (decide (i < i)%nat); [lia|].
    unfold getitem. rewrite Hrest, Hp. cbn [bind].
    destruct (max_of_nonempty (plane_elements p)) as (m & Hm).
    { rewrite Forall_lookup in Hne. exact (Hne i p Hp). }
    rewrite Hm. cbn [bind]. eexists. split; [reflexivity|].
    apply normalize_poi_step; assumption.
  - rewrite Hps. f_equal. apply list_eq. intros j. rewrite Hdone.
    rewrite length_seq.
    change (map (normalized_plane dt) poi) with (normalized_plane dt <$> poi).
    rewrite list_lookup_fmap.
    destruct (decide (j < length poi)%nat) as [Hj|Hj]; [reflexivity|].
    rewrite (lookup_ge_None_2 poi j) by lia. reflexivity.
Qed.

Lemma first_empty_plane (poi : list plane) :
  Exists (fun p => plane_elements p = []) poi ->
  exists j p, poi !! j = Some p /\ plane_elements p = []
              /\ forall i q, (i < j)%nat -> poi !! i = Some q -> plane_elements q <> [].
Proof.
  induction poi as [|p poi IH]; intros H; [inversion H|].
  destruct (plane_elements p) as [|x xs] eqn:E.
  - exists 0%nat, p. repeat split; auto. intros i q Hi. lia.
  - inversion H as [? ? Hp|? ? Hrest]; subst; [congruence|].
    destruct (IH Hrest) as (j & q & Hq & Hempty & Hbefore).
    exists (S j), q. repeat split; auto.
    intros [|i] r Hi Hr; simpl in Hr.
    + injection Hr as <-. congruence.
    + apply (Hbefore i); [lia|exact Hr].
Qed.

Lemma normalize_poi_raises (dt : dtype) (poi : list plane) :
  Exists (fun p => plane_elements p = []) poi ->
  normalize_poi dt poi = Raise ValueError.
Proof.
  intros H. destruct (first_empty_plane poi H) as (j & p & Hp & Hempty & Hbefore).
  unfold normalize_poi.
  apply (for_each_raise _ _ (poi_done_upto dt poi) _ j j).
  - split; [reflexivity|]. intros k. destruct (decide (k < 0)%nat); [lia|reflexivity].
  - apply lookup_seq. split; [reflexivity|]. eapply lookup_lt_Some; eauto.
  - intros i y s Hi Hy Hs. apply lookup_seq in Hy as [-> Hy]. simpl in *.
    destruct (lookup_lt_is_Some_2 poi i Hy) as (q & Hq).
    pose proof Hs as (_ & Hrest). specialize (Hrest i).
    destruct (decide (i < i)%nat); [lia|].
    unfold getitem. rewrite Hrest, Hq. cbn [bind].
    destruct (max_of_nonempty (plane_elements q)) as (m & Hm);
      [eapply Hbefore; eauto|].
    rewrite Hm. cbn [bind]. eexists. split; [reflexivity|].
    apply normalize_poi_step; assumption.
  - intros s (_ & Hrest). specialize (Hrest j).
    destruct (decide (j < j)%nat); [lia|].
    unfold getitem. rewrite Hrest, Hp. cbn [bind]. rewrite Hempty. reflexivity.
Qed.

Lemma elem_of_map_plane (f : Q -> Q) (p : plane) (y : Q) :
  y ∈ plane_elements (map_plane f p) <-> exists x, y = f x /\ x ∈ plane_elements p.
Proof.
  unfold plane_elements, map_plane.
  rewrite <- concat_map. change (map f ?l) with (f <$> l).
  apply list_elem_of_fmap.
Qed.

Lemma map_plane_ext_in (f g : Q -> Q) (p : plane) :
  (forall x, x ∈ plane_elements p -> f x = g x) -> map_plane f p = map_plane g p.
Proof.
  intros H. unfold map_plane. apply map_ext_in. intros r Hr.
  apply map_ext_in. intros x Hx. apply H.
  unfold plane_elements. apply list_elem_of_In, in_concat.
  exists r. split; assumption.
Qed.

Lemma nonzero_maxima_nonempty (poi : list plane) :
  nonzero_maxima poi -> Forall (fun p => plane_elements p <> []) poi.
Proof.
  intros H. eapply Forall_impl; [exact H|].
  intros p (m & Hm & _) Hempty. rewrite Hempty in Hm. discriminate Hm.
Qed.

(** The integer part of a quotient between 0 and 1. *)
Lemma Qtruncate_unit (q : Q) :
  (0 <= q)%Q -> (q <= 1)%Q ->
  inject_Z (Qtruncate q) = if Qeq_bool q 1 then 1%Q else 0%Q.
Proof.
  destruct q as [a b]. unfold Qle, Qtruncate. simpl. intros H0 H1.
  destruct (Z.eq_dec a (Z.pos b)) as [E|E].
  - assert (Hb : Qeq_bool (a # b) 1 = true)
      by (apply Qeq_bool_iff; unfold Qeq; simpl; lia).
    rewrite Hb, E, Z.quot_same by lia. reflexivity.
  - assert (Hb : Qeq_bool (a # b) 1 = false).
    { destruct (Qeq_bool (a # b) 1) eqn:Eb; [|reflexivity].
      apply Qeq_bool_iff in Eb. unfold Qeq in Eb. simpl in Eb. lia. }
    rewrite Hb, Z.quot_small by lia. reflexivity.
Qed.

Lemma Qeq_bool_div (x m : Q) :
  ~ (m == 0)%Q -> Qeq_bool (x / m) 1 = Qeq_bool x m.
Proof.
  intros Hm. destruct (Qeq_bool x m) eqn:E.
  - apply Qeq_bool_iff. apply Qeq_bool_iff in E. rewrite E. field. exact Hm.
  - destruct (Qeq_bool (x / m) 1) eqn:E'; [|reflexivity].
    apply Qeq_bool_iff in E'.
    assert (Hx : (x == m)%Q).
    { assert (Hxm : (x == (x / m) * m)%Q) by (field; exact Hm).
      rewrite Hxm, E'. ring. }
    apply Qeq_bool_iff in Hx. congruence.
Qed.

(** X3. [_create_feature_vector] divides every channel of the
    point-of-interest grid by that channel's own maximum and stores the
    quotient back into the grid, which keeps its element type.  Floating
    point numbers being taken as rationals and every channel having a
    maximum that is not zero: in a [float64] grid a channel with a positive
    maximum has no normalised value above 1, the value 1 is attained, and
    values that were not negative stay so; in an [int64] grid the quotient
    loses its fraction, so that a channel of values that are not negative and
    a positive maximum is left with 1 where the maximum was and 0 everywhere
    else.  A channel without cells makes the normalisation raise
    [ValueError], whatever the element type. *)
Theorem poi_channels_normalized (dt : dtype) (poi : list plane) :
  (nonzero_maxima poi ->
   normalize_poi dt poi = Ok (map (normalized_plane dt) poi)
   /\ forall i p m,
        poi !! i = Some p -> max_of (plane_elements p) = Ok m -> (0 < m)%Q ->
        (dt = float64 ->
         map (normalized_plane dt) poi !! i = Some (map_plane (fun x => x / m)%Q p)
         /\ (forall y, y ∈ plane_elements (normalized_plane dt p) -> (y <= 1)%Q)
         /\ (exists y, y ∈ plane_elements (normalized_plane dt p) /\ (y == 1)%Q)
         /\ ((forall x, x ∈ plane_elements p -> (0 <= x)%Q) ->
             forall y, y ∈ plane_elements (normalized_plane dt p) -> (0 <= y)%Q))
        /\ (dt = int64 ->
            (forall x, x ∈ plane_elements p -> (0 <= x)%Q) ->
            map (normalized_plane dt) poi !! i
            = Some (map_plane (fun x => if Qeq_bool x m then 1%Q else 0%Q) p)))
  /\ (Exists (fun p => plane_elements p = []) poi ->
      normalize_poi dt poi = Raise ValueError).
Proof.
  split; [|apply normalize_poi_raises].
  intros Hnz. split.
  { apply normalize_poi_spec. apply nonzero_maxima_nonempty. exact Hnz. }
  intros i p m Hp Hm Hpos.
  destruct (max_of_spec _ _ Hm) as [Hin Hub].
  assert (Hm0 : ~ (m == 0)%Q).
  { intros H0. rewrite H0 in Hpos. discriminate Hpos. }
  assert (Hnp : normalized_plane dt p = map_plane (fun x => astype dt (x / m)%Q) p)
    by (unfold normalized_plane; rewrite Hm; reflexivity).
  assert (Hlk : map (normalized_plane dt) poi !! i = Some (normalized_plane dt p)).
  { change (map (normalized_plane dt) poi) with (normalized_plane dt <$> poi).
    rewrite list_lookup_fmap, Hp. reflexivity. }
  split.
  - intros ->. simpl in Hnp. rewrite Hlk, Hnp. split; [reflexivity|]. split; [|split].
    + intros y Hy. apply elem_of_map_plane in Hy as (x & -> & Hx).
      apply Qle_shift_div_r; [exact Hpos|]. rewrite Qmult_1_l. apply Hub. exact Hx.
    + exists (m / m)%Q. split; [apply elem_of_map_plane; eauto|].
      field. exact Hm0.
    + intros Hnn y Hy. apply elem_of_map_plane in Hy as (x & -> & Hx).
      apply Qle_shift_div_l; [exact Hpos|]. rewrite Qmult_0_l. apply Hnn. exact Hx.
  - intros -> Hnn. rewrite Hlk, Hnp. f_equal.
    apply map_plane_ext_in. intros x Hx. simpl.
    rewrite Qtruncate_unit.
    + rewrite Qeq_bool_div by exact Hm0. reflexivity.
    + apply Qle_shift_div_l; [exact Hpos|]. rewrite Qmult_0_l. apply Hnn. exact Hx.
    + apply Qle_shift_div_r; [exact Hpos|]. rewrite Qmult_1_l. apply Hub. exact Hx.
Qed.

Lemma poi_channels_normalized_witness :
  normalize_poi float64 [[[2%Q; 4%Q]]; [[5%Q; 1%Q]]]
  = Ok [[[(2 / 4)%Q; (4 / 4)%Q]]; [[(5 / 5)%Q; (1 / 5)%Q]]]
  /\ normalize_poi int64 [[[2%Q; 4%Q]]; [[5%Q; 1%Q]]]
     = Ok [[[0%Q; 1%Q]]; [[1%Q; 0%Q]]]
  /\ normalize_poi float64 [[[2%Q; 4%Q]]; []] = Raise ValueError.
Proof.
  assert (Hnz : nonzero_maxima [[[2%Q; 4%Q]]; [[5%Q; 1%Q]]]).
  { repeat constructor.
    - exists 4%Q. split; [reflexivity|discriminate].
    - exists 5%Q. split; [reflexivity|discriminate]. }
  split; [|split].
  - destruct (poi_channels_normalized float64 [[[2%Q; 4%Q]]; [[5%Q; 1%Q]]])
      as [Hok _].
    destruct (Hok Hnz) as [Hres _]. rewrite Hres. reflexivity.
  - destruct (poi_channels_normalized int64 [[[2%Q; 4%Q]]; [[5%Q; 1%Q]]])
      as [Hok _].
    destruct (Hok Hnz) as [Hres _]. rewrite Hres. reflexivity.
  - apply (poi_channels_normalized float64 [[[2%Q; 4%Q]]; []]).
    right. left. reflexivity.
Defined.

Lemma concat_concat_map {A : Type} (xsss : list (list (list A))) :
  concat (map (@concat A) xsss) = concat (concat xsss).
Proof.
  induction xsss as [|xss xsss IH]; simpl; [reflexivity|].
  rewrite concat_app, IH. reflexivity.
Qed.

Lemma lookup_concat_uniform {A : Type} (ls : list (list A)) (c i k : nat) (l : list A)
  (x : A) :
  Forall (fun l => length l = c) ls ->
  ls !! i = Some l -> l !! k = Some x ->
  concat ls !! (i * c + k)%nat = Some x.
Proof.
  intros Hall. revert i. induction Hall as [|l0 ls Hl0 _ IH]; intros i Hi Hk.
  - discriminate.
  - destruct i as [|i]; simpl in *.
    + injection Hi as ->. apply lookup_app_l_Some. exact Hk.
    + rewrite lookup_app_r by lia. rewrite Hl0.
      replace (c + i * c + k - c)%nat with (i * c + k)%nat by lia.
      apply IH; assumption.
Qed.

(** Reshaping a grid to its own shape changes nothing. *)
Lemma reshape_same_shape (dt : dtype) (h w : nat) (ps : list plane) :
  Forall (plane_ok h w) ps ->
  reshape (NdArray3 dt h w ps) h w = Ok ps.
Proof.
  intros Hok.
  pose proof (proj1 (Forall_lookup _ _) Hok) as Hlk.
  pose proof (proj1 (Forall_forall _ _) Hok) as Hfa.
  unfold reshape. cbn [planes height3 width3].
  destruct (decide _) as [_|Hn]; [|contradiction]. f_equal.
  apply list_eq. intros k.
  change (map ?f ?l) with (f <$> l) at 1. rewrite list_lookup_fmap.
  destruct (ps !! k) as [p|] eqn:Hp.
  - rewrite lookup_seq_lt by (eapply lookup_lt_Some; eauto). simpl. f_equal.
    destruct (Hlk k p Hp) as [Hlen Hrows].
    apply list_eq. intros y.
    change (map ?f ?l) with (f <$> l) at 1. rewrite list_lookup_fmap.
    destruct (p !! y) as [r|] eqn:Hr.
    + rewrite lookup_seq_lt by (rewrite <- Hlen; eapply lookup_lt_Some; eauto).
      simpl. f_equal. unfold plane_elements. rewrite concat_concat_map.
      apply concat_chunk.
      * apply Forall_forall. intros r' Hr'.
        apply list_elem_of_In, in_concat in Hr' as (p' & Hp' & Hr').
        apply list_elem_of_In in Hp'. apply list_elem_of_In in Hr'.
        destruct (Hfa p' Hp') as [_ Hrows'].
        rewrite Forall_forall in Hrows'. apply Hrows'. exact Hr'.
      * eapply lookup_concat_uniform; eauto.
        apply Forall_forall. intros p' Hp'.
        exact (proj1 (Hfa p' Hp')).
    + rewrite lookup_seq_ge; [reflexivity|].
      rewrite <- Hlen. apply lookup_ge_None. exact Hr.
  - rewrite lookup_seq_ge; [reflexivity|]. apply lookup_ge_None. exact Hp.
Qed.

Lemma plane_ok_normalized (dt : dtype) (h w : nat) (p : plane) :
  plane_ok h w p -> plane_ok h w (normalized_plane dt p).
Proof.
  intros [Hlen Hrows]. unfold normalized_plane.
  destruct (max_of (plane_elements p)); [|split; assumption].
  unfold map_plane. split; [rewrite length_map; exact Hlen|].
  apply Forall_forall. intros r Hr.
  apply list_elem_of_In, in_map_iff in Hr as (r0 & <- & Hr0).
  rewrite length_map. rewrite Forall_forall in Hrows.
  apply Hrows, list_elem_of_In. exact Hr0.
Qed.

Lemma create_feature_vector_poi_inv (all_data : ndarray4) (poi : ndarray3)
  (len_closeness len_period len_trend T_closeness T_period T_trend : Z)
  (fv : feature_vector) :
  _create_feature_vector all_data poi
    len_closeness len_period len_trend T_closeness T_period T_trend = Ok fv ->
  exists ps p,
    normalize_poi (dtype3 poi) (planes poi) = Ok ps
    /\ reshape (NdArray3 (dtype3 poi) (height3 poi) (width3 poi) ps)
         (height all_data) (width all_data) = Ok p
    /\ fv_P_data fv
       = repeat p (length (planes poi)) (height all_data) (width all_data)
           (length (frames (fv_X_closeness fv))).
Proof.
  unfold _create_feature_vector, shape. intros H.
  apply bind_Ok_inv in H as ([mh md] & Htm & H).
  apply bind_Ok_inv in H as (mT & HmT & H).
  apply bind_Ok_inv in H as (skip & Hskip & H).
  apply bind_Ok_inv in H as (oc & Hoc & H).
  apply bind_Ok_inv in H as (op & Hop & H).
  apply bind_Ok_inv in H as (ot & Hot & H).
  apply bind_Ok_inv in H as (Xc & HXc & H).
  apply bind_Ok_inv in H as (poi' & Hpoi & H).
  apply bind_Ok_inv in H as (p & Hp & H).
  apply bind_Ok_inv in H as (Xp & HXp & H).
  apply bind_Ok_inv in H as (Xt & HXt & H).
  injection H as <-. simpl. eauto.
Qed.

(** X4. The point-of-interest entry is the same for every sample of a
    constructed dataset: [P_data] holds one frame, repeated once per sample of
    [X_closeness].  When the grid of the point-of-interest array is that of
    the series and every channel has a maximum that is not zero, this frame
    is the array with every channel divided by its maximum and stored with
    the element type of the array (floating point numbers being taken as
    rationals). *)
Theorem poi_broadcast (all_data : ndarray4) (poi : ndarray3)
  (len_closeness len_period len_trend T_closeness T_period T_trend : Z)
  (fv : feature_vector) :
  _create_feature_vector all_data poi
    len_closeness len_period len_trend T_closeness T_period T_trend = Ok fv ->
  exists p,
    frames (fv_P_data fv) = replicate (length (frames (fv_X_closeness fv))) p
    /\ channels (fv_P_data fv) = length (planes poi)
    /\ (forall j f, frames (fv_P_data fv) !! j = Some f -> f = p)
    /\ (height3 poi = height all_data -> width3 poi = width all_data ->
        Forall (plane_ok (height3 poi) (width3 poi)) (planes poi) ->
        nonzero_maxima (planes poi) ->
        p = map (normalized_plane (dtype3 poi)) (planes poi)).
Proof.
  intros H. apply create_feature_vector_poi_inv in H as (ps & p & Hps & Hp & HP).
  exists p. rewrite HP. unfold repeat. cbn [frames channels].
  split; [reflexivity|]. split; [reflexivity|]. split.
  - intros j f Hf. apply lookup_replicate in Hf as [-> _]. reflexivity.
  - intros Hh Hw Hok Hnz.
    pose proof (nonzero_maxima_nonempty _ Hnz) as Hne.
    rewrite normalize_poi_spec in Hps by exact Hne. injection Hps as <-.
    rewrite <- Hh, <- Hw in Hp. rewrite reshape_same_shape in Hp.
    + injection Hp as <-. reflexivity.
    + apply Forall_forall. intros q Hq.
      apply list_elem_of_In, in_map_iff in Hq as (q0 & <- & Hq0).
      apply plane_ok_normalized. rewrite Forall_forall in Hok.
      apply Hok, list_elem_of_In. exact Hq0.
Qed.

Lemma poi_broadcast_witness :
  exists fv,
    _create_feature_vector (ramp 10) unit_poi 2 1 1 1 2 3 = Ok fv
    /\ frames (fv_P_data fv)
       = replicate (length (frames (fv_X_closeness fv)))
           (map (normalized_plane float64) (planes unit_poi)).
Proof.
  eexists.
  edestruct (poi_broadcast (ramp 10) unit_poi 2 1 1 1 2 3) as (p & Hp & _ & _ & Hv);
    [vm_compute; reflexivity|].
  split; [vm_compute; reflexivity|].
  rewrite Hp. f_equal. apply Hv.
  - reflexivity.
  - reflexivity.
  - repeat constructor.
  - repeat constructor. exists 1%Q. split; [reflexivity|discriminate].
Defined.

(** ** The range of the normalised series *)

Lemma normalization_bounds (mx mn x : Q) :
  (mn < mx)%Q -> (mn <= x)%Q -> (x <= mx)%Q ->
  (-1 <= normalization mx mn x)%Q /\ (normalization mx mn x <= 1)%Q.
Proof.
  intros Hlt Hlo Hhi. unfold normalization.
  assert (Hpos : (0 < mx - mn)%Q).
  { apply (Qplus_lt_l _ _ mn). ring_simplify. exact Hlt. }
  split.
  - apply Qle_shift_div_l; [exact Hpos|].
    apply (Qplus_le_l _ _ (mx + mn)). ring_simplify.
    apply Qmult_le_l with (z := 2%Q) in Hlo; [|reflexivity]. exact Hlo.
  - apply Qle_shift_div_r; [exact Hpos|].
    apply (Qplus_le_l _ _ (mx + mn)). ring_simplify.
    apply Qmult_le_l with (z := 2%Q) in Hhi; [|reflexivity]. exact Hhi.
Qed.

Lemma normalization_extrema (mx mn : Q) :
  (mn < mx)%Q ->
  (normalization mx mn mx == 1)%Q /\ (normalization mx mn mn == -1)%Q.
Proof.
  intros Hlt. unfold normalization.
  assert (Hne : ~ (mx - mn == 0)%Q).
  { intros H0. apply (Qlt_not_eq mn mx Hlt).
    symmetry. apply Qplus_inj_r with (z := (- mn)%Q).
    rewrite Qplus_opp_r. exact H0. }
  split; field; exact Hne.
Qed.

(** X5. Normalisation scales the series to [-1, 1], floating point numbers
    being taken as rationals (in [float64] the bounds hold up to rounding
    only): when the flow series is not constant, every element of the
    normalised series of a constructed dataset lies between -1 and 1, and
    both bounds are attained (by the images of the maximum and of the
    minimum). *)
Theorem normalized_series_range (flow : ndarray4) (poi : ndarray3)
  (len_closeness len_period len_trend T_closeness T_period T_trend : Z)
  (ds : BikeNYCDeepSTN) (mx mn : Q) :
  __init__ flow poi len_closeness len_period len_trend
    T_closeness T_period T_trend true = Ok ds ->
  np.max flow = Ok mx -> np.min flow = Ok mn -> (mn < mx)%Q ->
  (forall y, y ∈ elements (full_data ds) -> (-1 <= y)%Q /\ (y <= 1)%Q)
  /\ (exists y, y ∈ elements (full_data ds) /\ (y == 1)%Q)
  /\ (exists y, y ∈ elements (full_data ds) /\ (y == -1)%Q)
  /\ (forall y, y ∈ tensor_elements (Y_data ds) -> (-1 <= y)%Q /\ (y <= 1)%Q).
Proof.
  intros H Hmx Hmn Hlt.
  apply init_Ok_inv in H
    as (mx' & mn' & fv & Hmx' & Hmn' & Hfv & Hfull & _ & _ & _ & _ & _ & _ & HY & _).
  rewrite Hmx in Hmx'. injection Hmx' as <-.
  rewrite Hmn in Hmn'. injection Hmn' as <-.
  destruct (max_of_spec _ _ Hmx) as [Hmxin Hub].
  destruct (min_of_spec _ _ Hmn) as [Hmnin Hlb].
  destruct (normalization_extrema mx mn Hlt) as [Hone Hminus].
  assert (Hrange : forall y, y ∈ elements (full_data ds) ->
                             (-1 <= y)%Q /\ (y <= 1)%Q).
  { intros y Hy. rewrite Hfull, elements_map_elements in Hy.
    apply list_elem_of_In, in_map_iff in Hy as (x & <- & Hx).
    apply list_elem_of_In in Hx.
    apply normalization_bounds; [exact Hlt|apply Hlb|apply Hub]; exact Hx. }
  split; [exact Hrange|]. split; [|split].
  - exists (normalization mx mn mx). split; [|exact Hone].
    rewrite Hfull, elements_map_elements. apply list_elem_of_In, in_map.
    apply list_elem_of_In. exact Hmxin.
  - exists (normalization mx mn mn). split; [|exact Hminus].
    rewrite Hfull, elements_map_elements. apply list_elem_of_In, in_map.
    apply list_elem_of_In. exact Hmnin.
  - intros y Hy. apply Hrange. rewrite HY in Hy. simpl in Hy.
    apply create_feature_vector_Ok_inv in Hfv
      as (skip & _ & _ & _ & _ & _ & _ & _ & _ & _ & _ & _ & HYfv & _).
    rewrite HYfv in Hy. apply elements_slice in Hy. rewrite Hfull. exact Hy.
Qed.

Lemma normalized_series_range_witness :
  (exists y, y ∈ elements (full_data ramp_dataset) /\ (y == 1)%Q)
  /\ (exists y, y ∈ elements (full_data ramp_dataset) /\ (y == -1)%Q).
Proof.
  destruct (normalized_series_range (ramp 10) unit_poi 2 1 1 1 2 3 ramp_dataset 9 0)
    as (_ & Hone & Hminus & _); try (vm_compute; reflexivity).
  split; [exact Hone|exact Hminus].
Defined.

(** ** Indexing the dataset *)




Lemma tensor_getitem_cases (t : tensor) (index : Z) :
  (exists it, tensor_getitem t index = Ok it)
  \/ tensor_getitem t index = Raise IndexError.
Proof.
  destruct t as [a|a]; simpl.
  - destruct (norm_index_cases (length (frames a)) index) as [(i & ->)| ->];
      cbn [bind]; auto.
    destruct (getitem_cases (frames a) i) as [(f & ->)| ->]; cbn [bind]; eauto.
  - destruct (norm_index_cases (length (items a)) index) as [(i & ->)| ->];
      cbn [bind]; auto.
    destruct (getitem_cases (items a) i) as [(f & ->)| ->]; cbn [bind]; eauto.
Qed.



(** ** The lead-time representation *)



(** X8. In the lead-time representation, with a lead time that is not
    negative, a negative index [i] from [-len_total] on is not rejected.  The
    input is frame [len_total + i], counted from the end of the series.  For
    [lead_time + i < 0] the label is counted from the end as well and is
    frame [len_total + i + lead_time], a lead time after the input.  For
    [0 <= lead_time + i < len_total] the label is frame [lead_time + i],
    counted from the start of the series: its position is that of the input
    plus [lead_time - len_total].  For [len_total <= lead_time + i], an index
    that still fits into [int64], the access raises [IndexError]. *)
Theorem lead_time_negative_index (self : BikeNYCDeepSTN) (lead i : Z) :
  let n := Z.of_nat (length (frames (full_data self))) in
  let self' := merge_closeness_period_trend self lead in
  0 <= lead -> - n <= i < 0 ->
  exists x,
    frames (full_data self) !! Z.to_nat (n + i) = Some x
    /\ (lead + i < 0 ->
        exists y,
          frames (full_data self) !! Z.to_nat (n + i + lead) = Some y
          /\ __getitem__ self' i = Ok (xy_sample (Frame x) (Frame y)))
    /\ (0 <= lead + i < n ->
        exists y,
          frames (full_data self) !! Z.to_nat (lead + i) = Some y
          /\ __getitem__ self' i = Ok (xy_sample (Frame x) (Frame y))
          /\ Z.of_nat (Z.to_nat (lead + i)) - Z.of_nat (Z.to_nat (n + i))
             = lead - n)
    /\ (n <= lead + i < 2 ^ 63 -> __getitem__ self' i = Raise IndexError).
Proof.
  intros n self' Hlead Hi.
  destruct (lookup_lt_is_Some_2 (frames (full_data self)) (Z.to_nat (n + i)))
    as (x & Hx); [subst n; lia|].
  assert (Hget : forall r,
            (let* y := tensor_getitem (Tensor4 (full_data self)) (i + lead) in
             Ok (xy_sample (Frame x) y)) = r ->
            __getitem__ self' i = r).
  { intros r <-. unfold __getitem__, self'. cbn [merge_closeness_period_trend
      periodical use_lead_time lead_time_data lead_time getattr bind].
    rewrite (tensor_getitem_Tensor4_negative _ i x);
      [reflexivity|lia|subst n; lia|rewrite Z.add_comm; exact Hx]. }
  exists x. split; [exact Hx|]. split; [|split].
  - intros Hneg.
    destruct (lookup_lt_is_Some_2 (frames (full_data self))
                (Z.to_nat (n + i + lead))) as (y & Hy); [subst n; lia|].
    exists y. split; [exact Hy|]. apply Hget.
    rewrite (tensor_getitem_Tensor4_negative _ (i + lead) y);
      [reflexivity|lia|subst n; lia|].
    replace (i + lead + Z.of_nat (length (frames (full_data self))))
      with (n + i + lead) by (subst n; lia).
    exact Hy.
  - intros Hin.
    destruct (lookup_lt_is_Some_2 (frames (full_data self)) (Z.to_nat (lead + i)))
      as (y & Hy); [subst n; lia|].
    exists y. split; [exact Hy|]. split; [|lia]. apply Hget.
    rewrite (tensor_getitem_Tensor4 _ (i + lead) y);
      [reflexivity|lia|rewrite Z.add_comm; exact Hy].
  - intros Hout. apply Hget.
    rewrite tensor_getitem_out_of_bounds; [reflexivity|].
    left. simpl. subst n. lia.
Qed.

Lemma lead_time_negative_index_witness :
  (exists x y,
     frames (full_data ramp_dataset) !! 9%nat = Some x
     /\ frames (full_data ramp_dataset) !! 3%nat = Some y
     /\ __getitem__ (merge_closeness_period_trend ramp_dataset 4) (-1)
        = Ok (xy_sample (Frame x) (Frame y)))
  /\ __getitem__ (merge_closeness_period_trend ramp_dataset 12) (-1)
     = Raise IndexError.
Proof.
  split.
  - destruct (lead_time_negative_index ramp_dataset 4 (-1))
      as (x & Hx & _ & Hin & _); [lia|vm_compute; split; congruence|].
    destruct Hin as (y & Hy & Hg & _); [vm_compute; split; congruence|].
    exists x, y. split; [exact Hx|]. split; [exact Hy|exact Hg].
  - destruct (lead_time_negative_index ramp_dataset 12 (-1))
      as (x & _ & _ & _ & Hout); [lia|vm_compute; split; congruence|].
    apply Hout. vm_compute. split; [discriminate|reflexivity].
Defined.

(** ** The sequential representation *)

Lemma stack_shape (xs : list ndarray4) (a : ndarray5) :
  stack xs = Ok a ->
  items a = map frames xs
  /\ forall x, x ∈ xs ->
       shape x = (depth5 a, channels5 a, height5 a, width5 a).
Proof.
  unfold stack. destruct xs as [|x0 xs]; [discriminate|].
  destruct (decide _) as [Hall|_]; [|discriminate].
  intros [= <-]. split; [reflexivity|]. simpl.
  intros x Hx. rewrite Forall_forall in Hall. apply (Hall x Hx).
Qed.

Lemma set_sequential_representation_Ok (self : BikeNYCDeepSTN)
  (history_length prediction_length : Z) :
  let n := Z.of_nat (length (frames (full_data self))) in
  let ends := range (history_length + prediction_length) n in
  0 <= history_length -> 0 <= prediction_length ->
  history_length + prediction_length < n ->
  exists self' history predict,
    set_sequential_representation self history_length prediction_length = Ok self'
    /\ X_data self' = Some history /\ Y_data self' = Tensor5 predict
    /\ periodical self' = false /\ use_lead_time self' = false
    /\ sequential self' = true
    /\ items history
       = map (fun e => py_slice (e - prediction_length - history_length)
                         (e - prediction_length) (frames (full_data self))) ends
    /\ items predict
       = map (fun e => py_slice (e - prediction_length) e
                         (frames (full_data self))) ends
    /\ depth5 history = Z.to_nat history_length
    /\ depth5 predict = Z.to_nat prediction_length.
Proof.
  intros n ends Hh Hp Hlt. unfold set_sequential_representation. fold n ends.
  assert (Hends : forall e, e ∈ ends ->
            history_length + prediction_length <= e < n).
  { intros e He. apply elem_of_seqZ in He. lia. }
  assert (Hne : ends <> []).
  { intros E. apply (f_equal length) in E. unfold ends, range in E.
    rewrite length_seqZ in E. simpl in E. lia. }
  destruct (stack_Ok
              (map (fun end_idx =>
                      slice (full_data self)
                        (end_idx - prediction_length - history_length)
                        (end_idx - prediction_length)) ends)
              (Z.to_nat history_length, channels (full_data self),
               height (full_data self), width (full_data self)))
    as (history & Hhist & Hitems1).
  { destruct ends; [congruence|discriminate]. }
  { apply Forall_forall. intros y Hy.
    apply list_elem_of_In, in_map_iff in Hy as (e & <- & He).
    apply list_elem_of_In, Hends in He.
    rewrite shape_slice_in_range by (subst n; lia). do 3 f_equal. lia. }
  destruct (stack_Ok
              (map (fun end_idx =>
                      slice (full_data self) (end_idx - prediction_length) end_idx)
                   ends)
              (Z.to_nat prediction_length, channels (full_data self),
               height (full_data self), width (full_data self)))
    as (predict & Hpred & Hitems2).
  { destruct ends; [congruence|discriminate]. }
  { apply Forall_forall. intros y Hy.
    apply list_elem_of_In, in_map_iff in Hy as (e & <- & He).
    apply list_elem_of_In, Hends in He.
    rewrite shape_slice_in_range by (subst n; lia). do 3 f_equal. lia. }
  rewrite Hhist, Hpred. cbn [bind].
  eexists _, history, predict. split; [reflexivity|]. simpl.
  rewrite Hitems1, Hitems2, !map_map. simpl.
  repeat (split; [reflexivity|]).
  destruct ends as [|e0 ends'] eqn:E; [congruence|].
  assert (He0 : history_length + prediction_length <= e0 < n)
    by (apply Hends; left).
  split.
  - destruct (stack_shape _ _ Hhist) as [_ Hs].
    specialize (Hs _ (list_elem_of_here _ _)).
    rewrite shape_slice_in_range in Hs by (subst n; lia).
    injection Hs as Hd _ _ _. rewrite <- Hd. f_equal. lia.
  - destruct (stack_shape _ _ Hpred) as [_ Hs].
    specialize (Hs _ (list_elem_of_here _ _)).
    rewrite shape_slice_in_range in Hs by (subst n; lia).
    injection Hs as Hd _ _ _. rewrite <- Hd. f_equal. lia.
Qed.

(** X9. After [set_sequential_representation] with lengths that are not
    negative and sum below the length of the series, the sample at index [i]
    (from 0 to [len_total - history_length - prediction_length - 1]) has as
    input the [history_length] consecutive frames from time step [i] and as
    label the [prediction_length] frames that follow them.  No sample reaches
    the last frame of the series, and the index [__len__] raises
    [IndexError]. *)
Theorem sequential_sample_content (self : BikeNYCDeepSTN)
  (history_length prediction_length : Z) :
  let n := Z.of_nat (length (frames (full_data self))) in
  let raw := frames (full_data self) in
  0 <= history_length -> 0 <= prediction_length ->
  history_length + prediction_length < n ->
  exists self',
    set_sequential_representation self history_length prediction_length = Ok self'
    /\ (forall i, 0 <= i < n - history_length - prediction_length ->
          exists x y,
            __getitem__ self' i = Ok (xy_sample (Frames x) (Frames y))
            /\ x = py_slice i (i + history_length) raw
            /\ y = py_slice (i + history_length)
                     (i + history_length + prediction_length) raw
            /\ length x = Z.to_nat history_length
            /\ length y = Z.to_nat prediction_length
            /\ (forall a, 0 <= a < history_length ->
                  x !! Z.to_nat a = raw !! Z.to_nat (i + a))
            /\ (forall b, 0 <= b < prediction_length ->
                  y !! Z.to_nat b = raw !! Z.to_nat (i + history_length + b))
            /\ i + history_length + prediction_length <= n - 1)
    /\ __getitem__ self' (n - history_length - prediction_length)
       = Raise IndexError.
Proof.
  intros n raw Hh Hp Hlt.
  destruct (set_sequential_representation_Ok self history_length prediction_length
              Hh Hp Hlt)
    as (self' & history & predict & Hs & HX & HY & Hper & Hlead & _ & Hi1 & Hi2 & _).
  fold n raw in Hi1, Hi2.
  assert (Hlen1 : length (items history)
                  = Z.to_nat (n - history_length - prediction_length)).
  { rewrite Hi1, length_map. unfold range. rewrite length_seqZ. f_equal. lia. }
  assert (Hlen2 : length (items predict)
                  = Z.to_nat (n - history_length - prediction_length)).
  { rewrite Hi2, length_map. unfold range. rewrite length_seqZ. f_equal. lia. }
  exists self'. split; [exact Hs|]. split.
  - intros i Hi.
    exists (py_slice i (i + history_length) raw),
      (py_slice (i + history_length) (i + history_length + prediction_length) raw).
    destruct (py_slice_in_range i (i + history_length) raw) as [Lx Ex];
      [lia|lia|subst n raw; lia|].
    destruct (py_slice_in_range (i + history_length)
                (i + history_length + prediction_length) raw) as [Ly Ey];
      [lia|lia|subst n raw; lia|].
    split.
    { unfold __getitem__. rewrite Hper, Hlead, HX, HY. cbn [getattr bind].
      unfold tensor_getitem.
      rewrite Hlen1, Hlen2, norm_index_in_range by lia. cbn [bind].
      unfold getitem. rewrite Hi1, Hi2.
      change (map ?f ?l) with (f <$> l). rewrite !list_lookup_fmap.
      unfold range. rewrite lookup_seqZ_lt by lia. simpl.
      do 2 f_equal; f_equal; f_equal; lia. }
    split; [reflexivity|]. split; [reflexivity|].
    split; [rewrite Lx; f_equal; lia|]. split; [rewrite Ly; f_equal; lia|].
    split; [intros a Ha; apply Ex; lia|].
    split; [|lia].
    intros b Hb. rewrite Ey by lia. f_equal.
  - unfold __getitem__. rewrite Hper, Hlead, HX. cbn [getattr bind].
    rewrite tensor_getitem_out_of_bounds; [reflexivity|].
    left. simpl. rewrite Hlen1. lia.
Qed.

Lemma sequential_sample_content_witness :
  exists self',
    set_sequential_representation ramp_dataset 3 2 = Ok self'
    /\ __getitem__ self' (10 - 3 - 2) = Raise IndexError.
Proof.
  destruct (sequential_sample_content ramp_dataset 3 2) as (self' & Hs & _ & Hout);
    [lia|lia|vm_compute; reflexivity|].
  exists self'. split; [exact Hs|exact Hout].
Defined.

(** ** The three modes *)

Lemma set_sequential_representation_Ok_inv (self self' : BikeNYCDeepSTN)
  (history_length prediction_length : Z) :
  set_sequential_representation self history_length prediction_length = Ok self' ->
  full_data self' = full_data self /\ min_max_diff self' = min_max_diff self
  /\ X_closeness self' = X_closeness self /\ X_period self' = X_period self
  /\ X_trend self' = X_trend self /\ T_data self' = T_data self
  /\ P_data self' = P_data self
  /\ lead_time_data self' = lead_time_data self /\ lead_time self' = lead_time self
  /\ periodical self' = false /\ sequential self' = true
  /\ use_lead_time self' = false
  /\ exists history predict,
       X_data self' = Some history /\ Y_data self' = Tensor5 predict.
Proof.
  unfold set_sequential_representation. intros H.
  apply bind_Ok_inv in H as (history & Hh & H).
  apply bind_Ok_inv in H as (predict & Hp & H).
  injection H as <-. simpl. repeat split; eauto.
Qed.

(** X10. Whatever mode switches are called on a constructed dataset, in
    whatever order: exactly one of the three mode flags is set; the normalised
    series, the stored difference, the three scale arrays, [T_data] and
    [P_data] are those of the construction; the periodical mode is never
    entered again once left; [__len__] returns a number; and [__getitem__]
    never fails on a missing attribute. *)
Theorem modes_invariant (flow : ndarray4) (poi : ndarray3)
  (len_closeness len_period len_trend T_closeness T_period T_trend : Z)
  (normalize : bool) (ds0 ds : BikeNYCDeepSTN) :
  __init__ flow poi len_closeness len_period len_trend
    T_closeness T_period T_trend normalize = Ok ds0 ->
  reachable_from ds0 ds ->
  one_mode ds
  /\ full_data ds = full_data ds0 /\ min_max_diff ds = min_max_diff ds0
  /\ X_closeness ds = X_closeness ds0 /\ X_period ds = X_period ds0
  /\ X_trend ds = X_trend ds0 /\ T_data ds = T_data ds0 /\ P_data ds = P_data ds0
  /\ (periodical ds = true -> ds = ds0)
  /\ (exists z, __len__ ds = Ok z)
  /\ (forall index, __getitem__ ds index <> Raise AttributeError).
Proof.
  intros Hinit Hreach.
  apply init_Ok_inv in Hinit
    as (mx & mn & fv & _ & _ & _ & _ & _ & _ & _ & _ & _ & _ & _ & Hl0 & Hs0 & Hp0).
  assert (Inv : one_mode ds
                /\ full_data ds = full_data ds0 /\ min_max_diff ds = min_max_diff ds0
                /\ X_closeness ds = X_closeness ds0 /\ X_period ds = X_period ds0
                /\ X_trend ds = X_trend ds0 /\ T_data ds = T_data ds0
                /\ P_data ds = P_data ds0
                /\ (periodical ds = true -> ds = ds0)
                /\ (use_lead_time ds = true ->
                    is_Some (lead_time_data ds) /\ is_Some (lead_time ds))
                /\ (sequential ds = true -> is_Some (X_data ds))).
  { induction Hreach as [|ds lead _ IH|ds ds' h p _ IH Hseq].
    - unfold one_mode. rewrite Hl0, Hs0, Hp0.
      repeat split; auto; discriminate.
    - destruct IH as (_ & H1 & H2 & H3 & H4 & H5 & H6 & H7 & _).
      unfold one_mode. simpl. repeat split; auto; discriminate.
    - destruct IH as (_ & H1 & H2 & H3 & H4 & H5 & H6 & H7 & _).
      apply set_sequential_representation_Ok_inv in Hseq
        as (E1 & E2 & E3 & E4 & E5 & E6 & E7 & _ & _ & Fp & Fs & Fl
            & history & predict & HX & HY).
      unfold one_mode. rewrite Fp, Fs, Fl, HX.
      repeat split; eauto; try congruence; discriminate. }
  destruct Inv as (Hmode & H1 & H2 & H3 & H4 & H5 & H6 & H7 & Hper & Hlead & Hseq).
  repeat (split; [assumption|]).
  split.
  - unfold __len__. destruct (use_lead_time ds) eqn:E; [|eauto].
    destruct (Hlead eq_refl) as [(d & ->) (l & ->)]. simpl. eauto.
  - intros index. unfold __getitem__.
    destruct (periodical ds) eqn:Ep.
    + destruct (tensor_getitem_cases (Tensor4 (X_closeness ds)) index)
        as [(a & ->)| ->]; cbn [bind]; [|discriminate].
      destruct (tensor_getitem_cases (Tensor4 (X_period ds)) index)
        as [(b & ->)| ->]; cbn [bind]; [|discriminate].
      destruct (tensor_getitem_cases (Tensor4 (X_trend ds)) index)
        as [(c & ->)| ->]; cbn [bind]; [|discriminate].
      destruct (tensor_getitem_cases (Tensor4 (T_data ds)) index)
        as [(d & ->)| ->]; cbn [bind]; [|discriminate].
      destruct (tensor_getitem_cases (Tensor4 (P_data ds)) index)
        as [(e & ->)| ->]; cbn [bind]; [|discriminate].
      destruct (tensor_getitem_cases (Y_data ds) index)
        as [(f & ->)| ->]; cbn [bind]; discriminate.
    + destruct (use_lead_time ds) eqn:El.
      * destruct (Hlead eq_refl) as [(d & ->) (l & ->)]. cbn [getattr bind].
        destruct (tensor_getitem_cases (Tensor4 d) index)
          as [(a & ->)| ->]; cbn [bind]; [|discriminate].
        destruct (tensor_getitem_cases (Tensor4 d) (index + l))
          as [(b & ->)| ->]; cbn [bind]; discriminate.
      * assert (Es : sequential ds = true).
        { destruct Hmode as [(F & _)|[(_ & F & _)|(_ & _ & F)]]; congruence. }
        destruct (Hseq Es) as (X & ->). cbn [getattr bind].
        destruct (tensor_getitem_cases (Tensor5 X) index)
          as [(a & ->)| ->]; cbn [bind]; [|discriminate].
        destruct (tensor_getitem_cases (Y_data ds) index)
          as [(b & ->)| ->]; cbn [bind]; discriminate.
Qed.

Lemma modes_invariant_witness :
  exists ds',
    set_sequential_representation
      (merge_closeness_period_trend ramp_dataset 4) 3 2 = Ok ds'
    /\ one_mode (merge_closeness_period_trend ds' 2)
    /\ full_data (merge_closeness_period_trend ds' 2) = full_data ramp_dataset.
Proof.
  assert (H : exists ds',
            set_sequential_representation
              (merge_closeness_period_trend ramp_dataset 4) 3 2 = Ok ds')
    by (eexists; vm_compute; reflexivity).
  destruct H as (ds' & Hseq). exists ds'. split; [exact Hseq|].
  destruct (modes_invariant (ramp 10) unit_poi 2 1 1 1 2 3 true ramp_dataset
              (merge_closeness_period_trend ds' 2))
    as (Hmode & Hfull & _); [vm_compute; reflexivity| |split; assumption].
  apply reach_merge. eapply reach_sequential; [|exact Hseq].
  apply reach_merge. apply reach_constructed.
Defined.

(** ** The directory search *)

Lemma fs_dirs_dir (entries : listing) :
  fs_dirs (fs_dir entries) = S (list_sum (map (fun e => fs_dirs (snd e)) entries)).
Proof.
  simpl. f_equal. induction entries as [|[name node] es IH]; simpl; [reflexivity|].
  rewrite IH. reflexivity.
Qed.

Lemma queue_dirs_subdirectories (data_dir : String.string) (entries : listing) :
  queue_dirs (subdirectories data_dir entries)
  = list_sum (map (fun e => fs_dirs (snd e)) entries).
Proof.
  unfold queue_dirs. induction entries as [|[name [|sub]] es IH]; simpl in *.
  - reflexivity.
  - exact IH.
  - rewrite IH. reflexivity.
Qed.

Lemma queue_dirs_app (q1 q2 : list (String.string * listing)) :
  queue_dirs (q1 ++ q2) = (queue_dirs q1 + queue_dirs q2)%nat.
Proof. unfold queue_dirs. rewrite map_app, list_sum_app. reflexivity. Qed.

Lemma queue_dirs_cons (data_dir : String.string) (entries : listing)
  (queue : list (String.string * listing)) :
  queue_dirs ((data_dir, entries) :: queue)
  = S (list_sum (map (fun e => fs_dirs (snd e)) entries) + queue_dirs queue)%nat.
Proof.
  unfold queue_dirs. cbn [map list_sum foldr snd]. rewrite fs_dirs_dir. reflexivity.
Qed.

(** The loop ends within as many iterations as the queue holds directories. *)
Lemma get_path_loop_terminates (fuel : nat) (queue : list (String.string * listing)) :
  (queue_dirs queue < fuel)%nat -> get_path_loop fuel queue <> None.
Proof.
  revert queue. induction fuel as [|fuel IH]; intros queue Hlt; [lia|].
  destruct queue as [|[data_dir entries] queue']; simpl; [discriminate|].
  destruct (holds_data entries); [discriminate|].
  apply IH. rewrite queue_dirs_app, queue_dirs_subdirectories.
  rewrite queue_dirs_cons in Hlt. lia.
Qed.

Lemma in_subdirectories (data_dir : String.string) (entries : listing)
  (path : String.string) (sub : listing) :
  In (path, sub) (subdirectories data_dir entries)
  <-> exists folder,
        path = String.append data_dir (String.append "/"%string folder)
        /\ In (folder, fs_dir sub) entries.
Proof.
  induction entries as [|[name [|s]] es IH]; simpl.
  - split; [contradiction|]. intros (f & _ & []).
  - rewrite IH. split.
    + intros (f & Hp & Hin). exists f. split; [exact Hp|right; exact Hin].
    + intros (f & Hp & [Heq|Hin]); [discriminate|].
      exists f. split; assumption.
  - rewrite IH. split.
    + intros [Heq|(f & Hp & Hin)].
      * injection Heq as <- <-. exists name. split; [reflexivity|left; reflexivity].
      * exists f. split; [exact Hp|right; exact Hin].
    + intros (f & Hp & [Heq|Hin]).
      * injection Heq as <- <-. left. rewrite Hp. reflexivity.
      * right. exists f. split; assumption.
Qed.

(** A directory below [top] is [top] itself or lies below one of its
    sub-directories. *)
Lemma dir_at_first_step (top : String.string) (top_entries : listing) (n : nat)
  (path : String.string) (sub : listing) :
  dir_at top top_entries n path sub ->
  (n = 0%nat /\ path = top /\ sub = top_entries)
  \/ exists k folder child,
       n = S k /\ In (folder, fs_dir child) top_entries
       /\ dir_at (String.append top (String.append "/"%string folder)) child k path sub.
Proof.
  induction 1 as [|depth path folder entries sub Hd IH Hin].
  - left. auto.
  - right. destruct IH as [(-> & -> & ->)|(k & f & child & -> & Hf & Hk)].
    + exists 0%nat, folder, sub. repeat split; auto. constructor.
    + exists (S k), f, child. repeat split; auto. econstructor; eauto.
Qed.

Lemma bfs_state_root (root_dir : String.string) (root : listing) :
  bfs_state root_dir root 0 [(root_dir, root)] [].
Proof.
  split; [|split].
  - intros q [<-|[]]. constructor.
  - intros q [].
  - intros k p sub Hd Hh. left. exists (root_dir, root), k.
    split; [left; reflexivity|]. split; [exact Hd|reflexivity].
Qed.

(** When the level at depth [d] is exhausted the next level takes its place. *)
Lemma bfs_state_next_level (root_dir : String.string) (root : listing) (d : nat)
  (next : list (String.string * listing)) :
  bfs_state root_dir root d [] next -> bfs_state root_dir root (S d) next [].
Proof.
  intros (_ & Hnext & Hall). split; [exact Hnext|]. split; [intros q []|].
  intros k p sub Hd Hh. left.
  destruct (Hall k p sub Hd Hh) as [(q & j & [] & _)|H]. exact H.
Qed.

(** One iteration that does not find the data files. *)
Lemma bfs_state_step (root_dir : String.string) (root : listing) (d : nat)
  (data_dir : String.string) (entries : listing)
  (cur next : list (String.string * listing)) :
  bfs_state root_dir root d ((data_dir, entries) :: cur) next ->
  holds_data entries = false ->
  bfs_state root_dir root d cur (next ++ subdirectories data_dir entries).
Proof.
  intros (Hcur & Hnext & Hall) Hno. split; [|split].
  - intros q Hq. apply Hcur. right. exact Hq.
  - intros [p sub] Hq. apply in_app_or in Hq as [Hq|Hq]; [apply Hnext; exact Hq|].
    apply in_subdirectories in Hq as (folder & -> & Hin). simpl.
    econstructor; [|exact Hin]. apply (Hcur (data_dir, entries)). left. reflexivity.
  - intros k p sub Hd Hh.
    destruct (Hall k p sub Hd Hh) as [(q & j & [<-|Hq] & Hj & ->)|(q & j & Hq & Hj & ->)].
    + simpl in Hj. apply dir_at_first_step in Hj
        as [(-> & -> & ->)|(k' & folder & child & -> & Hin & Hk')]; [congruence|].
      right. exists (String.append data_dir (String.append "/"%string folder), child), k'.
      split; [|split; [exact Hk'|lia]].
      apply in_or_app. right. apply in_subdirectories. eauto.
    + left. exists q, j. auto.
    + right. exists q, j. split; [apply in_or_app; left; exact Hq|auto].
Qed.

Lemma get_path_loop_spec (root_dir : String.string) (root : listing) (fuel : nat) :
  forall d cur next r,
    bfs_state root_dir root d cur next ->
    get_path_loop fuel (cur ++ next) = Some r ->
    match r with
    | Some p =>
        exists k sub,
          dir_at root_dir root k p sub /\ holds_data sub = true
          /\ forall k' p' sub',
               dir_at root_dir root k' p' sub' -> holds_data sub' = true ->
               (k <= k')%nat
    | None =>
        forall k p sub, dir_at root_dir root k p sub -> holds_data sub = false
    end.
Proof.
  induction fuel as [|fuel IH]; intros d cur next r Hst Hloop; [discriminate|].
  assert (Hnorm : exists d' cur' next',
            cur ++ next = cur' ++ next' /\ bfs_state root_dir root d' cur' next'
            /\ (cur' = [] -> next' = [])).
  { destruct cur as [|c cur0].
    - exists (S d), next, []. rewrite app_nil_r. split; [reflexivity|].
      split; [apply bfs_state_next_level; exact Hst|reflexivity].
    - exists d, (c :: cur0), next. split; [reflexivity|]. split; [exact Hst|].
      discriminate. }
  destruct Hnorm as (d' & cur' & next' & Heq & Hst' & Hempty).
  rewrite Heq in Hloop. clear Hst Heq cur next d.
  destruct cur' as [|[data_dir entries] cur0].
  - rewrite (Hempty eq_refl) in *. simpl in Hloop. injection Hloop as <-.
    intros k p sub Hd. destruct (holds_data sub) eqn:Hh; [|reflexivity].
    destruct Hst' as (_ & _ & Hall).
    destruct (Hall k p sub Hd Hh) as [(q & j & [] & _)|(q & j & [] & _)].
  - simpl in Hloop. destruct (holds_data entries) eqn:Hh.
    + injection Hloop as <-. destruct Hst' as (Hcur & _ & Hall).
      exists d', entries. split; [apply (Hcur (data_dir, entries)); left; reflexivity|].
      split; [exact Hh|]. intros k' p' sub' Hd' Hh'.
      destruct (Hall k' p' sub' Hd' Hh') as [(q & j & _ & _ & ->)|(q & j & _ & _ & ->)];
        lia.
    + rewrite <- app_assoc in Hloop.
      apply (IH d' cur0 (next' ++ subdirectories data_dir entries) r); [|exact Hloop].
      apply bfs_state_step; assumption.
Qed.

(** X11. [_get_path] searches breadth first.  A path it returns names a
    directory of the tree that lists both [flow_data.npy] and [poi_data.npy],
    and no directory that lists both lies nearer to the root; it returns
    [None] exactly when no directory of the tree, the root included, lists
    both. *)
Theorem get_path_finds_shallowest (root_dir : String.string) (root : listing) :
  (forall p,
     _get_path root_dir root = Some p ->
     exists k sub,
       dir_at root_dir root k p sub /\ holds_data sub = true
       /\ forall k' p' sub',
            dir_at root_dir root k' p' sub' -> holds_data sub' = true ->
            (k <= k')%nat)
  /\ (_get_path root_dir root = None <->
      forall k p sub, dir_at root_dir root k p sub -> holds_data sub = false).
Proof.
  unfold _get_path.
  destruct (get_path_loop (S (fs_dirs (fs_dir root))) [(root_dir, root)]) as [r|] eqn:E.
  - pose proof (get_path_loop_spec root_dir root _ 0 [(root_dir, root)] [] r
                  (bfs_state_root root_dir root) E) as Hspec.
    split.
    + intros p ->. exact Hspec.
    + split.
      * intros ->. exact Hspec.
      * intros Hnone. destruct r as [p|]; [|reflexivity].
        destruct Hspec as (k & sub & Hd & Hh & _).
        rewrite (Hnone k p sub Hd) in Hh. discriminate.
  - exfalso. revert E. apply get_path_loop_terminates.
    rewrite queue_dirs_cons, fs_dirs_dir. unfold queue_dirs. simpl. lia.
Qed.

Lemma get_path_finds_shallowest_witness :
  _get_path "root"%string sample_tree = Some "root/b"%string
  /\ exists k sub,
       dir_at "root"%string sample_tree k "root/b"%string sub
       /\ holds_data sub = true.
Proof.
  split; [reflexivity|].
  destruct (get_path_finds_shallowest "root"%string sample_tree) as [Hfound _].
  destruct (Hfound "root/b"%string eq_refl) as (k & sub & Hd & Hh & _).
  exists k, sub. split; assumption.
Defined.

(** ** Disabled scales *)

Lemma scale_attribute_disabled (all_data : ndarray4) (skip len_total T L : Z) :
  L <= 0 -> scale_attribute all_data skip len_total T L = Ok None.
Proof.
  intros HL. unfold scale_attribute. destruct (Z.ltb_spec 0 L); [lia|reflexivity].
Qed.

(** The attribute of a scale after its block of lines 182-193, when an enabled
    scale has its lag span within the skip offset. *)
Lemma scale_attribute_cases (all_data : ndarray4) (skip T L : Z) :
  let n := Z.of_nat (length (frames all_data)) in
  (0 < L -> 0 <= T /\ T * L <= skip) ->
  skip <= n \/ 2 * n <= skip ->
  (L <= 0 /\ scale_attribute all_data skip n T L = Ok None)
  \/ (0 < L /\ exists X, scale_attribute all_data skip n T L = Ok (Some X)).
Proof.
  intros n Hok Hskip. destruct (Z.ltb_spec 0 L) as [HL|HL].
  - right. split; [exact HL|]. destruct (Hok HL) as (HT & Hspan).
    destruct (lagged_window_within_skip all_data skip T L HL HT Hspan Hskip)
      as (X & HX & _).
    exists X. apply scale_attribute_enabled; assumption.
  - left. split; [exact HL|]. apply scale_attribute_disabled. exact HL.
Qed.

Lemma create_feature_vector_disabled (all_data : ndarray4) (poi : ndarray3)
  (len_closeness len_period len_trend T_closeness T_period T_trend skip : Z) :
  let n := Z.of_nat (length (frames all_data)) in
  poi_fits poi all_data ->
  -25 <= T_period <= 24 ->
  number_of_skip_hours len_closeness len_period len_trend T_closeness T_period T_trend
  = Ok skip ->
  skip <= n \/ 2 * n <= skip ->
  (0 < len_closeness -> 0 <= T_closeness /\ T_closeness * len_closeness <= skip) ->
  (0 < len_period -> 0 <= T_period /\ T_period * len_period <= skip) ->
  (0 < len_trend -> 0 <= T_trend /\ T_trend * len_trend <= skip) ->
  len_closeness <= 0 \/ len_period <= 0 \/ len_trend <= 0 ->
  _create_feature_vector all_data poi
    len_closeness len_period len_trend T_closeness T_period T_trend
  = Raise AttributeError.
Proof.
  intros n Hpoi HTp Hsk Hskip Hc Hp Ht Hdis.
  destruct (temporal_matrices_total (length (frames all_data)) T_period
              (height all_data) (width all_data) HTp) as (mh & md & Htm).
  destruct (temporal_matrices_Ok_inv _ _ _ _ _ _ Htm)
    as [(Hc1 & Hh1 & Hw1 & Hn1 & _) (Hc2 & Hh2 & Hw2 & Hn2 & _)].
  unfold _create_feature_vector, shape.
  rewrite Htm. cbn [bind].
  rewrite concatenate_Ok by congruence. cbn [bind].
  rewrite Hsk. cbn [bind]. subst n.
  destruct (scale_attribute_cases all_data skip T_closeness len_closeness Hc Hskip)
    as [(Hlc & ->)|(Hlc & Xc & ->)]; cbn [bind getattr].
  - destruct (scale_attribute_cases all_data skip T_period len_period Hp Hskip)
      as [(_ & ->)|(_ & Xp & ->)]; cbn [bind];
      destruct (scale_attribute_cases all_data skip T_trend len_trend Ht Hskip)
        as [(_ & ->)|(_ & Xt & ->)]; reflexivity.
  - destruct (normalize_poi_total (dtype3 poi) (planes poi) (proj1 Hpoi)) as (ps & Hps & Hpslen).
    destruct (reshape_fits poi ps all_data Hpoi Hpslen) as (p & Hrs).
    destruct (scale_attribute_cases all_data skip T_period len_period Hp Hskip)
      as [(Hlp & ->)|(Hlp & Xp & ->)]; cbn [bind];
      destruct (scale_attribute_cases all_data skip T_trend len_trend Ht Hskip)
        as [(Hlt & ->)|(Hlt & Xt & ->)]; cbn [bind getattr];
      rewrite Hps; cbn [bind]; rewrite Hrs; cbn [bind getattr];
      try reflexivity.
    lia.
Qed.

(** X12. A scale cannot be switched off.  When one of the three window
    lengths is not positive while another one is, and everything else is in
    range (a period of -25..24, the lag spans of the enabled scales within
    the skip offset, the skip offset within the series, a POI grid that
    fits), the constructor raises AttributeError: the blocks of lines 182-193
    leave the attribute of the disabled scale unassigned, and lines 200 and
    206-208 read all three attributes. *)
Theorem disabled_scale_raises_AttributeError (flow : ndarray4) (poi : ndarray3)
  (len_closeness len_period len_trend T_closeness T_period T_trend skip : Z)
  (normalize : bool) :
  let n := Z.of_nat (length (frames flow)) in
  elements flow <> [] ->
  poi_fits poi flow ->
  -25 <= T_period <= 24 ->
  number_of_skip_hours len_closeness len_period len_trend T_closeness T_period T_trend
  = Ok skip ->
  skip <= n \/ 2 * n <= skip ->
  (0 < len_closeness -> 0 <= T_closeness /\ T_closeness * len_closeness <= skip) ->
  (0 < len_period -> 0 <= T_period /\ T_period * len_period <= skip) ->
  (0 < len_trend -> 0 <= T_trend /\ T_trend * len_trend <= skip) ->
  len_closeness <= 0 \/ len_period <= 0 \/ len_trend <= 0 ->
  __init__ flow poi len_closeness len_period len_trend
    T_closeness T_period T_trend normalize = Raise AttributeError.
Proof.
  intros n Hne Hpoi HTp Hsk Hskip Hc Hp Ht Hdis.
  apply init_raises; [exact Hne|]. intros full Hl Hh Hw.
  apply (create_feature_vector_disabled full poi _ _ _ _ _ _ skip); try assumption.
  - destruct Hpoi as (Hch & Hfit). split; [exact Hch|]. rewrite Hh, Hw. exact Hfit.
  - rewrite Hl. exact Hskip.
Qed.

Lemma disabled_scale_raises_AttributeError_witness :
  __init__ (ramp 10) unit_poi 2 0 1 1 2 3 true = Raise AttributeError
  /\ __init__ (ramp 10) unit_poi 0 1 1 1 2 3 false = Raise AttributeError.
Proof.
  split.
  - apply (disabled_scale_raises_AttributeError (ramp 10) unit_poi 2 0 1 1 2 3 3 true).
    + vm_compute. discriminate.
    + split; [repeat constructor; vm_compute; discriminate|reflexivity].
    + lia.
    + reflexivity.
    + left. vm_compute. discriminate.
    + lia.
    + lia.
    + lia.
    + lia.
  - apply (disabled_scale_raises_AttributeError (ramp 10) unit_poi 0 1 1 1 2 3 3 false).
    + vm_compute. discriminate.
    + split; [repeat constructor; vm_compute; discriminate|reflexivity].
    + lia.
    + reflexivity.
    + left. vm_compute. discriminate.
    + lia.
    + lia.
    + lia.
    + lia.
Defined.

(** ** Errors in the unit of the flow *)

Lemma absolute_error_scale (d s x p : Q) :
  (0 < d)%Q ->
  (Qabs ((2 * x - s) / d - p) * d / 2 == Qabs (x - (p * d + s) / 2))%Q.
Proof.
  intros Hd.
  assert (Hd0 : ~ (d == 0)%Q).
  { intros H0. rewrite H0 in Hd. exact (Qlt_irrefl 0 Hd). }
  assert (E : ((2 * x - s) / d - p == (x - (p * d + s) / 2) * (2 / d))%Q)
    by (field; exact Hd0).
  rewrite E, Qabs_Qmult.
  rewrite (Qabs_pos (2 / d)).
  - field. exact Hd0.
  - apply Qle_shift_div_l; [exact Hd|]. rewrite Qmult_0_l. discriminate.
Qed.

(** Broadcasting keeps a relation between the elements. *)
Lemma Forall2_stretch {A B : Type} (R : A -> B -> Prop) (n : nat)
  (la : list A) (lb : list B) :
  Forall2 R la lb -> Forall2 R (stretch n la) (stretch n lb).
Proof.
  intros H. unfold stretch. rewrite <- (Forall2_length _ _ _ H).
  destruct (decide (length la = n)); [exact H|].
  destruct H as [|a b la lb Hab Hl]; [constructor|].
  destruct Hl; [|constructor; [exact Hab|constructor; assumption]].
  apply Forall2_replicate. exact Hab.
Qed.

Lemma Forall2_zip_with_rel {A A' B B' C C' : Type}
  (RA : A -> A' -> Prop) (RB : B -> B' -> Prop) (RC : C -> C' -> Prop)
  (F : A -> B -> C) (G : A' -> B' -> C')
  (la : list A) (la' : list A') (lb : list B) (lb' : list B') :
  (forall a a' b b', RA a a' -> RB b b' -> RC (F a b) (G a' b')) ->
  Forall2 RA la la' -> Forall2 RB lb lb' ->
  Forall2 RC (zip_with F la lb) (zip_with G la' lb').
Proof.
  intros HF Ha. revert lb lb'.
  induction Ha as [|a a' la la' Haa _ IH]; intros lb lb' Hb; simpl; [constructor|].
  destruct Hb as [|b b' lb lb' Hbb Hb]; [constructor|].
  constructor; [apply HF; assumption|apply IH; exact Hb].
Qed.

Lemma Forall2_broadcast_with {A A' B B' C C' : Type}
  (RA : A -> A' -> Prop) (RB : B -> B' -> Prop) (RC : C -> C' -> Prop) (n : nat)
  (F : A -> B -> C) (G : A' -> B' -> C')
  (la : list A) (la' : list A') (lb : list B) (lb' : list B') :
  (forall a a' b b', RA a a' -> RB b b' -> RC (F a b) (G a' b')) ->
  Forall2 RA la la' -> Forall2 RB lb lb' ->
  Forall2 RC (broadcast_with n F la lb) (broadcast_with n G la' lb').
Proof.
  intros HF Ha Hb. unfold broadcast_with.
  eapply Forall2_zip_with_rel; [exact HF| |]; apply Forall2_stretch; assumption.
Qed.

Lemma Forall2_concat_rel {A B : Type} (R : A -> B -> Prop)
  (xss : list (list A)) (yss : list (list B)) :
  Forall2 (Forall2 R) xss yss -> Forall2 R (concat xss) (concat yss).
Proof.
  induction 1 as [|xs ys xss yss Hxy _ IH]; simpl; [constructor|].
  apply Forall2_app; assumption.
Qed.

Lemma Forall2_map_rel {A B A' B' : Type} (R : A -> B -> Prop) (R' : A' -> B' -> Prop)
  (f : A -> A') (g : B -> B') (la : list A) (lb : list B) :
  (forall a b, R a b -> R' (f a) (g b)) ->
  Forall2 R la lb -> Forall2 R' (map f la) (map g lb).
Proof.
  intros Hfg. induction 1; simpl; constructor; auto.
Qed.

Lemma Forall2_map_l_lift {A B : Type} (R : B -> A -> Prop) (f : A -> B)
  (l : list A) :
  (forall a, R (f a) a) -> Forall2 R (map f l) l.
Proof. intros H. induction l; simpl; constructor; auto. Qed.

Lemma Forall2_map_r_lift {A B : Type} (R : A -> B -> Prop) (g : A -> B)
  (l : list A) :
  (forall a, R a (g a)) -> Forall2 R l (map g l).
Proof. intros H. induction l; simpl; constructor; auto. Qed.

(** Sums of lists related term by term through a factor. *)
Lemma qsum_scaled (k : Q) (xs ys : list Q) :
  Forall2 (fun x y => x * k == y)%Q xs ys -> (qsum xs * k == qsum ys)%Q.
Proof.
  induction 1 as [|x y xs ys Hxy _ IH]; simpl; [ring|].
  fold (qsum xs). fold (qsum ys). rewrite <- IH, <- Hxy. ring.
Qed.

Lemma py_slice_map {A B : Type} (f : A -> B) (i j : Z) (l : list A) :
  py_slice i j (map f l) = map f (py_slice i j l).
Proof.
  unfold py_slice. rewrite length_map.
  change (map f ?x) with (f <$> x). rewrite fmap_take, fmap_drop. reflexivity.
Qed.

Lemma slice_channels_map_elements (f : Q -> Q) (a : ndarray4) (i j : Z) :
  slice_channels (map_elements f a) i j = map_elements f (slice_channels a i j).
Proof.
  unfold slice_channels, map_elements. cbn [channels height width frames].
  f_equal. rewrite !map_map. apply map_ext. intros fr.
  unfold map_frame. apply py_slice_map.
Qed.

Lemma elements_abs_related (k : Q) (a b : ndarray4) :
  Forall2 (Forall2 (Forall2 (Forall2 (fun e1 e2 => Qabs e1 * k == Qabs e2)%Q)))
    (frames a) (frames b) ->
  Forall2 (fun e1 e2 => e1 * k == e2)%Q
    (elements (map_elements Qabs a)) (elements (map_elements Qabs b)).
Proof.
  intros H. unfold elements, map_elements. cbn [frames]. rewrite !map_map.
  apply Forall2_concat_rel. eapply Forall2_map_rel; [|exact H].
  intros fr1 fr2 Hfr. unfold frame_elements, map_frame. rewrite !map_map.
  apply Forall2_concat_rel. eapply Forall2_map_rel; [|exact Hfr].
  intros p1 p2 Hp. unfold plane_elements, map_plane.
  apply Forall2_concat_rel. eapply Forall2_map_rel; [|exact Hp].
  intros r1 r2 Hr. eapply Forall2_map_rel; [|exact Hr].
  intros e1 e2 He. exact He.
Qed.

Lemma broadcast_dim_cases (a b : nat) :
  (exists n, broadcast_dim a b = Ok n) \/ broadcast_dim a b = Raise ValueError.
Proof. unfold broadcast_dim. repeat destruct (decide _); eauto. Qed.

(** The absolute errors of two pairs of arrays whose targets and predictions
    correspond: related term by term. *)
Lemma absolute_errors_related (k : Q) (f g : Q -> Q) (y p : ndarray4) :
  (forall x q, Qabs (f x - q) * k == Qabs (x - g q))%Q ->
  (exists d1 d2,
     subtract (map_elements f y) p = Ok d1
     /\ subtract y (map_elements g p) = Ok d2
     /\ Forall2 (fun e1 e2 => e1 * k == e2)%Q
          (elements (map_elements Qabs d1)) (elements (map_elements Qabs d2)))
  \/ (subtract (map_elements f y) p = Raise ValueError
      /\ subtract y (map_elements g p) = Raise ValueError).
Proof.
  intros Hfg. unfold subtract. cbn [map_elements channels height width frames].
  rewrite !length_map.
  destruct (broadcast_dim_cases (length (frames y)) (length (frames p)))
    as [(n & ->)| ->]; [|right; split; reflexivity].
  destruct (broadcast_dim_cases (channels y) (channels p))
    as [(c & ->)| ->]; [|right; split; reflexivity].
  destruct (broadcast_dim_cases (height y) (height p))
    as [(h & ->)| ->]; [|right; split; reflexivity].
  destruct (broadcast_dim_cases (width y) (width p))
    as [(w & ->)| ->]; [|right; split; reflexivity].
  left. cbn [bind]. eexists. eexists. split; [reflexivity|]. split; [reflexivity|].
  apply elements_abs_related. cbn [frames].
  apply (Forall2_broadcast_with
           (Forall2 (Forall2 (Forall2 (fun b a => b = f a))))
           (Forall2 (Forall2 (Forall2 (fun a b => b = g a))))).
  - intros a a' b b' Ha Hb.
    apply (Forall2_broadcast_with
             (Forall2 (Forall2 (fun b a => b = f a)))
             (Forall2 (Forall2 (fun a b => b = g a)))); [|exact Ha|exact Hb].
    clear -Hfg. intros a a' b b' Ha Hb.
    apply (Forall2_broadcast_with
             (Forall2 (fun b a => b = f a))
             (Forall2 (fun a b => b = g a))); [|exact Ha|exact Hb].
    clear -Hfg. intros a a' b b' Ha Hb.
    apply (Forall2_broadcast_with
             (fun b a => b = f a) (fun a b => b = g a)); [|exact Ha|exact Hb].
    intros x x' q q' -> ->. apply Hfg.
  - apply Forall2_map_l_lift. intros fr. unfold map_frame.
    apply Forall2_map_l_lift. intros pl. unfold map_plane.
    apply Forall2_map_l_lift. intros r.
    apply Forall2_map_l_lift. reflexivity.
  - apply Forall2_map_r_lift. intros fr. unfold map_frame.
    apply Forall2_map_r_lift. intros pl. unfold map_plane.
    apply Forall2_map_r_lift. intros r.
    apply Forall2_map_r_lift. reflexivity.
Qed.

(** X13. The factor of the training script is the right one, floating point
    numbers being taken as rationals.  For a dataset constructed with
    normalisation from a series with [min < max]: whenever [compute_errors]
    can subtract the predictions, cut to their first two channels, from the
    normalised targets, and the difference is not empty, its mean absolute
    error multiplied by [min_max_diff / 2], as the script does with the value
    of [get_min_max_difference], is the mean absolute error between the raw
    targets and the predictions mapped back to the unit of the series. *)
Theorem real_error_in_flow_unit (flow : ndarray4) (poi : ndarray3)
  (len_closeness len_period len_trend T_closeness T_period T_trend : Z)
  (ds : BikeNYCDeepSTN) :
  __init__ flow poi len_closeness len_period len_trend
    T_closeness T_period T_trend true = Ok ds ->
  exists mx mn,
    np.max flow = Ok mx /\ np.min flow = Ok mn
    /\ full_data ds = map_elements (normalization mx mn) flow
    /\ ((mn < mx)%Q ->
        forall (raw preds diff : ndarray4),
          subtract (map_elements (normalization mx mn) raw)
            (slice_channels preds 0 2) = Ok diff ->
          elements diff <> [] ->
          exists e e',
            mean_absolute_error preds (map_elements (normalization mx mn) raw)
            = Ok e
            /\ mean_absolute_error
                 (map_elements
                    (denormalization (get_min_max_difference ds) (mx + mn)) preds)
                 raw = Ok e'
            /\ (real_error e (get_min_max_difference ds) == e')%Q).
Proof.
  intros H. apply init_Ok_inv in H
    as (mx & mn & fv & Hmx & Hmn & _ & Hfull & Hdiff & _).
  exists mx, mn. split; [exact Hmx|]. split; [exact Hmn|]. split; [exact Hfull|].
  intros Hlt raw preds diff Hsub Hne.
  unfold get_min_max_difference. rewrite Hdiff.
  assert (Hd : (0 < mx - mn)%Q).
  { unfold Qminus. apply (proj1 (Qlt_minus_iff mn mx)). exact Hlt. }
  unfold mean_absolute_error. rewrite slice_channels_map_elements.
  destruct (absolute_errors_related ((mx - mn) / 2)
              (normalization mx mn) (denormalization (mx - mn) (mx + mn))
              raw (slice_channels preds 0 2))
    as [(d1 & d2 & H1 & H2 & Hrel)|[H1 _]].
  { intros x q. unfold normalization, denormalization.
    rewrite <- (absolute_error_scale (mx - mn) (mx + mn) x q Hd). field. }
  2: { rewrite H1 in Hsub. discriminate. }
  rewrite H1 in Hsub. injection Hsub as ->.
  rewrite H1, H2. cbn [bind]. eexists. eexists.
  split; [reflexivity|]. split; [reflexivity|].
  unfold real_error, mean. rewrite <- (Forall2_length _ _ _ Hrel).
  rewrite <- (qsum_scaled _ _ _ Hrel).
  assert (Hn : ~ (inject_Z (Z.of_nat (length (elements (map_elements Qabs diff))))
                  == 0)%Q).
  { rewrite elements_map_elements, length_map.
    destruct (elements diff); [congruence|].
    simpl length. intros H0. unfold Qeq in H0. simpl in H0. lia. }
  field. exact Hn.
Qed.

Lemma real_error_in_flow_unit_witness :
  np.max (ramp 10) = Ok 9%Q /\ np.min (ramp 10) = Ok 0%Q
  /\ exists e e',
       mean_absolute_error (NdArray4 3 1 1 [[[[0%Q]]; [[1%Q]]; [[7%Q]]]])
         (map_elements (normalization 9 0) (NdArray4 2 1 1 [[[[3%Q]]; [[5%Q]]]]))
       = Ok e
       /\ mean_absolute_error
            (map_elements
               (denormalization (get_min_max_difference ramp_dataset) (9 + 0))
               (NdArray4 3 1 1 [[[[0%Q]]; [[1%Q]]; [[7%Q]]]]))
            (NdArray4 2 1 1 [[[[3%Q]]; [[5%Q]]]])
          = Ok e'
       /\ (real_error e (get_min_max_difference ramp_dataset) == e')%Q.
Proof.
  destruct (real_error_in_flow_unit (ramp 10) unit_poi 2 1 1 1 2 3 ramp_dataset)
    as (mx & mn & Hmx & Hmn & _ & Hscale); [vm_compute; reflexivity|].
  assert (Emx : mx = 9%Q) by (vm_compute in Hmx; congruence).
  assert (Emn : mn = 0%Q) by (vm_compute in Hmn; congruence).
  subst mx mn. split; [exact Hmx|]. split; [exact Hmn|].
  eapply Hscale; [reflexivity|reflexivity|vm_compute; discriminate].
Defined.
